(** * ShuftiPro KYC ledger: a shallow embedding of [service/ShuftiProKyc.js]

    The development follows the JavaScript source function by function:
    - JavaScript strings and values ([Js]),
    - the UTF-8 encoder and the SHA-256 digest behind [crypto.createHash]
      ([Utf8], [Sha256]),
    - the signature codec ([signatureFor], [verifyShuftiSignature]),
    - the in-memory ledger store of the test harness ([putItem], [getItem],
      [query]),
    - the service operations in a state-and-exception monad
      ([createVerificationSession], [handleWebhook], [updateRecordStatus],
      [registerLocalRateAndMaybeAlert]).  *)

From Stdlib Require Import List NArith ZArith String Ascii Lia Bool Sorted.
From Stdlib Require Import DecimalString DecimalN.
Import ListNotations.

Set Implicit Arguments.
Open Scope string_scope.
Open Scope list_scope.
Set Warnings "-register-all".

(* ================================================================== *)
(** ** JavaScript strings *)
(* ================================================================== *)

Module Js.

(** A JavaScript string is a sequence of UTF-16 code units. *)
Definition jsstring := list N.

(** An ASCII literal of the source as a JavaScript string. *)
Definition js (s : string) : jsstring :=
  map N_of_ascii (list_ascii_of_string s).

Fixpoint jseqb (a b : jsstring) : bool :=
  match a, b with
  | [], [] => true
  | x :: a', y :: b' => N.eqb x y && jseqb a' b'
  | _, _ => false
  end.

(** [WhiteSpace] and [LineTerminator] code units, the ones
    [String.prototype.trim] strips. *)
Definition is_js_space (u : N) : bool :=
  ((9 <=? u) && (u <=? 13) || (u =? 32) || (u =? 160) || (u =? 5760)
   || (8192 <=? u) && (u <=? 8202) || (u =? 8232) || (u =? 8233)
   || (u =? 8239) || (u =? 8287) || (u =? 12288) || (u =? 65279))%N.

Fixpoint trim_start (s : jsstring) : jsstring :=
  match s with
  | u :: s' => if is_js_space u then trim_start s' else s
  | [] => []
  end.

Definition trim_end (s : jsstring) : jsstring := rev (trim_start (rev s)).

(** [s.trim()] *)
Definition trim (s : jsstring) : jsstring := trim_end (trim_start s).

(** Decimal text of a non-negative integer, as a template literal prints
    [Date.now()] or an array length. *)
Definition of_N (n : N) : jsstring := js (NilEmpty.string_of_uint (N.to_uint n)).

Definition of_Z (z : Z) : jsstring :=
  match z with
  | Zneg p => js "-" ++ of_N (Npos p)
  | _ => of_N (Z.to_N z)
  end.

(* ------------------------------------------------------------------ *)
(** *** JavaScript values *)

(** The data values the service handles: what a JSON body, an HTTP header or
    a stored row can hold, plus [undefined].  A number is carried as the text
    [Number.prototype.toString] gives for it ([0] and [-0] are both "0"); the
    service only ever coerces numbers to strings or tests them for truth.
    An object is a plain record: its properties do not shadow the methods of
    [Object.prototype] ([toString], [valueOf]), so that [String(v)] is
    defined on every value. *)
Inductive JsVal : Type :=
| JUndefined
| JNull
| JBool (b : bool)
| JNum (text : jsstring)
| JStr (s : jsstring)
| JArr (items : list JsVal)
| JObj (fields : list (jsstring * JsVal)).

(** [!!v] *)
Definition truthy (v : JsVal) : bool :=
  match v with
  | JUndefined | JNull => false
  | JBool b => b
  | JNum t => negb (jseqb t (js "0") || jseqb t (js "NaN"))
  | JStr s => match s with [] => false | _ => true end
  | JArr _ | JObj _ => true
  end.

(** [a || b] *)
Definition js_or (a b : JsVal) : JsVal := if truthy a then a else b.

(** [a ?? b] *)
Definition js_nullish (a b : JsVal) : JsVal :=
  match a with
  | JUndefined | JNull => b
  | _ => a
  end.

(** [String(v)]: the coercion of a template literal, of [String(...)] and
    of string concatenation. *)
Fixpoint js_String (v : JsVal) : jsstring :=
  match v with
  | JUndefined => js "undefined"
  | JNull => js "null"
  | JBool true => js "true"
  | JBool false => js "false"
  | JNum t => t
  | JStr s => s
  | JArr items =>
      (fix join (l : list JsVal) : jsstring :=
         match l with
         | [] => []
         | x :: rest =>
             let sx := match x with
                       | JUndefined | JNull => []
                       | _ => js_String x
                       end in
             match rest with
             | [] => sx
             | _ => sx ++ js "," ++ join rest
             end
         end) items
  | JObj _ => js "[object Object]"
  end.

(** [v === "literal"] for a string [s]. *)
Definition is_str (v : JsVal) (s : jsstring) : bool :=
  match v with
  | JStr t => jseqb t s
  | _ => false
  end.

Fixpoint assoc (k : jsstring) (fields : list (jsstring * JsVal)) : option JsVal :=
  match fields with
  | [] => None
  | (k', v) :: rest => if jseqb k k' then Some v else assoc k rest
  end.

(** [v.k] and [v?.k] for the property names the service reads (none of them
    is a built-in property of a string, number or array): the own property of
    an object, [undefined] otherwise. *)
Definition get (v : JsVal) (k : string) : JsVal :=
  match v with
  | JObj fields => match assoc (js k) fields with Some x => x | None => JUndefined end
  | _ => JUndefined
  end.

(** Assignment [o[k] = v] on the property list: an existing key keeps its
    place, a new key goes last. *)
Fixpoint set_field (k : jsstring) (v : JsVal) (fields : list (jsstring * JsVal))
  : list (jsstring * JsVal) :=
  match fields with
  | [] => [(k, v)]
  | (k', v') :: rest =>
      if jseqb k k' then (k', v) :: rest else (k', v') :: set_field k v rest
  end.

(** An object literal [{ k1: v1, k2: v2, ... }]; a key written twice keeps
    its first place and its last value. *)
Definition obj (props : list (string * JsVal)) : JsVal :=
  JObj (fold_left (fun acc kv => set_field (js (fst kv)) (snd kv) acc) props []).

(** Spread [{ ...a, ...b }] of two property lists. *)
Definition spread (a b : list (jsstring * JsVal)) : list (jsstring * JsVal) :=
  fold_left (fun acc kv => set_field (fst kv) (snd kv) acc) b a.

Definition fields_of (v : JsVal) : list (jsstring * JsVal) :=
  match v with
  | JObj fs => fs
  | _ => []
  end.

End Js.
Import Js.

(* ================================================================== *)
(** ** UTF-8, as [hash.update(text, "utf8")] encodes its argument *)
(* ================================================================== *)

Module Utf8.
Local Open Scope N_scope.

Definition is_high_surrogate (u : N) : bool := (55296 <=? u) && (u <=? 56319).
Definition is_low_surrogate (u : N) : bool := (56320 <=? u) && (u <=? 57343).

(** U+FFFD, which Node writes for a surrogate without its partner:
    [Buffer.from("\uD800", "utf8")] is [ef bf bd]. *)
Definition replacement : list N := [239; 191; 189].

Definition encode_point (c : N) : list N :=
  if c <? 128 then [c]
  else if c <? 2048 then [192 + c / 64; 128 + c mod 64]
  else if c <? 65536 then [224 + c / 4096; 128 + (c / 64) mod 64; 128 + c mod 64]
  else [240 + c / 262144; 128 + (c / 4096) mod 64; 128 + (c / 64) mod 64; 128 + c mod 64].

Fixpoint encode (s : jsstring) : list N :=
  match s with
  | [] => []
  | u :: rest =>
      if is_high_surrogate u then
        match rest with
        | lo :: rest' =>
            if is_low_surrogate lo
            then encode_point (65536 + (u - 55296) * 1024 + (lo - 56320)) ++ encode rest'
            else replacement ++ encode rest
        | [] => replacement
        end
      else if is_low_surrogate u then replacement ++ encode rest
      else encode_point u ++ encode rest
  end.

End Utf8.

(* ================================================================== *)
(** ** SHA-256 (FIPS 180-4), the digest of [crypto.createHash("sha256")] *)
(* ================================================================== *)

Module Sha256.
Local Open Scope N_scope.

Definition w32 (x : N) : N := N.land x 4294967295.
Definition add32 (x y : N) : N := w32 (x + y).
Definition rotr (n x : N) : N := N.lor (N.shiftr x n) (w32 (N.shiftl x (32 - n))).

(** The constants are what the standard says they are: the first 32 bits of
    the fractional parts of the square roots (initial hash value) and of the
    cube roots (round constants) of the first primes. *)
Definition is_prime (p : N) : bool :=
  (1 <? p)
  && forallb (fun d => negb (p mod d =? 0))
       (map N.of_nat (seq 2 (N.to_nat (N.sqrt p) - 1))).

Definition first_primes (n : nat) : list N :=
  firstn n (filter is_prime (map N.of_nat (seq 2 400))).

Fixpoint cbrt_bits (bits : nat) (x acc : N) : N :=
  match bits with
  | O => acc
  | S b =>
      let c := acc + N.shiftl 1 (N.of_nat b) in
      cbrt_bits b x (if c * c * c <=? x then c else acc)
  end.

Definition frac_sqrt32 (p : N) : N := w32 (N.sqrt (N.shiftl p 64)).
Definition frac_cbrt32 (p : N) : N := w32 (cbrt_bits 48 (N.shiftl p 96) 0).

Definition H0 : list N := Eval vm_compute in map frac_sqrt32 (first_primes 8).
Definition K : list N := Eval vm_compute in map frac_cbrt32 (first_primes 64).

Definition Ch (x y z : N) : N := N.lxor (N.land x y) (N.land (N.lxor x 4294967295) z).
Definition Maj (x y z : N) : N := N.lxor (N.lxor (N.land x y) (N.land x z)) (N.land y z).
Definition Sigma0 (x : N) : N := N.lxor (N.lxor (rotr 2 x) (rotr 13 x)) (rotr 22 x).
Definition Sigma1 (x : N) : N := N.lxor (N.lxor (rotr 6 x) (rotr 11 x)) (rotr 25 x).
Definition sigma0 (x : N) : N := N.lxor (N.lxor (rotr 7 x) (rotr 18 x)) (N.shiftr x 3).
Definition sigma1 (x : N) : N := N.lxor (N.lxor (rotr 17 x) (rotr 19 x)) (N.shiftr x 10).

(** Padding: a 1 bit, zeros, and the bit length as a 64-bit big-endian
    number, up to a multiple of 64 bytes. *)
Definition be_bytes (count : nat) (x : N) : list N :=
  map (fun i => (N.shiftr x (8 * N.of_nat i)) mod 256) (rev (seq 0 count)).

Definition pad (msg : list N) : list N :=
  let len := N.of_nat (List.length msg) in
  let zeros := N.to_nat ((64 - (len + 9) mod 64) mod 64) in
  msg ++ [128] ++ repeat 0 zeros ++ be_bytes 8 (8 * len).

Fixpoint be_words (count : nat) (bytes : list N) : list N :=
  match count with
  | O => []
  | S c =>
      match bytes with
      | a :: b :: c' :: d :: rest =>
          (N.shiftl a 24 + N.shiftl b 16 + N.shiftl c' 8 + d) :: be_words c rest
      | _ => 0 :: be_words c []
      end
  end.

(** The message schedule, W_t for t < 64. *)
Fixpoint extend (steps : nat) (W : list N) : list N :=
  match steps with
  | O => W
  | S s =>
      let t := List.length W in
      let at_ (back : nat) := nth (t - back) W 0 in
      extend s (W ++ [add32 (add32 (sigma1 (at_ 2%nat)) (at_ 7%nat))
                            (add32 (sigma0 (at_ 15%nat)) (at_ 16%nat))])
  end.

Record state := St { sa : N; sb : N; sc : N; sd : N; se : N; sf : N; sg : N; sh : N }.

Definition round (s : state) (kw : N * N) : state :=
  let (k, w) := kw in
  let t1 := add32 (add32 (add32 (sh s) (Sigma1 (se s))) (add32 (Ch (se s) (sf s) (sg s)) k)) w in
  let t2 := add32 (Sigma0 (sa s)) (Maj (sa s) (sb s) (sc s)) in
  St (add32 t1 t2) (sa s) (sb s) (sc s) (add32 (sd s) t1) (se s) (sf s) (sg s).

Definition compress (s : state) (block : list N) : state :=
  let W := extend 48 (be_words 16 block) in
  let r := fold_left round (combine K W) s in
  St (add32 (sa s) (sa r)) (add32 (sb s) (sb r)) (add32 (sc s) (sc r))
     (add32 (sd s) (sd r)) (add32 (se s) (se r)) (add32 (sf s) (sf r))
     (add32 (sg s) (sg r)) (add32 (sh s) (sh r)).

Fixpoint blocks (count : nat) (bytes : list N) : list (list N) :=
  match count with
  | O => []
  | S c => firstn 64 bytes :: blocks c (skipn 64 bytes)
  end.

Definition initial : state :=
  St (nth 0 H0 0) (nth 1 H0 0) (nth 2 H0 0) (nth 3 H0 0)
     (nth 4 H0 0) (nth 5 H0 0) (nth 6 H0 0) (nth 7 H0 0).

Definition digest_words (msg : list N) : list N :=
  let p := pad msg in
  let s := fold_left compress (blocks (List.length p / 64) p) initial in
  [sa s; sb s; sc s; sd s; se s; sf s; sg s; sh s].

(** [.digest("hex")]: lower-case hexadecimal, eight digits a word. *)
Definition hex_digit (d : N) : N := if d <? 10 then 48 + d else 87 + d.

Definition hex_word (x : N) : jsstring :=
  map (fun i => hex_digit ((N.shiftr x (4 * N.of_nat i)) mod 16)) (rev (seq 0 8)).

Definition hex_digest (msg : list N) : jsstring :=
  flat_map hex_word (digest_words msg).

End Sha256.

(* ================================================================== *)
(** ** Results of calls that may throw *)
(* ================================================================== *)

Inductive JsError : Type :=
| TypeError (what : string)
| SyntaxError
| FetchFailed
| ValidationFailed (field : string)
| PlainError (message : string).

Inductive outcome (A : Type) : Type :=
| Returned (a : A)
| Thrown (e : JsError).
Arguments Returned {A} a.
Arguments Thrown {A} e.

Definition obind {A B : Type} (m : outcome A) (k : A -> outcome B) : outcome B :=
  match m with
  | Returned a => k a
  | Thrown e => Thrown e
  end.

Declare Scope outcome_scope.
Delimit Scope outcome_scope with outcome.
Notation "x <~ m ;; k" := (obind m (fun x => k))
  (at level 61, m at next level, right associativity) : outcome_scope.

(** [crypto.createHash("sha256").update(data, "utf8").digest("hex")].
    [update] takes a string (or a buffer) and throws a [TypeError] on anything
    else. *)
Definition sha256_hex (data : JsVal) : outcome jsstring :=
  match data with
  | JStr s => Returned (Sha256.hex_digest (Utf8.encode s))
  | _ => Thrown (TypeError "The data argument must be of type string")
  end.

(** helper/tinyHelper.js, [signatureFor(raw, secret)] *)
Definition signatureFor (raw secret : JsVal) : outcome jsstring :=
  (inner <~ sha256_hex secret ;;
   sha256_hex (JStr (js_String raw ++ inner)))%outcome.

(* ================================================================== *)
(** ** Configuration and constants of the service *)
(* ================================================================== *)

Record Config : Type := {
  TABLE : jsstring;
  CLIENT_ID : jsstring;
  SECRET_KEY : jsstring;
  API_URL : jsstring;
  CALLBACK_URL : jsstring;
  REDIRECT_URL : jsstring;
  HTTP_TIMEOUT_MS : Z;
  DEFAULT_LANGUAGE : jsstring;
  LOCALE_MAP : list (jsstring * jsstring);
  PER_MINUTE_LIMIT : Z
}.

(** The initial value of the module-level [CONFIG]. *)
Definition CONFIG : Config := {|
  TABLE := js "kyc_shufti";
  CLIENT_ID := [];
  SECRET_KEY := [];
  API_URL := js "https://api.shuftipro.com/";
  CALLBACK_URL := [];
  REDIRECT_URL := [];
  HTTP_TIMEOUT_MS := 15000;
  DEFAULT_LANGUAGE := js "en";
  LOCALE_MAP :=
    map (fun kv => (js (fst kv), js (snd kv)))
      [("en", "en"); ("en-AU", "en"); ("en-GB", "en"); ("en-US", "en");
       ("zh", "zh"); ("zh-CN", "zh"); ("zh-TW", "zh"); ("ja", "ja");
       ("ko", "ko"); ("tl", "tl"); ("fr", "fr"); ("de", "de"); ("es", "es");
       ("it", "it"); ("pt", "pt"); ("ru", "ru")]%string;
  PER_MINUTE_LIMIT := 60
|}.

(** [CONFIG.KEYS]: [pk], [sk] and the index [gsi_meta] (name GSI1, partition
    key [ppk], sort key [created_at]).  The in-memory store reads [item.pk]
    and [item.sk], so the names are the defaults throughout. *)
Module KEYS.
Definition pk : string := "pk".
Definition sk : string := "sk".
Definition gsi_name : string := "GSI1".
Definition gsi_pk : string := "ppk".
Definition gsi_sk : string := "created_at".
End KEYS.

Module LOG_FLAGS.
Definition request : string := "kyc_request".
Definition webhook : string := "kyc_webhook".
Definition status : string := "kyc_status".
Definition ratelimit : string := "kyc_rate_limit".
Definition error : string := "kyc_error".
End LOG_FLAGS.

Module KYC_EVENT.
Definition REQUEST_PENDING : string := "request.pending".
Definition REQUEST_INVALID : string := "request.invalid".
Definition REQUEST_UNAUTHORIZED : string := "request.unauthorized".
Definition REQUEST_TIMEOUT : string := "request.timeout".
Definition REQUEST_DELETED : string := "request.deleted".
Definition REQUEST_RECEIVED : string := "request.received".
Definition REQUEST_DATA_CHANGED : string := "request.data.changed".
Definition VERIFICATION_ACCEPTED : string := "verification.accepted".
Definition VERIFICATION_DECLINED : string := "verification.declined".
Definition VERIFICATION_STATUS_CHANGED : string := "verification.status.changed".
Definition VERIFICATION_CANCELLED : string := "verification.cancelled".
Definition REVIEW_PENDING : string := "review.pending".
End KYC_EVENT.

Definition ACTIVE_EVENTS : list string :=
  [KYC_EVENT.REQUEST_PENDING; KYC_EVENT.REQUEST_RECEIVED;
   KYC_EVENT.REVIEW_PENDING; KYC_EVENT.VERIFICATION_STATUS_CHANGED].

(** [ACTIVE_EVENTS.has(v)] *)
Definition ACTIVE_EVENTS_has (v : JsVal) : bool :=
  existsb (fun e => is_str v (js e)) ACTIVE_EVENTS.

(** [verifyShuftiSignature(rawBodyString, signatureHeaderValue)], with the
    configuration it reads made explicit. *)
Definition verifyShuftiSignature (cfg : Config)
    (rawBodyString signatureHeaderValue : JsVal) : outcome bool :=
  if negb (truthy rawBodyString) || negb (truthy signatureHeaderValue)
  then Returned false
  else
    (inner <~ sha256_hex (JStr (SECRET_KEY cfg)) ;;
     computed <~ sha256_hex (JStr (js_String rawBodyString ++ inner)) ;;
     Returned (jseqb computed (trim (js_String signatureHeaderValue))))%outcome.

(* ================================================================== *)
(** ** The host: clock, random source, JSON reader, HTTP client *)
(* ================================================================== *)

(** [Buffer.from(text, "utf8").toString("base64")] *)
Module Base64.
Local Open Scope N_scope.

Definition char (i : N) : N :=
  if i <? 26 then 65 + i
  else if i <? 52 then 71 + i
  else if i <? 62 then i - 4
  else if i =? 62 then 43 else 47.

Fixpoint encode (bytes : list N) : jsstring :=
  match bytes with
  | [] => []
  | [a] => [char (a / 4); char ((a mod 4) * 16); 61; 61]
  | [a; b] => [char (a / 4); char ((a mod 4) * 16 + b / 16); char ((b mod 16) * 4); 61]
  | a :: b :: c :: rest =>
      [char (a / 4); char ((a mod 4) * 16 + b / 16);
       char ((b mod 16) * 4 + c / 64); char (c mod 64)] ++ encode rest
  end.

End Base64.

(** What [fetch] is called with: the URL, the [Authorization] header and the
    value whose [JSON.stringify] text is the body. *)
Record Request : Type := {
  req_url : jsstring;
  req_authorization : jsstring;
  req_body : JsVal
}.

(** What [fetch] resolves to: [res.ok], [res.status], [res.headers.get(name)]
    (a string or [null]) and the text [res.text()] resolves to. *)
Record Response : Type := {
  res_ok : bool;
  res_status : Z;
  res_headers_get : string -> JsVal;
  res_text : jsstring
}.

(** The readings one call takes from its host.  [fetch] throws when the
    request fails or is aborted by the timeout; [JSON_parse] answers [None]
    where [JSON.parse] throws. *)
Record Host : Type := {
  Date_now : Z;
  Date_toISOString : jsstring;
  Math_random_100000 : N;
  JSON_parse : jsstring -> option JsVal;
  fetch : Request -> outcome Response
}.

(* ================================================================== *)
(** ** The world the service runs in *)
(* ================================================================== *)

(** A stored row is an object: its property list. *)
Definition Row := list (jsstring * JsVal).

Definition field (r : Row) (k : string) : JsVal := get (JObj r) k.

(** [meta?.k] on a row or [null]. *)
Definition opt_field (m : option Row) (k : string) : JsVal :=
  match m with
  | Some r => field r k
  | None => JUndefined
  end.

Record LogEntry : Type := {
  log_flag : string;
  log_action : string;
  log_message : string;
  log_data : JsVal;
  log_critical : bool
}.

Record ErrorEntry : Type := {
  err_message : string;
  err_data : JsVal
}.

Record World : Type := {
  (** the Map of the table [CONFIG.TABLE]: "pk|sk" -> item, in insertion order *)
  table : list (jsstring * Row);
  (** every item handed to [putItem], oldest first *)
  puts : list Row;
  (** what [Logger.writeLog] received, oldest first *)
  logs : list LogEntry;
  (** what [ErrorHandler.add_error] received, oldest first *)
  errors : list ErrorEntry;
  (** the module-level array of the rate guard *)
  LOCAL_REQUEST_TIMESTAMPS : list Z
}.

Definition empty_world : World :=
  {| table := []; puts := []; logs := []; errors := [];
     LOCAL_REQUEST_TIMESTAMPS := [] |}.

(** State and exceptions. *)
Definition M (A : Type) : Type := World -> outcome A * World.

Definition ret {A : Type} (a : A) : M A := fun w => (Returned a, w).

Definition throw {A : Type} (e : JsError) : M A := fun w => (Thrown e, w).

Definition bind {A B : Type} (m : M A) (k : A -> M B) : M B :=
  fun w =>
    match m w with
    | (Returned a, w') => k a w'
    | (Thrown e, w') => (Thrown e, w')
    end.

Definition lift {A : Type} (o : outcome A) : M A := fun w => (o, w).

Declare Scope kyc_scope.
Delimit Scope kyc_scope with kyc.
Notation "x <- m ;; k" := (bind m (fun x => k))
  (at level 61, m at next level, right associativity) : kyc_scope.
Notation "m ;; k" := (bind m (fun _ => k))
  (at level 61, right associativity) : kyc_scope.

(* ------------------------------------------------------------------ *)
(** *** Logger and error sink *)

Definition writeLog (flag action message : string) (data : JsVal) (critical : bool)
  : M unit :=
  fun w =>
    (Returned tt,
     {| table := table w; puts := puts w;
        logs := logs w ++ [{| log_flag := flag; log_action := action;
                              log_message := message; log_data := data;
                              log_critical := critical |}];
        errors := errors w;
        LOCAL_REQUEST_TIMESTAMPS := LOCAL_REQUEST_TIMESTAMPS w |}).

Definition add_error (message : string) (data : JsVal) : M unit :=
  fun w =>
    (Returned tt,
     {| table := table w; puts := puts w; logs := logs w;
        errors := errors w ++ [{| err_message := message; err_data := data |}];
        LOCAL_REQUEST_TIMESTAMPS := LOCAL_REQUEST_TIMESTAMPS w |}).

(* ------------------------------------------------------------------ *)
(** *** The ledger store, as the in-memory harness implements it *)

(** [JSON.parse(JSON.stringify(v))] on a value below the top: a property
    that is [undefined] is dropped, an array element that is [undefined]
    and a number that is not finite become [null]. *)
Fixpoint json_clone (v : JsVal) : JsVal :=
  match v with
  | JNum t =>
      if jseqb t (js "NaN") || jseqb t (js "Infinity") || jseqb t (js "-Infinity")
      then JNull else JNum t
  | JArr items =>
      JArr (map (fun x => match x with
                          | JUndefined => JNull
                          | _ => json_clone x
                          end) items)
  | JObj fields =>
      JObj ((fix clone_fields (l : list (jsstring * JsVal)) : list (jsstring * JsVal) :=
               match l with
               | [] => []
               | (k, JUndefined) :: rest => clone_fields rest
               | (k, x) :: rest => (k, json_clone x) :: clone_fields rest
               end) fields)
  | _ => v
  end.

(** [deepClone(o)] of helper/tinyHelper.js, on a row. *)
Definition deepClone (r : Row) : Row := fields_of (json_clone (JObj r)).

(** The Map key [`${item.pk}|${item.sk}`]. *)
Definition item_key (pk sk : JsVal) : jsstring :=
  js_String pk ++ js "|" ++ js_String sk.

(** [Map.prototype.set]: an existing key keeps its place. *)
Fixpoint Map_set (k : jsstring) (v : Row) (t : list (jsstring * Row))
  : list (jsstring * Row) :=
  match t with
  | [] => [(k, v)]
  | (k', v') :: rest =>
      if jseqb k k' then (k', v) :: rest else (k', v') :: Map_set k v rest
  end.

Fixpoint Map_get (k : jsstring) (t : list (jsstring * Row)) : option Row :=
  match t with
  | [] => None
  | (k', v) :: rest => if jseqb k k' then Some v else Map_get k rest
  end.

(** [ScyllaDb.putItem(table, item)] *)
Definition putItem (item : Row) : M bool :=
  fun w =>
    (Returned true,
     {| table := Map_set (item_key (field item "pk") (field item "sk"))
                         (deepClone item) (table w);
        puts := puts w ++ [item];
        logs := logs w; errors := errors w;
        LOCAL_REQUEST_TIMESTAMPS := LOCAL_REQUEST_TIMESTAMPS w |}).

(** What [getItem] finds in the Map: [row ? deepClone(row) : null]. *)
Definition get_row (pk sk : JsVal) (t : list (jsstring * Row)) : option Row :=
  match Map_get (item_key pk sk) t with
  | Some r => Some (deepClone r)
  | None => None
  end.

(** [ScyllaDb.getItem(table, { pk, sk })]: the row, or [null]. *)
Definition getItem (pk sk : JsVal) : M (option Row) :=
  fun w => (Returned (get_row pk sk (table w)), w).

(** What [query] returns from the Map.  With or without [IndexName] the
    harness keeps the rows whose attribute, as a string, equals the bound
    value as a string, in Map order, cuts the batch at [Limit] and clones
    it. *)
Definition query_rows (attr : string) (val : JsVal) (Limit : option nat)
    (t : list (jsstring * Row)) : list Row :=
  let results :=
    filter (fun it => jseqb (js_String (field it attr)) (js_String val))
           (map snd t) in
  let results :=
    match Limit with
    | Some (S n) => firstn (S n) results
    | _ => results
    end in
  map deepClone results.

(** [ScyllaDb.query(table, "<attr> = :x", { ":x": val }, options)] *)
Definition query (attr : string) (val : JsVal) (IndexName : option string)
    (Limit : option nat) : M (list Row) :=
  fun w => (Returned (query_rows attr val Limit (table w)), w).

(** [pickMeta(items)]: the first row of type [meta]. *)
Fixpoint pickMeta (items : list Row) : option Row :=
  match items with
  | [] => None
  | it :: rest => if is_str (field it "type") (js "meta") then Some it else pickMeta rest
  end.

(** [pickMeta(latestByRef) || latestByRef[0] || null] *)
Definition pickMeta_or_first (latestByRef : list Row) : option Row :=
  match pickMeta latestByRef with
  | Some m => Some m
  | None => hd_error latestByRef
  end.

(* ================================================================== *)
(** ** Helpers of the service *)
(* ================================================================== *)

Definition row (props : list (string * JsVal)) : Row := fields_of (obj props).

(** The template literal [`${prefix}${v}`]. *)
Definition template (prefix : string) (v : JsVal) : JsVal :=
  JStr (js prefix ++ js_String v).

(** [generateReference()] *)
Definition generateReference (h : Host) : jsstring :=
  js "ref-" ++ of_Z (Date_now h) ++ js "-" ++ of_N (Math_random_100000 h).

(** [CONFIG.LOCALE_MAP[key]], for the keys of the table itself. *)
Fixpoint locale_lookup (key : jsstring) (m : list (jsstring * jsstring)) : option jsstring :=
  match m with
  | [] => None
  | (k, v) :: rest => if jseqb key k then Some v else locale_lookup key rest
  end.

(** [key.split("-")[0]] *)
Fixpoint before_dash (key : jsstring) : jsstring :=
  match key with
  | [] => []
  | u :: rest => if N.eqb u 45 then [] else u :: before_dash rest
  end.

(** [normalizeLocaleToLanguage(appLocale)] *)
Definition normalizeLocaleToLanguage (cfg : Config) (appLocale : JsVal) : jsstring :=
  if negb (truthy appLocale) then DEFAULT_LANGUAGE cfg
  else
    let key := trim (js_String appLocale) in
    match locale_lookup key (LOCALE_MAP cfg) with
    | Some (u :: l) => u :: l
    | _ =>
        match locale_lookup (before_dash key) (LOCALE_MAP cfg) with
        | Some (u :: l) => u :: l
        | _ => DEFAULT_LANGUAGE cfg
        end
    end.

(** The [while] loop of the rate guard: drop from the front what is older
    than a minute. *)
Fixpoint shift_old (now : Z) (stamps : list Z) : list Z :=
  match stamps with
  | [] => []
  | t :: rest => if (now - t >? 60000)%Z then shift_old now rest else stamps
  end.

(** [registerLocalRateAndMaybeAlert(contextLabel)] *)
Definition registerLocalRateAndMaybeAlert (cfg : Config) (h : Host)
    (contextLabel : string) : M unit :=
  fun w =>
    let now := Date_now h in
    let stamps := shift_old now (LOCAL_REQUEST_TIMESTAMPS w ++ [now]) in
    let w1 := {| table := table w; puts := puts w; logs := logs w;
                 errors := errors w; LOCAL_REQUEST_TIMESTAMPS := stamps |} in
    let count := List.length stamps in
    if (Z.of_nat count >? PER_MINUTE_LIMIT cfg)%Z then
      (writeLog LOG_FLAGS.ratelimit "breach" "Local per-minute threshold breached"
         (obj [("contextLabel", JStr (js contextLabel));
               ("count", JNum (of_N (N.of_nat count)))]) true ;;
       putItem (row [("pk", JStr (js "system_shufti"));
                     ("sk", JStr (Date_toISOString h));
                     ("ppk", JStr (js "rate_limit"));
                     ("created_at", JStr (Date_toISOString h));
                     ("type", JStr (js "rate_limit"));
                     ("context", JStr (js contextLabel));
                     ("countInLastMinute", JNum (of_N (N.of_nat count)))]) ;;
       ret tt)%kyc w1
    else (Returned tt, w1).

(** [sanitizeValidate] on one entry, as the harness implements it: the value,
    else the default, else [null]; a required entry that is [null],
    [undefined] or empty throws. *)
Definition sanitize (name : string) (value default : JsVal) (required : bool)
  : outcome JsVal :=
  let v := js_nullish (js_nullish value default) JNull in
  let missing := match v with
                 | JNull | JUndefined | JStr [] => true
                 | _ => false
                 end in
  if required && missing then Thrown (ValidationFailed name) else Returned v.

(** The argument object of [createVerificationSession]; an absent property
    is [JUndefined]. *)
Record SessionArgs : Type := {
  userId : JsVal;
  userEmail : JsVal;
  appLocale : JsVal;
  userCountry : JsVal;
  verificationMode : JsVal;
  documentConfig : JsVal
}.

Record Clean : Type := {
  clean_userId : JsVal;
  clean_userEmail : JsVal;
  clean_appLocale : JsVal;
  clean_userCountry : JsVal;
  clean_verificationMode : JsVal
}.

(** A parameter default [x = d]: it replaces [undefined] only. *)
Definition param_default (x d : JsVal) : JsVal :=
  match x with
  | JUndefined => d
  | _ => x
  end.

Definition sanitizeValidate (a : SessionArgs) : outcome Clean :=
  (uid <~ sanitize "userId" (userId a) JUndefined true ;;
   mail <~ sanitize "userEmail" (userEmail a) JUndefined true ;;
   loc <~ sanitize "appLocale" (js_nullish (appLocale a) JNull) JNull false ;;
   country <~ sanitize "userCountry"
     (js_nullish (param_default (userCountry a) (JStr [])) (JStr []))
     (JStr []) false ;;
   mode <~ sanitize "verificationMode"
     (js_nullish (param_default (verificationMode a) (JStr (js "any"))) (JStr (js "any")))
     (JStr (js "any")) false ;;
   Returned {| clean_userId := uid; clean_userEmail := mail;
               clean_appLocale := loc; clean_userCountry := country;
               clean_verificationMode := mode |})%outcome.

(** [documentConfig.k]: reading a property of [null] or [undefined] throws. *)
Definition member (v : JsVal) (k : string) : outcome JsVal :=
  match v with
  | JNull | JUndefined => Thrown (TypeError "Cannot read properties of null")
  | _ => Returned (get v k)
  end.

(** What [{ ...v }] copies: the properties of an object, the indexed
    elements of an array or of a string, nothing of another value. *)
Definition spread_source (v : JsVal) : list (jsstring * JsVal) :=
  match v with
  | JObj fs => fs
  | JArr items => combine (map (fun i => of_N (N.of_nat i)) (seq 0 (List.length items))) items
  | JStr s => combine (map (fun i => of_N (N.of_nat i)) (seq 0 (List.length s)))
                      (map (fun u => JStr [u]) s)
  | _ => []
  end.

Definition str (s : string) : JsVal := JStr (js s).

(** The request payload of a new session. *)
Definition build_payload (cfg : Config) (c : Clean) (documentConfig : JsVal)
    (reference language : jsstring) : outcome JsVal :=
  let dc := param_default documentConfig (obj []) in
  (name <~ member dc "name" ;;
   dob <~ member dc "dob" ;;
   enhanced <~ member dc "fetch_enhanced_data" ;;
   types <~ member dc "supported_types" ;;
   instructions <~ member dc "verification_instructions" ;;
   Returned
     (obj ([("reference", JStr reference);
            ("email", clean_userEmail c);
            ("country", clean_userCountry c);
            ("language", JStr language);
            ("verification_mode", clean_verificationMode c);
            ("allow_offline", str "1");
            ("allow_online", str "1");
            ("show_privacy_policy", str "0");
            ("show_results", str "1");
            ("show_consent", str "0");
            ("show_feedback_form", str "0");
            ("manual_review", str "0")]
           ++ (if truthy (JStr (CALLBACK_URL cfg))
               then [("callback_url", JStr (CALLBACK_URL cfg))] else [])
           ++ (if truthy (JStr (REDIRECT_URL cfg))
               then [("redirect_url", JStr (REDIRECT_URL cfg))] else [])
           ++ [("document",
                obj [("name", js_nullish name (JStr []));
                     ("dob", js_nullish dob (JStr []));
                     ("fetch_enhanced_data", js_nullish enhanced (str "1"));
                     ("supported_types",
                      js_nullish types
                        (JArr [str "id_card"; str "driving_license"; str "passport"]));
                     ("verification_instructions",
                      JObj (spread
                              (fields_of
                                 (obj [("allow_paper_based", str "1");
                                       ("allow_photocopy", str "1");
                                       ("allow_colorcopy", str "1");
                                       ("allow_black_and_white", str "1");
                                       ("allow_laminated", str "1");
                                       ("allow_screenshot", str "1");
                                       ("allow_cropped", str "1");
                                       ("allow_scanned", str "1");
                                       ("allow_e_document", str "1");
                                       ("allow_handwritten_document", str "1")]))
                              (spread_source (js_or instructions (obj [])))))])])))%outcome.

(** [String(err)] *)
Definition error_text (e : JsError) : jsstring :=
  match e with
  | TypeError what => js "TypeError: " ++ js what
  | SyntaxError => js "SyntaxError"
  | FetchFailed => js "TypeError: fetch failed"
  | ValidationFailed f => js "Error: Validation failed: " ++ js f ++ js " required"
  | PlainError m => js "Error: " ++ js m
  end.

(* ================================================================== *)
(** ** The service: [class ShuftiProKyc] *)
(* ================================================================== *)

Section Service.

Variable cfg : Config.
Variable h : Host.

Local Open Scope kyc_scope.

(** How the [for] loop of the resolver ends: by a [return] of the function,
    or at the end of the timeline with what [activeCandidate] holds. *)
Inductive LoopExit : Type :=
| Return (result : JsVal)
| Completed (activeCandidate : option JsVal).

(** [meta?.status || item.event || "unknown"] *)
Definition derived_status (meta : option Row) (item : Row) : JsVal :=
  js_or (js_or (opt_field meta "status") (field item "event")) (str "unknown").

(** [meta?.verificationUrl ?? item.verificationUrl ?? null] *)
Definition derived_url (meta : option Row) (item : Row) : JsVal :=
  js_nullish (js_nullish (opt_field meta "verificationUrl") (field item "verificationUrl"))
             JNull.

Definition reuse_result (flag : string) (item : Row) (status verificationUrl : JsVal)
  : JsVal :=
  obj [(flag, JBool true);
       ("reference", field item "reference");
       ("status", status);
       ("verificationUrl", verificationUrl)].

(** The loop [for (const item of sortedTimeline)] of
    [createVerificationSession]. *)
Fixpoint scanTimeline (c : Clean) (sortedTimeline : list Row)
    (activeCandidate : option JsVal) : M LoopExit :=
  match sortedTimeline with
  | [] => ret (Completed activeCandidate)
  | item :: rest =>
      if negb (is_str (field item "type") (js "verification_request"))
      then scanTimeline c rest activeCandidate
      else
        byRef <- query KEYS.gsi_pk (field item "reference") (Some KEYS.gsi_name) None ;;
        let latestByRef := rev byRef in
        let meta := pickMeta_or_first latestByRef in
        let status := derived_status meta item in
        let verificationUrl := derived_url meta item in
        if is_str status (js KYC_EVENT.VERIFICATION_ACCEPTED) then
          writeLog LOG_FLAGS.request "reuse_accepted"
            "User already verified; returning accepted session"
            (obj [("userId", clean_userId c); ("reference", field item "reference")])
            false ;;
          ret (Return (reuse_result "alreadyValidated" item status verificationUrl))
        else
          scanTimeline c rest
            (match activeCandidate with
             | Some a => Some a
             | None =>
                 if ACTIVE_EVENTS_has status
                 then Some (reuse_result "alreadyHasActive" item status verificationUrl)
                 else None
             end)
  end.

(** The language of a new session:
    [normalizeLocaleToLanguage(clean.appLocale || CONFIG.DEFAULT_LANGUAGE)]. *)
Definition session_language (c : Clean) : jsstring :=
  normalizeLocaleToLanguage cfg
    (js_or (clean_appLocale c) (JStr (DEFAULT_LANGUAGE cfg))).

(** The request [fetch] is called with. *)
Definition provider_request (payload : JsVal) : Request :=
  {| req_url := API_URL cfg;
     req_authorization :=
       js "Basic "
       ++ Base64.encode (Utf8.encode (CLIENT_ID cfg ++ js ":" ++ SECRET_KEY cfg));
     req_body := payload |}.

(** [res.headers.get("signature") || res.headers.get("Signature")], or the
    empty string. *)
Definition response_signature (res : Response) : JsVal :=
  js_or (js_or (res_headers_get res "signature") (res_headers_get res "Signature"))
        (JStr []).

(** [rawBody ? JSON.parse(rawBody) : {}]; [None] where [JSON.parse] throws. *)
Definition parse_response (rawBody : jsstring) : option JsVal :=
  match rawBody with
  | [] => Some (obj [])
  | _ => JSON_parse h rawBody
  end.

(** Step 2 of [createVerificationSession]: create a new session. *)
Definition createNewSession (c : Clean) (documentConfig : JsVal) : M JsVal :=
  registerLocalRateAndMaybeAlert cfg h "createVerificationSession" ;;
  let reference := generateReference h in
  let language := session_language c in
  let created_at := JStr (Date_toISOString h) in
  payload <- lift (build_payload cfg c documentConfig reference language) ;;
  writeLog LOG_FLAGS.request "create_new" "Creating new Shufti session"
    (obj [("userId", clean_userId c); ("reference", JStr reference)]) false ;;
  match fetch h (provider_request payload) with
  | Thrown err =>
      add_error "KYC network error (createVerificationSession)"
        (obj [("userId", clean_userId c); ("reference", JStr reference);
              ("error", JStr (error_text err))]) ;;
      writeLog LOG_FLAGS.error "network_error" "Network error contacting Shufti"
        (obj [("userId", clean_userId c); ("reference", JStr reference);
              ("error", JStr (error_text err))]) true ;;
      throw err
  | Returned res =>
      let signatureHeader := response_signature res in
      let rawBody := res_text res in
      match parse_response rawBody with
      | None =>
          add_error "KYC response invalid JSON"
            (obj [("userId", clean_userId c); ("reference", JStr reference);
                  ("snippet", JStr (firstn 500 rawBody))]) ;;
          writeLog LOG_FLAGS.error "invalid_json" "Shufti returned invalid JSON"
            (obj [("userId", clean_userId c); ("reference", JStr reference)]) true ;;
          throw SyntaxError
      | Some parsed =>
          (if negb (res_ok res) then
             add_error "KYC response non-200"
               (obj [("userId", clean_userId c); ("reference", JStr reference);
                     ("status", JNum (of_Z (res_status res))); ("parsed", parsed)]) ;;
             writeLog LOG_FLAGS.error "non_200" "Shufti returned non-200"
               (obj [("userId", clean_userId c); ("reference", JStr reference);
                     ("status", JNum (of_Z (res_status res)))]) false
           else ret tt) ;;
          valid <- lift (verifyShuftiSignature cfg (JStr rawBody) signatureHeader) ;;
          if negb valid then
            add_error "KYC response signature invalid"
              (obj [("userId", clean_userId c); ("reference", JStr reference)]) ;;
            writeLog LOG_FLAGS.error "invalid_signature"
              "Invalid signature in Shufti response"
              (obj [("userId", clean_userId c); ("reference", JStr reference)]) true ;;
            throw (PlainError "Invalid Shufti HTTP signature")
          else
            let event := js_or (get parsed "event") (str "unknown") in
            let verificationUrl := js_or (get parsed "verification_url") JNull in
            putItem (row [(KEYS.pk, template "user_" (clean_userId c));
                          (KEYS.sk, created_at);
                          (KEYS.gsi_pk, JStr reference);
                          (KEYS.gsi_sk, created_at);
                          ("type", str "verification_request");
                          ("userId", clean_userId c);
                          ("reference", JStr reference);
                          ("event", event);
                          ("verificationUrl", verificationUrl);
                          ("requestPayload", payload);
                          ("responsePayload", parsed);
                          ("language", JStr language);
                          ("created_at", created_at)]) ;;
            putItem (row [(KEYS.pk, template "meta_" (JStr reference));
                          (KEYS.sk, str "meta");
                          (KEYS.gsi_pk, JStr reference);
                          (KEYS.gsi_sk, created_at);
                          ("type", str "meta");
                          ("userId", clean_userId c);
                          ("reference", JStr reference);
                          ("status", event);
                          ("verificationUrl", verificationUrl);
                          ("language", JStr language);
                          ("created_at", created_at)]) ;;
            writeLog LOG_FLAGS.request "created" "New Shufti session created"
              (obj [("userId", clean_userId c); ("reference", JStr reference);
                    ("event", event)]) false ;;
            ret (obj [("reference", JStr reference); ("verificationUrl", verificationUrl)])
      end
  end.

(** Step 1 of [createVerificationSession]: validate the input, read the
    user's timeline and scan it newest-first for a session to reuse. *)
Definition resolveSession (a : SessionArgs) : M (Clean * LoopExit) :=
  clean <- lift (sanitizeValidate a) ;;
  timeline <- query KEYS.pk (template "user_" (clean_userId clean)) None (Some 50%nat) ;;
  let sortedTimeline := rev timeline in
  scan <- scanTimeline clean sortedTimeline None ;;
  ret (clean, scan).

(** [createVerificationSession({ userId, userEmail, appLocale, userCountry,
    verificationMode, documentConfig })] *)
Definition createVerificationSession (a : SessionArgs) : M JsVal :=
  resolved <- resolveSession a ;;
  match snd resolved with
  | Return result => ret result
  | Completed (Some activeCandidate) =>
      writeLog LOG_FLAGS.request "reuse_active"
        "Active verification session exists; reusing"
        (obj [("userId", clean_userId (fst resolved));
              ("reference", get activeCandidate "reference");
              ("status", get activeCandidate "status")]) false ;;
      ret activeCandidate
  | Completed None => createNewSession (fst resolved) (documentConfig a)
  end.

(** [handleWebhook({ rawBodyString, signatureHeader })] *)
Definition handleWebhook (rawBodyString signatureHeader : JsVal) : M JsVal :=
  writeLog LOG_FLAGS.webhook "received" "Webhook received"
    (obj [("bytes",
           JNum (if truthy rawBodyString
                 then of_N (N.of_nat (List.length (js_String rawBodyString)))
                 else js "0"))]) false ;;
  valid <- lift (verifyShuftiSignature cfg rawBodyString signatureHeader) ;;
  if negb valid then
    add_error "KYC webhook signature invalid" JUndefined ;;
    writeLog LOG_FLAGS.error "invalid_signature" "Invalid signature on webhook"
      (obj []) true ;;
    ret (obj [("ok", JBool false)])
  else
    match JSON_parse h (js_String rawBodyString) with
    | None =>
        add_error "KYC webhook invalid JSON"
          (obj [("snippet", JStr (firstn 500 (js_String rawBodyString)))]) ;;
        writeLog LOG_FLAGS.error "invalid_json" "Webhook JSON parse failed"
          (obj []) true ;;
        ret (obj [("ok", JBool false)])
    | Some payload =>
        let reference := js_or (get payload "reference") (str "unknown") in
        let event := js_or (get payload "event") (str "unknown") in
        let created_at := JStr (Date_toISOString h) in
        byRef <- query KEYS.gsi_pk reference (Some KEYS.gsi_name) None ;;
        let latestByRef := rev byRef in
        let meta := pickMeta_or_first latestByRef in
        let userId :=
          js_or (js_or (opt_field meta "userId") (get payload "user_id")) (str "unknown") in
        putItem (row [(KEYS.pk, template "user_" userId);
                      (KEYS.sk, created_at);
                      (KEYS.gsi_pk, reference);
                      (KEYS.gsi_sk, created_at);
                      ("type", str "webhook_event");
                      ("userId", userId);
                      ("reference", reference);
                      ("event", event);
                      ("webhookPayload", payload);
                      ("created_at", created_at)]) ;;
        putItem (row [(KEYS.pk, template "meta_" reference);
                      (KEYS.sk, str "meta");
                      (KEYS.gsi_pk, reference);
                      (KEYS.gsi_sk, created_at);
                      ("type", str "meta");
                      ("userId", userId);
                      ("reference", reference);
                      ("status", event);
                      ("lastEvent", event);
                      ("lastEventAt", created_at);
                      ("verificationUrl", js_nullish (opt_field meta "verificationUrl") JNull);
                      ("language",
                       js_nullish (opt_field meta "language") (JStr (DEFAULT_LANGUAGE cfg)));
                      ("created_at", js_nullish (opt_field meta "created_at") created_at)]) ;;
        writeLog LOG_FLAGS.webhook "stored" "Webhook stored and meta updated"
          (obj [("userId", userId); ("reference", reference); ("event", event)]) false ;;
        ret (obj [("ok", JBool true); ("reference", reference); ("event", event)])
    end.




(** The loop of [isUserValidated]. *)
Fixpoint scanValidated (sortedTimeline : list Row) : M bool :=
  match sortedTimeline with
  | [] => ret false
  | item :: rest =>
      if negb (is_str (field item "type") (js "verification_request"))
      then scanValidated rest
      else
        byRef <- query KEYS.gsi_pk (field item "reference") (Some KEYS.gsi_name) None ;;
        let meta := pickMeta_or_first (rev byRef) in
        if is_str (opt_field meta "status") (js KYC_EVENT.VERIFICATION_ACCEPTED)
        then ret true
        else scanValidated rest
  end.

(** [isUserValidated(userId)] *)
Definition isUserValidated (userId : JsVal) : M bool :=
  timeline <- query KEYS.pk (template "user_" userId) None (Some 50%nat) ;;
  scanValidated (rev timeline).

(** [updateRecordStatus(reference, newStatus)] *)
Definition updateRecordStatus (reference newStatus : JsVal) : M bool :=
  byRef <- query KEYS.gsi_pk reference (Some KEYS.gsi_name) None ;;
  let latestByRef := rev byRef in
  meta <- match pickMeta_or_first latestByRef with
          | Some m => ret (Some m)
          | None => getItem (template "meta_" reference) (str "meta")
          end ;;
  match meta with
  | None =>
      add_error "KYC updateRecordStatus: meta not found"
        (obj [("reference", reference); ("newStatus", newStatus)]) ;;
      writeLog LOG_FLAGS.error "meta_missing"
        "Meta not found for reference during status update"
        (obj [("reference", reference); ("newStatus", newStatus)]) false ;;
      ret false
  | Some meta =>
      let created_at := JStr (Date_toISOString h) in
      putItem (row [(KEYS.pk, template "meta_" reference);
                    (KEYS.sk, str "meta");
                    (KEYS.gsi_pk, reference);
                    (KEYS.gsi_sk, created_at);
                    ("type", str "meta");
                    ("userId", field meta "userId");
                    ("reference", reference);
                    ("status", newStatus);
                    ("lastEvent", newStatus);
                    ("lastEventAt", created_at);
                    ("verificationUrl", js_nullish (field meta "verificationUrl") JNull);
                    ("language",
                     js_nullish (field meta "language") (JStr (DEFAULT_LANGUAGE cfg)));
                    ("created_at", js_nullish (field meta "created_at") created_at)]) ;;
      putItem (row [(KEYS.pk, template "user_" (field meta "userId"));
                    (KEYS.sk, created_at);
                    (KEYS.gsi_pk, reference);
                    (KEYS.gsi_sk, created_at);
                    ("type", str "status_change");
                    ("userId", field meta "userId");
                    ("reference", reference);
                    ("event", str KYC_EVENT.VERIFICATION_STATUS_CHANGED);
                    ("newStatus", newStatus);
                    ("created_at", created_at)]) ;;
      writeLog LOG_FLAGS.status "updated" "Status updated + change logged"
        (obj [("reference", reference); ("newStatus", newStatus);
              ("userId", field meta "userId")]) false ;;
      ret true
  end.

End Service.

(* ================================================================== *)
(** ** A host to run the service on examples *)
(* ================================================================== *)

(** A reader for JSON texts whose numbers are integers: on such a text it
    answers as [JSON.parse], on a text with a fraction or an exponent it
    answers [None].  The theorems below hold for every [JSON_parse]; this
    one evaluates the examples. *)
Module Json.
Local Open Scope N_scope.

Definition is_ws (u : N) : bool := (u =? 32) || (u =? 9) || (u =? 10) || (u =? 13).

Fixpoint skip_ws (s : jsstring) : jsstring :=
  match s with
  | u :: rest => if is_ws u then skip_ws rest else s
  | [] => []
  end.

Fixpoint strip_prefix (prefix s : jsstring) : option jsstring :=
  match prefix, s with
  | [], _ => Some s
  | p :: prefix', u :: s' => if p =? u then strip_prefix prefix' s' else None
  | _ :: _, [] => None
  end.

Definition hex_value (u : N) : option N :=
  if (48 <=? u) && (u <=? 57) then Some (u - 48)
  else if (97 <=? u) && (u <=? 102) then Some (u - 87)
  else if (65 <=? u) && (u <=? 70) then Some (u - 55)
  else None.

(** The characters of a string literal after its opening quote. *)
Fixpoint read_string (s acc : jsstring) : option (jsstring * jsstring) :=
  match s with
  | [] => None
  | u :: rest =>
      if u =? 34 then Some (acc, rest)
      else if u <? 32 then None
      else if u =? 92 then
        match rest with
        | e :: rest' =>
            if e =? 117 then
              match rest' with
              | a :: b :: c :: d :: rest'' =>
                  match hex_value a, hex_value b, hex_value c, hex_value d with
                  | Some x, Some y, Some z, Some t =>
                      read_string rest'' (acc ++ [x * 4096 + y * 256 + z * 16 + t])
                  | _, _, _, _ => None
                  end
              | _ => None
              end
            else
              match (if (e =? 34) || (e =? 92) || (e =? 47) then Some e
                     else if e =? 98 then Some 8
                     else if e =? 102 then Some 12
                     else if e =? 110 then Some 10
                     else if e =? 114 then Some 13
                     else if e =? 116 then Some 9
                     else None) with
              | Some c => read_string rest' (acc ++ [c])
              | None => None
              end
        | [] => None
        end
      else read_string rest (acc ++ [u])
  end.

Definition is_digit (u : N) : bool := (48 <=? u) && (u <=? 57).

Fixpoint read_digits (s acc : jsstring) : jsstring * jsstring :=
  match s with
  | u :: rest => if is_digit u then read_digits rest (acc ++ [u]) else (acc, s)
  | [] => (acc, [])
  end.

(** An integer literal: an optional minus, then 0 or digits without a
    leading 0; [-0] reads as the number whose text is "0". *)
Definition read_integer (s : jsstring) : option (JsVal * jsstring) :=
  let (neg, body) := match s with
                     | u :: rest => if u =? 45 then (true, rest) else (false, s)
                     | [] => (false, s)
                     end in
  let (digits, rest) := read_digits body [] in
  let tail_ok := match rest with
                 | u :: _ => negb ((u =? 46) || (u =? 101) || (u =? 69))
                 | [] => true
                 end in
  match digits with
  | [] => None
  | d :: more =>
      if negb tail_ok then None
      else if (d =? 48) && negb (match more with [] => true | _ => false end) then None
      else if (d =? 48) then Some (JNum (js "0"), rest)
      else Some (JNum ((if neg then js "-" else []) ++ digits), rest)
  end.

Fixpoint read_value (fuel : nat) (s : jsstring) : option (JsVal * jsstring) :=
  match fuel with
  | O => None
  | S f =>
      let s := skip_ws s in
      match strip_prefix (js "null") s with
      | Some r => Some (JNull, r)
      | None =>
      match strip_prefix (js "true") s with
      | Some r => Some (JBool true, r)
      | None =>
      match strip_prefix (js "false") s with
      | Some r => Some (JBool false, r)
      | None =>
      match s with
      | [] => None
      | u :: r =>
          if u =? 34 then
            match read_string r [] with
            | Some (t, r') => Some (JStr t, r')
            | None => None
            end
          else if u =? 91 then
            match skip_ws r with
            | c :: r' => if c =? 93 then Some (JArr [], r') else read_items f r []
            | [] => None
            end
          else if u =? 123 then
            match skip_ws r with
            | c :: r' => if c =? 125 then Some (JObj [], r') else read_members f r []
            | [] => None
            end
          else read_integer s
      end end end end
  end

with read_items (fuel : nat) (s : jsstring) (acc : list JsVal)
  : option (JsVal * jsstring) :=
  match fuel with
  | O => None
  | S f =>
      match read_value f s with
      | Some (v, r) =>
          match skip_ws r with
          | c :: r' =>
              if c =? 44 then read_items f r' (acc ++ [v])
              else if c =? 93 then Some (JArr (acc ++ [v]), r')
              else None
          | [] => None
          end
      | None => None
      end
  end

with read_members (fuel : nat) (s : jsstring) (acc : list (jsstring * JsVal))
  : option (JsVal * jsstring) :=
  match fuel with
  | O => None
  | S f =>
      match skip_ws s with
      | q :: r =>
          if q =? 34 then
            match read_string r [] with
            | Some (k, r1) =>
                match skip_ws r1 with
                | c :: r2 =>
                    if c =? 58 then
                      match read_value f r2 with
                      | Some (v, r3) =>
                          match skip_ws r3 with
                          | d :: r4 =>
                              if d =? 44 then read_members f r4 (set_field k v acc)
                              else if d =? 125 then Some (JObj (set_field k v acc), r4)
                              else None
                          | [] => None
                          end
                      | None => None
                      end
                    else None
                | [] => None
                end
            | None => None
            end
          else None
      | [] => None
      end
  end.

Definition parse (s : jsstring) : option JsVal :=
  match read_value (2 * List.length s + 2) s with
  | Some (v, r) => match skip_ws r with [] => Some v | _ => None end
  | None => None
  end.

End Json.

(** A host that reads the clock at [now] (ISO text [iso]), draws [rnd] and
    gets [res] from the provider. *)
Definition host (now : Z) (iso : string) (rnd : N) (res : Request -> outcome Response)
  : Host :=
  {| Date_now := now; Date_toISOString := js iso; Math_random_100000 := rnd;
     JSON_parse := Json.parse; fetch := res |}.

Definition no_network : Request -> outcome Response := fun _ => Thrown FetchFailed.

(** The provider of test/test.js: [global.fetch] in each of its modes. *)
Inductive FetchMode : Type :=
| HAPPY | NON_200 | INVALID_JSON | BAD_SIGNATURE | NETWORK_ERROR.

Definition quoted (s : jsstring) : jsstring := [34%N] ++ s ++ [34%N].

(** [JSON.stringify] of an object whose values are strings free of quotes,
    backslashes and control characters. *)
Fixpoint members (props : list (string * jsstring)) : jsstring :=
  match props with
  | [] => []
  | (k, v) :: rest =>
      quoted (js k) ++ js ":" ++ quoted v
      ++ match rest with [] => [] | _ => js "," ++ members rest end
  end.

Definition stringify (props : list (string * jsstring)) : jsstring :=
  js "{" ++ members props ++ js "}".

Definition test_fetch (secret : jsstring) (mode : FetchMode) (req : Request)
  : outcome Response :=
  match mode with
  | NETWORK_ERROR => Thrown (PlainError "Simulated network failure")
  | _ =>
      let reference := js_String (get (req_body req) "reference") in
      let rawBody :=
        match mode with
        | NON_200 =>
            stringify [("event", js KYC_EVENT.REQUEST_INVALID);
                       ("error", js "Bad request")]
        | INVALID_JSON => js "{ not-json"
        | _ =>
            stringify [("reference", reference);
                       ("event", js KYC_EVENT.REQUEST_PENDING);
                       ("verification_url", js "https://verify.example/" ++ reference)]
        end in
      let status := match mode with NON_200 => 400%Z | _ => 200%Z end in
      let goodSig :=
        Sha256.hex_digest
          (Utf8.encode (rawBody ++ Sha256.hex_digest (Utf8.encode secret))) in
      let signature := match mode with BAD_SIGNATURE => js "WRONG" | _ => goodSig end in
      Returned {| res_ok := (200 <=? status)%Z && (status <? 300)%Z;
                  res_status := status;
                  res_headers_get :=
                    (fun k => if String.eqb k "signature" || String.eqb k "Signature"
                              then JStr signature else JNull);
                  res_text := rawBody |}
  end.

(* ================================================================== *)
(** ** Vocabulary of the statements *)
(* ================================================================== *)

(** The tag [verifyShuftiSignature] computes for a body. *)
Definition expected_tag (cfg : Config) (body : jsstring) : jsstring :=
  Sha256.hex_digest
    (Utf8.encode (body ++ Sha256.hex_digest (Utf8.encode (SECRET_KEY cfg)))).

Definition no_space (s : jsstring) : Prop :=
  Forall (fun u => is_js_space u = false) s.


(** Nothing was written: the table, the log of [putItem] calls and the
    window of the rate guard are as before. *)
Definition same_store (w w' : World) : Prop :=
  table w' = table w /\ puts w' = puts w
  /\ LOCAL_REQUEST_TIMESTAMPS w' = LOCAL_REQUEST_TIMESTAMPS w.

(** The Meta Projection the resolver and the webhook handler work with for
    a reference: what [pickMeta(latestByRef) || latestByRef[0] || null]
    gives on the index query. *)
Definition meta_for (t : list (jsstring * Row)) (reference : JsVal) : option Row :=
  pickMeta_or_first (rev (query_rows KEYS.gsi_pk reference None t)).

(** The same with the point lookup of [updateRecordStatus] behind it. *)
Definition meta_or_lookup (t : list (jsstring * Row)) (reference : JsVal) : option Row :=
  match meta_for t reference with
  | Some m => Some m
  | None => get_row (template "meta_" reference) (str "meta") t
  end.

Definition is_request (item : Row) : bool :=
  is_str (field item "type") (js "verification_request").

Definition entry_status (t : list (jsstring * Row)) (item : Row) : JsVal :=
  derived_status (meta_for t (field item "reference")) item.

Definition entry_url (t : list (jsstring * Row)) (item : Row) : JsVal :=
  derived_url (meta_for t (field item "reference")) item.

Definition accepted (t : list (jsstring * Row)) (item : Row) : bool :=
  is_str (entry_status t item) (js KYC_EVENT.VERIFICATION_ACCEPTED).

Definition active (t : list (jsstring * Row)) (item : Row) : bool :=
  ACTIVE_EVENTS_has (entry_status t item).

(** The [verification_request] entries of a user, in the order the resolver
    examines them. *)
Definition scan_order (t : list (jsstring * Row)) (userId : JsVal) : list Row :=
  filter is_request (rev (query_rows KEYS.pk (template "user_" userId) (Some 50%nat) t)).

(** A run of accounted calls, one host reading a call. *)
Fixpoint account (cfg : Config) (label : string) (calls : list Host) (w : World) : World :=
  match calls with
  | [] => w
  | h :: rest => account cfg label rest (snd (registerLocalRateAndMaybeAlert cfg h label w))
  end.

(** The timeline the resolver scans: the batch of the user's partition,
    reversed. *)
Definition timeline_of (c : Clean) (w : World) : list Row :=
  rev (query_rows KEYS.pk (template "user_" (clean_userId c)) (Some 50%nat) (table w)).

(* ------------------------------------------------------------------ *)
(** *** Example ledgers *)

Definition store_rows (rows : list Row) (w : World) : World :=
  fold_left (fun acc r => snd (putItem r acc)) rows w.

Definition example_request (user reference created event : string) : Row :=
  row [("pk", template "user_" (str user)); ("sk", str created);
       ("ppk", str reference); ("created_at", str created);
       ("type", str "verification_request"); ("userId", str user);
       ("reference", str reference); ("event", str event);
       ("verificationUrl", JNull)].

Definition example_meta (user reference created status : string) : Row :=
  row [("pk", template "meta_" (str reference)); ("sk", str "meta");
       ("ppk", str reference); ("created_at", str created);
       ("type", str "meta"); ("userId", str user);
       ("reference", str reference); ("status", str status);
       ("verificationUrl", JNull); ("language", str "en")].

(** User u1 with an accepted attempt and, later, a pending one. *)
Definition accepted_then_pending : World :=
  store_rows
    [example_request "u1" "ref-a" "2025-01-01T00:00:00.000Z" "request.pending";
     example_meta "u1" "ref-a" "2025-01-01T00:00:00.000Z" "verification.accepted";
     example_request "u1" "ref-b" "2025-01-02T00:00:00.000Z" "request.pending";
     example_meta "u1" "ref-b" "2025-01-02T00:00:00.000Z" "request.pending"]
    empty_world.

(** User u1 with one pending attempt. *)
Definition one_pending : World :=
  store_rows
    [example_request "u1" "ref-b" "2025-01-02T00:00:00.000Z" "request.pending";
     example_meta "u1" "ref-b" "2025-01-02T00:00:00.000Z" "request.pending"]
    empty_world.

Definition example_args (user : string) : SessionArgs :=
  {| userId := str user; userEmail := str "user@example.com";
     appLocale := str "en-AU"; userCountry := str "AU";
     verificationMode := JUndefined; documentConfig := JUndefined |}.

Definition example_clean (user : string) : Clean :=
  {| clean_userId := str user; clean_userEmail := str "user@example.com";
     clean_appLocale := str "en-AU"; clean_userCountry := str "AU";
     clean_verificationMode := str "any" |}.

(** The configuration of test/test.js. *)
Definition test_config : Config :=
  {| TABLE := js "kyc_shufti"; CLIENT_ID := js "client_123";
     SECRET_KEY := js "secret_abc"; API_URL := js "https://api.shuftipro.com/";
     CALLBACK_URL := js "https://your.app/kyc/webhook";
     REDIRECT_URL := js "https://your.app/kyc/status";
     HTTP_TIMEOUT_MS := 15000; DEFAULT_LANGUAGE := js "en";
     LOCALE_MAP := LOCALE_MAP CONFIG; PER_MINUTE_LIMIT := 60 |}.

Definition test_host (mode : FetchMode) : Host :=
  host 1735862400000 "2025-01-03T00:00:00.000Z" 42 (test_fetch (js "secret_abc") mode).

(** A provider that answers 500 with a tag that is not the body's. *)
Definition rejected_unsigned : Request -> outcome Response :=
  fun _ => Returned {| res_ok := false; res_status := 500;
                       res_headers_get := (fun _ => str "WRONG");
                       res_text := js "{}" |}.


(** A ledger in which the rows of ref-x are stored but not (yet) visible
    through the index: they lack the index key [ppk]. *)
Definition unindexed_meta : World :=
  store_rows
    [row [("pk", str "user_u7"); ("sk", str "2025-01-01T00:00:00.000Z");
          ("created_at", str "2025-01-01T00:00:00.000Z");
          ("type", str "verification_request"); ("userId", str "u7");
          ("reference", str "ref-x"); ("event", str "request.invalid")];
     row [("pk", str "meta_ref-x"); ("sk", str "meta");
          ("created_at", str "2025-01-01T00:00:00.000Z");
          ("type", str "meta"); ("userId", str "u7"); ("reference", str "ref-x");
          ("status", str "verification.accepted")]]
    empty_world.

Definition unindexed_webhook_body : jsstring :=
  stringify [("reference", js "ref-x"); ("event", js "verification.declined")].

(** The window of the rate guard after a call: the call appended, the old
    entries dropped from the front. *)
Definition window_after (h : Host) (w : World) : list Z :=
  shift_old (Date_now h) (LOCAL_REQUEST_TIMESTAMPS w ++ [Date_now h]).

(** A timestamp of the last sixty seconds. *)
Definition within_minute (now t : Z) : bool := (now - t <=? 60000)%Z.

(** Calls half a second apart. *)
Definition burst (n : nat) : list Host :=
  map (fun i => host (1735862400000 + Z.of_nat i * 500) "2025-01-03T00:00:00.000Z" 0
                     no_network)
      (seq 0 n).

(* ------------------------------------------------------------------ *)
(** *** The scenario of test/test.js, steps 1 to 4 *)

Definition scenario_args : SessionArgs :=
  {| userId := str "u1"; userEmail := str "user@example.com";
     appLocale := str "en-AU"; userCountry := str "AU";
     verificationMode := str "any";
     documentConfig := obj [("name", str "John Doe"); ("dob", str "1990-01-01")] |}.

Definition scenario_host (seconds : Z) (iso : string) : Host :=
  host (1735862400000 + seconds * 1000) iso 42 (test_fetch (js "secret_abc") HAPPY).

Definition scenario_reference : jsstring := js "ref-1735862400000-42".

Definition scenario_created : outcome JsVal * World :=
  createVerificationSession test_config
    (scenario_host 0 "2025-01-03T00:00:00.000Z") scenario_args empty_world.

Definition scenario_again : outcome JsVal * World :=
  createVerificationSession test_config
    (scenario_host 1 "2025-01-03T00:00:01.000Z") scenario_args (snd scenario_created).

Definition scenario_webhook_body : jsstring :=
  stringify [("reference", scenario_reference);
             ("event", js KYC_EVENT.VERIFICATION_ACCEPTED)].

Definition scenario_webhook : outcome JsVal * World :=
  handleWebhook test_config (scenario_host 2 "2025-01-03T00:00:02.000Z")
    (JStr scenario_webhook_body)
    (JStr (expected_tag test_config scenario_webhook_body)) (snd scenario_again).

Definition scenario_validated : outcome JsVal * World :=
  createVerificationSession test_config
    (scenario_host 3 "2025-01-03T00:00:03.000Z") scenario_args (snd scenario_webhook).

(* ================================================================== *)
(** ** Further vocabulary *)
(* ================================================================== *)


Definition all_space (s : jsstring) : Prop :=
  Forall (fun u => is_js_space u = true) s.


(* ------------------------------------------------------------------ *)
(** *** [configure] *)

(** The options object of [configure]: an absent key is [None]. *)
Record Options : Type := {
  opt_TABLE : option jsstring;
  opt_CLIENT_ID : option jsstring;
  opt_SECRET_KEY : option jsstring;
  opt_API_URL : option jsstring;
  opt_CALLBACK_URL : option jsstring;
  opt_REDIRECT_URL : option jsstring;
  opt_HTTP_TIMEOUT_MS : option Z;
  opt_DEFAULT_LANGUAGE : option jsstring;
  opt_LOCALE_MAP : option (list (jsstring * jsstring));
  opt_PER_MINUTE_LIMIT : option Z
}.

Definition no_options : Options :=
  {| opt_TABLE := None; opt_CLIENT_ID := None; opt_SECRET_KEY := None;
     opt_API_URL := None; opt_CALLBACK_URL := None; opt_REDIRECT_URL := None;
     opt_HTTP_TIMEOUT_MS := None; opt_DEFAULT_LANGUAGE := None;
     opt_LOCALE_MAP := None; opt_PER_MINUTE_LIMIT := None |}.

Definition override {A : Type} (o : option A) (current : A) : A :=
  match o with
  | Some x => x
  | None => current
  end.

(** [{ ...CONFIG, ...options }] *)
Definition merge_options (cfg : Config) (o : Options) : Config :=
  {| TABLE := override (opt_TABLE o) (TABLE cfg);
     CLIENT_ID := override (opt_CLIENT_ID o) (CLIENT_ID cfg);
     SECRET_KEY := override (opt_SECRET_KEY o) (SECRET_KEY cfg);
     API_URL := override (opt_API_URL o) (API_URL cfg);
     CALLBACK_URL := override (opt_CALLBACK_URL o) (CALLBACK_URL cfg);
     REDIRECT_URL := override (opt_REDIRECT_URL o) (REDIRECT_URL cfg);
     HTTP_TIMEOUT_MS := override (opt_HTTP_TIMEOUT_MS o) (HTTP_TIMEOUT_MS cfg);
     DEFAULT_LANGUAGE := override (opt_DEFAULT_LANGUAGE o) (DEFAULT_LANGUAGE cfg);
     LOCALE_MAP := override (opt_LOCALE_MAP o) (LOCALE_MAP cfg);
     PER_MINUTE_LIMIT := override (opt_PER_MINUTE_LIMIT o) (PER_MINUTE_LIMIT cfg) |}.

(** [CONFIG.API_URL = url] *)
Definition set_API_URL (cfg : Config) (url : jsstring) : Config :=
  {| TABLE := TABLE cfg; CLIENT_ID := CLIENT_ID cfg; SECRET_KEY := SECRET_KEY cfg;
     API_URL := url;
     CALLBACK_URL := CALLBACK_URL cfg; REDIRECT_URL := REDIRECT_URL cfg;
     HTTP_TIMEOUT_MS := HTTP_TIMEOUT_MS cfg; DEFAULT_LANGUAGE := DEFAULT_LANGUAGE cfg;
     LOCALE_MAP := LOCALE_MAP cfg; PER_MINUTE_LIMIT := PER_MINUTE_LIMIT cfg |}.

(** A letter from A to Z as its small letter: how the flag [i] of a regular
    expression compares the letters of [http]. *)
Definition fold_case (u : N) : N :=
  if ((65 <=? u) && (u <=? 90))%N then (u + 32)%N else u.

(** What is left of [s] after [prefix], compared without regard to case;
    [prefix] is in small letters. *)
Fixpoint strip_ci (prefix s : jsstring) : option jsstring :=
  match prefix with
  | [] => Some s
  | p :: prefix' =>
      match s with
      | u :: s' => if N.eqb (fold_case u) p then strip_ci prefix' s' else None
      | [] => None
      end
  end.

(** [/^https?:\/\//i.test(url)] *)
Definition has_http_scheme (url : jsstring) : bool :=
  match strip_ci (js "http") url with
  | Some rest =>
      match strip_ci (js "://") rest with
      | Some _ => true
      | None =>
          match strip_ci (js "s") rest with
          | Some rest' =>
              match strip_ci (js "://") rest' with
              | Some _ => true
              | None => false
              end
          | None => false
          end
      end
  | None => false
  end.

(** [url.endsWith("/")] *)
Definition ends_with_slash (url : jsstring) : bool :=
  match rev url with
  | u :: _ => N.eqb u 47
  | [] => false
  end.

(** [configure(options)]: the new value of [CONFIG]. *)
Definition configure (cfg : Config) (options : Options) : M Config :=
  let merged := merge_options cfg options in
  let schemed :=
    if negb (has_http_scheme (API_URL merged))
    then set_API_URL merged (js "https://api.shuftipro.com/")
    else merged in
  let slashed :=
    if negb (ends_with_slash (API_URL schemed))
    then set_API_URL schemed (API_URL schemed ++ js "/")
    else schemed in
  (writeLog LOG_FLAGS.request "configure" "KYC configured"
     (obj [("api", JStr (API_URL slashed));
           ("callback", JBool (truthy (JStr (CALLBACK_URL slashed))));
           ("table", JStr (TABLE slashed))]) false ;;
   ret slashed)%kyc.



(** What the validation refuses for a required entry: [null], [undefined]
    and the empty string. *)
Definition is_missing (v : JsVal) : bool :=
  match v with
  | JUndefined | JNull | JStr [] => true
  | _ => false
  end.

(** A provider that answers 200 with nothing in the body, under a tag that
    is well formed. *)
Definition empty_answer : Request -> outcome Response :=
  fun _ => Returned {| res_ok := true; res_status := 200;
                       res_headers_get := (fun _ => JStr (expected_tag test_config []));
                       res_text := [] |}.

(** User u1 with one declined attempt. *)
Definition declined_only : World :=
  store_rows
    [example_request "u1" "ref-d" "2025-01-01T00:00:00.000Z" "request.pending";
     example_meta "u1" "ref-d" "2025-01-01T00:00:00.000Z" "verification.declined"]
    empty_world.


(** What [isUserValidated] tests on an entry: [meta?.status] alone, without
    the [item.event] the resolver falls back to. *)
Definition validated (t : list (jsstring * Row)) (item : Row) : bool :=
  is_str (opt_field (meta_for t (field item "reference")) "status")
         (js KYC_EVENT.VERIFICATION_ACCEPTED).

(** [item.type === ty] *)
Definition of_type (ty : string) (item : Row) : bool :=
  is_str (field item "type") (js ty).



(** The shape the service's writes give the Map: keys are unique, a row is
    the JSON image it was stored as and sits under its own [pk|sk], and a
    [meta] row sits under the [meta] key of the reference it is indexed
    by. *)
Definition ledger_shape (t : list (jsstring * Row)) : Prop :=
  NoDup (map fst t)
  /\ forall k r, In (k, r) t ->
       deepClone r = r
       /\ k = item_key (field r KEYS.pk) (field r KEYS.sk)
       /\ (of_type "meta" r = true ->
           k = item_key (template "meta_" (field r KEYS.gsi_pk)) (str "meta")).




(** A reference the index can hold: it is defined, and [String] of it is
    the same before and after [deepClone] (true of every string). *)
Definition indexable (v : JsVal) : Prop :=
  v <> JUndefined /\ js_String (json_clone v) = js_String v.

(** The Map after the two writes of a created session, when both keys are
    new. *)
Definition after_creation (t : list (jsstring * Row)) (u : JsVal)
    (created_at ref : jsstring) (request meta : Row) : list (jsstring * Row) :=
  t ++ [(item_key (template "user_" u) (JStr created_at), deepClone request);
        (item_key (template "meta_" (JStr ref)) (str "meta"), deepClone meta)].

(** The instructions every session starts from. *)
Definition default_instructions : JsVal :=
  obj [("allow_paper_based", str "1");
       ("allow_photocopy", str "1");
       ("allow_colorcopy", str "1");
       ("allow_black_and_white", str "1");
       ("allow_laminated", str "1");
       ("allow_screenshot", str "1");
       ("allow_cropped", str "1");
       ("allow_scanned", str "1");
       ("allow_e_document", str "1");
       ("allow_handwritten_document", str "1")].

(** The last binding of a property in a list of properties. *)
Definition last_binding (k : string) (fields : list (jsstring * JsVal)) : option JsVal :=
  assoc (js k) (rev fields).

(** A ledger in which user u3 has fifty declined attempts. *)
Definition old_attempt (i : nat) : Row :=
  row [("pk", str "user_u3"); ("sk", JStr (js "2024-" ++ of_N (N.of_nat i)));
       ("ppk", JStr (js "old-" ++ of_N (N.of_nat i)));
       ("created_at", JStr (js "2024-" ++ of_N (N.of_nat i)));
       ("type", str "verification_request"); ("userId", str "u3");
       ("reference", JStr (js "old-" ++ of_N (N.of_nat i)));
       ("event", str "verification.declined")].

Definition crowded : World := store_rows (map old_attempt (seq 0 50)) empty_world.

(** A webhook for ref-b that names another user. *)
Definition foreign_webhook_body : jsstring :=
  stringify [("reference", js "ref-b");
             ("event", js "verification.declined");
             ("user_id", js "u9")].


(** The Map after the two writes of [updateRecordStatus]. *)
Definition after_override (t : list (jsstring * Row)) (user created_at : JsVal)
    (R : jsstring) (meta change : Row) : list (jsstring * Row) :=
  Map_set (item_key (template "user_" user) created_at) (deepClone change)
    (Map_set (item_key (template "meta_" (JStr R)) (str "meta")) (deepClone meta) t).

(* ================================================================== *)
(** * Properties *)
(* ================================================================== *)

Unset Implicit Arguments.

(** The two vectors of the standard, and a tag whose message fills two
    blocks. *)
Example sha256_empty :
  Sha256.hex_digest [] =
  js "e3b0c44298fc1c149afbf4c8996fb92427ae41e4649b934ca495991b7852b855".
Proof. vm_compute. reflexivity. Qed.

Example sha256_abc :
  Sha256.hex_digest (Utf8.encode (js "abc")) =
  js "ba7816bf8f01cfea414140de5dae2223b00361a396177a9cb410ff61f20015ad".
Proof. vm_compute. reflexivity. Qed.

Example signatureFor_two_blocks :
  signatureFor (JStr (stringify [("a", js "1")])) (str "secret_abc") =
  Returned (js "2d6e51409474470fa57fb105de9c188b40c801c6baa85d5cd718a5121b97f101").
Proof. vm_compute. reflexivity. Qed.

(** The scenario of the test suite runs in the model as it does in Node: a
    session is created, the next call reuses it as active, the accepted
    webhook is stored, the user is validated and the next call reuses the
    accepted session. *)
Example end_to_end_scenario :
  fst scenario_created =
    Returned (obj [("reference", JStr scenario_reference);
                   ("verificationUrl",
                    JStr (js "https://verify.example/" ++ scenario_reference))])
  /\ fst scenario_again =
    Returned (obj [("alreadyHasActive", JBool true);
                   ("reference", JStr scenario_reference);
                   ("status", str "request.pending");
                   ("verificationUrl",
                    JStr (js "https://verify.example/" ++ scenario_reference))])
  /\ fst scenario_webhook =
    Returned (obj [("ok", JBool true); ("reference", JStr scenario_reference);
                   ("event", str "verification.accepted")])
  /\ fst (isUserValidated (str "u1") (snd scenario_webhook)) = Returned true
  /\ fst scenario_validated =
    Returned (obj [("alreadyValidated", JBool true);
                   ("reference", JStr scenario_reference);
                   ("status", str "verification.accepted");
                   ("verificationUrl",
                    JStr (js "https://verify.example/" ++ scenario_reference))])
  /\ List.length (puts (snd scenario_validated)) = 4%nat.
Proof. vm_compute. repeat split. Qed.

(* ------------------------------------------------------------------ *)
(** ** Strings *)

Lemma jseqb_refl (a : jsstring) : jseqb a a = true.
Proof.
  induction a as [|x a IH]; cbn; [reflexivity|].
  rewrite N.eqb_refl, IH. reflexivity.
Qed.

Lemma jseqb_eq (a b : jsstring) : jseqb a b = true <-> a = b.
Proof.
  split.
  - revert b. induction a as [|x a IH]; intros [|y b]; cbn; try discriminate; auto.
    intros H. apply andb_true_iff in H as [Hx Hab].
    apply N.eqb_eq in Hx. subst. f_equal. apply IH, Hab.
  - intros ->. apply jseqb_refl.
Qed.

Lemma jseqb_neq (a b : jsstring) : a <> b -> jseqb a b = false.
Proof.
  intros H. destruct (jseqb a b) eqn:E; [|reflexivity].
  apply jseqb_eq in E. contradiction.
Qed.

Lemma Returned_inj (A : Type) (a b : A) : Returned a = Returned b -> a = b.
Proof. intros H. injection H. auto. Qed.










(* ------------------------------------------------------------------ *)
(** ** The digest as a string *)

Lemma hex_digit_no_space (d : N) :
  (d < 16)%N -> is_js_space (Sha256.hex_digit d) = false.
Proof.
  intros Hd.
  assert (Hall : forallb (fun d => negb (is_js_space (Sha256.hex_digit d)))
                   (map N.of_nat (seq 0 16)) = true) by (vm_compute; reflexivity).
  rewrite forallb_forall in Hall.
  apply negb_true_iff, Hall, in_map_iff.
  exists (N.to_nat d). split; [apply N2Nat.id|]. apply in_seq. lia.
Qed.

Lemma hex_word_no_space (x : N) : no_space (Sha256.hex_word x).
Proof.
  unfold Sha256.hex_word, no_space. apply Forall_map, Forall_forall.
  intros i _. apply hex_digit_no_space. apply N.mod_lt. discriminate.
Qed.

Lemma hex_digest_no_space (m : list N) : no_space (Sha256.hex_digest m).
Proof.
  unfold Sha256.hex_digest, no_space. apply Forall_flat_map, Forall_forall.
  intros x _. apply hex_word_no_space.
Qed.

(** A digest is sixty-four characters long. *)
Lemma hex_digest_length (m : list N) : List.length (Sha256.hex_digest m) = 64%nat.
Proof.
  unfold Sha256.hex_digest, Sha256.digest_words. cbn [flat_map].
  rewrite !length_app. unfold Sha256.hex_word. rewrite !length_map. reflexivity.
Qed.


Lemma body_truthy (body : jsstring) : body <> [] -> truthy (JStr body) = true.
Proof. destruct body; [congruence|reflexivity]. Qed.

(* ------------------------------------------------------------------ *)
(** ** Signature codec *)

(** The verifier never throws: it answers with this boolean. *)
Lemma verify_unfold (cfg : Config) (body tag : JsVal) :
  verifyShuftiSignature cfg body tag =
  Returned (truthy body && truthy tag
            && jseqb (expected_tag cfg (js_String body)) (trim (js_String tag))).
Proof.
  unfold verifyShuftiSignature, expected_tag.
  destruct (truthy body); cbn [negb orb andb]; [|reflexivity].
  destruct (truthy tag); cbn [negb orb andb]; reflexivity.
Qed.









(* ------------------------------------------------------------------ *)
(** ** Webhook reconciler: soft failures *)

(** C1.  When the tag does not verify, or verifies on a body [JSON.parse]
    refuses, [handleWebhook] returns [{ ok: false }] (it does not throw) and
    writes nothing: the table and the log of [putItem] calls are unchanged. *)
Theorem webhook_soft_failure (cfg : Config) (h : Host) (body sig : JsVal) (w : World) :
  verifyShuftiSignature cfg body sig = Returned false
  \/ (verifyShuftiSignature cfg body sig = Returned true
      /\ JSON_parse h (js_String body) = None) ->
  exists w',
    handleWebhook cfg h body sig w = (Returned (obj [("ok", JBool false)]), w')
    /\ same_store w w'.
Proof.
  intros [Hv | [Hv Hp]].
  - unfold handleWebhook, bind, lift. cbn [writeLog]. rewrite Hv. cbn [negb].
    eexists. split; [reflexivity|]. repeat split.
  - unfold handleWebhook, bind, lift. cbn [writeLog]. rewrite Hv. cbn [negb].
    rewrite Hp. eexists. split; [reflexivity|]. repeat split.
Qed.

Lemma webhook_soft_failure_witness :
  (exists w',
      handleWebhook CONFIG (host 0 "2025-01-01T00:00:00.000Z" 0 no_network)
        (str "{ nope") (str "whatever") empty_world
      = (Returned (obj [("ok", JBool false)]), w')
      /\ same_store empty_world w')
  /\ (exists w',
      handleWebhook CONFIG (host 0 "2025-01-01T00:00:00.000Z" 0 no_network)
        (str "{ nope") (JStr (expected_tag CONFIG (js "{ nope"))) empty_world
      = (Returned (obj [("ok", JBool false)]), w')
      /\ same_store empty_world w').
Proof.
  split.
  - apply webhook_soft_failure. left. vm_compute. reflexivity.
  - apply webhook_soft_failure. right. split; vm_compute; reflexivity.
Defined.

(* ------------------------------------------------------------------ *)
(** ** Running the monad *)

Lemma run_Returned (A : Type) (a b : A) (w1 w2 : World) :
  (Returned a, w1) = (Returned b, w2) -> a = b /\ w1 = w2.
Proof. intros H. injection H. auto. Qed.

Lemma run_Thrown (A : Type) (e : JsError) (b : A) (w1 w2 : World) :
  (Thrown e, w1) = (Returned b, w2) -> False.
Proof. intros H. discriminate H. Qed.

(** One step of a run: the primitives and the projections of the world they
    build, nothing else. *)
Ltac step :=
  cbn [ret throw lift writeLog add_error putItem getItem query
       table puts logs errors LOCAL_REQUEST_TIMESTAMPS fst snd negb].

Ltac step_in H :=
  cbn [ret throw lift writeLog add_error putItem getItem query
       table puts logs errors LOCAL_REQUEST_TIMESTAMPS fst snd negb] in H.

Lemma same_store_refl (w : World) : same_store w w.
Proof. repeat split. Qed.

Lemma same_store_trans (w1 w2 w3 : World) :
  same_store w1 w2 -> same_store w2 w3 -> same_store w1 w3.
Proof.
  intros (T1 & P1 & S1) (T2 & P2 & S2).
  repeat split; etransitivity; eassumption.
Qed.

Lemma writeLog_run flag action message data critical (w : World) :
  exists w', writeLog flag action message data critical w = (Returned tt, w')
             /\ same_store w w' /\ errors w' = errors w.
Proof. eexists. split; [reflexivity|]. repeat split. Qed.

(* ------------------------------------------------------------------ *)
(** ** Session resolver *)

Section Resolver.

Variable c : Clean.

Lemma scan_skip (item : Row) (rest : list Row) (cand : option JsVal) :
  is_request item = false ->
  scanTimeline c (item :: rest) cand = scanTimeline c rest cand.
Proof.
  intros H. unfold is_request in H. cbn [scanTimeline]. rewrite H. reflexivity.
Qed.

Lemma scan_accept (item : Row) (rest : list Row) (cand : option JsVal) (w : World) :
  is_request item = true ->
  accepted (table w) item = true ->
  exists w',
    scanTimeline c (item :: rest) cand w =
    (Returned (Return (reuse_result "alreadyValidated" item
                         (entry_status (table w) item) (entry_url (table w) item))), w')
    /\ same_store w w' /\ errors w' = errors w.
Proof.
  intros Hreq Hacc. unfold is_request in Hreq.
  unfold accepted, entry_status, meta_for in Hacc.
  cbn [scanTimeline]. rewrite Hreq. cbn [negb].
  unfold bind, query. rewrite Hacc.
  eexists. split; [reflexivity|]. repeat split.
Qed.

Lemma scan_continue (item : Row) (rest : list Row) (cand : option JsVal) (w : World) :
  is_request item = true ->
  accepted (table w) item = false ->
  scanTimeline c (item :: rest) cand w =
  scanTimeline c rest
    (match cand with
     | Some a => Some a
     | None =>
         if active (table w) item
         then Some (reuse_result "alreadyHasActive" item
                      (entry_status (table w) item) (entry_url (table w) item))
         else None
     end) w.
Proof.
  intros Hreq Hacc. unfold is_request in Hreq.
  unfold accepted, entry_status, meta_for in Hacc.
  cbn [scanTimeline]. rewrite Hreq. cbn [negb].
  unfold bind, query. rewrite Hacc. reflexivity.
Qed.

(** The scan reads: whatever it finds, it returns normally and writes
    nothing. *)
Lemma scan_frame (items : list Row) :
  forall (cand : option JsVal) (w : World),
  exists r w', scanTimeline c items cand w = (Returned r, w')
               /\ same_store w w' /\ errors w' = errors w.
Proof.
  induction items as [|item rest IH]; intros cand w.
  - exists (Completed cand), w. repeat split.
  - destruct (is_request item) eqn:Hreq.
    + destruct (accepted (table w) item) eqn:Hacc.
      * destruct (scan_accept item rest cand w Hreq Hacc) as (w' & E & F).
        eauto.
      * rewrite (scan_continue item rest cand w Hreq Hacc). apply IH.
    + rewrite (scan_skip item rest cand Hreq). apply IH.
Qed.

(** The first accepted entry wins, whatever candidate was remembered. *)
Lemma scan_first_accepted (items : list Row) :
  forall (pre : list Row) (e : Row) (post : list Row) (cand : option JsVal) (w : World),
  filter is_request items = pre ++ e :: post ->
  (forall x, In x pre -> accepted (table w) x = false) ->
  accepted (table w) e = true ->
  exists w',
    scanTimeline c items cand w =
    (Returned (Return (reuse_result "alreadyValidated" e
                         (entry_status (table w) e) (entry_url (table w) e))), w')
    /\ same_store w w'.
Proof.
  induction items as [|item rest IH]; intros pre e post cand w Hf Hpre He.
  - destruct pre; discriminate Hf.
  - cbn [filter] in Hf. destruct (is_request item) eqn:Hreq.
    + destruct pre as [|x pre'].
      * cbn [app] in Hf. injection Hf as Hi _. subst e.
        destruct (scan_accept item rest cand w Hreq He) as (w' & E & F & _). eauto.
      * cbn [app] in Hf. injection Hf as Hi Hf. subst x.
        rewrite (scan_continue item rest cand w Hreq (Hpre item (or_introl eq_refl))).
        apply (IH pre' e post); [exact Hf| |exact He].
        intros y Hy. apply Hpre. right. exact Hy.
    + rewrite (scan_skip item rest cand Hreq). apply (IH pre e post); assumption.
Qed.

(** Without an accepted entry the scan runs to its end and keeps the
    candidate it has. *)
Lemma scan_keeps_candidate (items : list Row) :
  forall (a : JsVal) (w : World),
  (forall x, In x (filter is_request items) -> accepted (table w) x = false) ->
  scanTimeline c items (Some a) w = (Returned (Completed (Some a)), w).
Proof.
  induction items as [|item rest IH]; intros a w Hno.
  - reflexivity.
  - cbn [filter] in Hno. destruct (is_request item) eqn:Hreq.
    + rewrite (scan_continue item rest (Some a) w Hreq (Hno item (or_introl eq_refl))).
      apply IH. intros y Hy. apply Hno. right. exact Hy.
    + rewrite (scan_skip item rest (Some a) Hreq). apply IH. exact Hno.
Qed.

(** Without an accepted entry the first active entry is the candidate. *)
Lemma scan_first_active (items : list Row) :
  forall (pre : list Row) (e : Row) (post : list Row) (w : World),
  filter is_request items = pre ++ e :: post ->
  (forall x, In x (filter is_request items) -> accepted (table w) x = false) ->
  (forall x, In x pre -> active (table w) x = false) ->
  active (table w) e = true ->
  scanTimeline c items None w =
  (Returned (Completed (Some (reuse_result "alreadyHasActive" e
                                (entry_status (table w) e) (entry_url (table w) e)))), w).
Proof.
  induction items as [|item rest IH]; intros pre e post w Hf Hno Hpre He.
  - destruct pre; discriminate Hf.
  - cbn [filter] in Hf, Hno. destruct (is_request item) eqn:Hreq.
    + rewrite (scan_continue item rest None w Hreq (Hno item (or_introl eq_refl))).
      destruct pre as [|x pre'].
      * cbn [app] in Hf. injection Hf as Hi _. subst e. rewrite He.
        apply scan_keeps_candidate. intros y Hy. apply Hno. right. exact Hy.
      * cbn [app] in Hf. injection Hf as Hi Hf. subst x.
        rewrite (Hpre item (or_introl eq_refl)).
        apply (IH pre' e post); [exact Hf| | |exact He].
        -- intros y Hy. apply Hno. right. exact Hy.
        -- intros y Hy. apply Hpre. right. exact Hy.
    + rewrite (scan_skip item rest None Hreq). apply (IH pre e post); assumption.
Qed.

(** With neither, there is no candidate. *)
Lemma scan_nothing (items : list Row) :
  forall (w : World),
  (forall x, In x (filter is_request items) -> accepted (table w) x = false) ->
  (forall x, In x (filter is_request items) -> active (table w) x = false) ->
  scanTimeline c items None w = (Returned (Completed None), w).
Proof.
  induction items as [|item rest IH]; intros w Hno Hna.
  - reflexivity.
  - cbn [filter] in Hno, Hna. destruct (is_request item) eqn:Hreq.
    + rewrite (scan_continue item rest None w Hreq (Hno item (or_introl eq_refl))).
      rewrite (Hna item (or_introl eq_refl)).
      apply IH; intros y Hy; [apply Hno|apply Hna]; right; exact Hy.
    + rewrite (scan_skip item rest None Hreq). apply IH; assumption.
Qed.

End Resolver.

Lemma resolve_run (a : SessionArgs) (c : Clean) (w : World) :
  sanitizeValidate a = Returned c ->
  resolveSession a w =
  match scanTimeline c (timeline_of c w) None w with
  | (Returned s, w') => (Returned (c, s), w')
  | (Thrown e, w') => (Thrown e, w')
  end.
Proof.
  intros Hc. unfold resolveSession, bind, lift, query, timeline_of. rewrite Hc.
  destruct (scanTimeline c _ None w) as [[s|e] w']; reflexivity.
Qed.

Lemma resolve_invalid (a : SessionArgs) (e : JsError) (w : World) :
  sanitizeValidate a = Thrown e -> resolveSession a w = (Thrown e, w).
Proof.
  intros Hc. unfold resolveSession, bind, lift. rewrite Hc. reflexivity.
Qed.


Lemma guard_returns (cfg : Config) (h : Host) (label : string) (w : World) :
  registerLocalRateAndMaybeAlert cfg h label w =
  (Returned tt, snd (registerLocalRateAndMaybeAlert cfg h label w)).
Proof.
  unfold registerLocalRateAndMaybeAlert.
  destruct (_ >? _)%Z; reflexivity.
Qed.

(** A created session is never shaped like a reused one. *)
Lemma createNew_not_reuse (cfg : Config) (h : Host) (c : Clean) (dc : JsVal)
    (w w' : World) (r : JsVal) :
  createNewSession cfg h c dc w = (Returned r, w') ->
  get r "alreadyValidated" = JUndefined /\ get r "alreadyHasActive" = JUndefined.
Proof.
  unfold createNewSession, bind. rewrite guard_returns.
  unfold lift. destruct (build_payload _ _ _ _ _) as [payload|e];
    [|intros H; exfalso; exact (run_Thrown _ _ _ _ _ H)].
  step.
  destruct (fetch h _) as [res|err];
    [|intros H; exfalso; exact (run_Thrown _ _ _ _ _ H)].
  destruct (parse_response h (res_text res)) as [parsed|];
    [|intros H; exfalso; exact (run_Thrown _ _ _ _ _ H)].
  destruct (res_ok res); step;
    (destruct (verifyShuftiSignature cfg _ _) as [[|]|e]; step; intros H;
     solve [ exfalso; exact (run_Thrown _ _ _ _ _ H)
           | apply run_Returned in H as [<- _]; split; reflexivity ]).
Qed.

(** C9.  A call of [createVerificationSession] that returns a reuse result
    ([alreadyValidated] or [alreadyHasActive] is true) has written nothing:
    the table, the log of [putItem] calls and the window of the rate guard
    are as before the call. *)
Theorem reuse_is_read_only (cfg : Config) (h : Host) (a : SessionArgs)
    (w w' : World) (r : JsVal) :
  createVerificationSession cfg h a w = (Returned r, w') ->
  get r "alreadyValidated" = JBool true \/ get r "alreadyHasActive" = JBool true ->
  same_store w w'.
Proof.
  unfold createVerificationSession, bind. intros Hrun Hreuse.
  destruct (sanitizeValidate a) as [c|e] eqn:Hc.
  - rewrite (resolve_run a c w Hc) in Hrun.
    destruct (scan_frame c (timeline_of c w) None w) as (s & w1 & E & F & _).
    rewrite E in Hrun. cbn [snd fst] in Hrun.
    destruct s as [result|[cand|]].
    + apply run_Returned in Hrun as [_ <-]. exact F.
    + step_in Hrun. apply run_Returned in Hrun as [_ <-].
      destruct F as (T & P & S). repeat split; assumption.
    + destruct (createNew_not_reuse cfg h c (documentConfig a) w1 w' r Hrun) as [V A].
      rewrite V, A in Hreuse. destruct Hreuse as [X|X]; discriminate X.
  - rewrite (resolve_invalid a e w Hc) in Hrun. exfalso. exact (run_Thrown _ _ _ _ _ Hrun).
Qed.


Lemma reuse_is_read_only_witness :
  same_store accepted_then_pending
    (snd (createVerificationSession test_config (test_host HAPPY) (example_args "u1")
            accepted_then_pending)).
Proof.
  eapply (reuse_is_read_only test_config (test_host HAPPY) (example_args "u1")).
  - vm_compute. reflexivity.
  - left. vm_compute. reflexivity.
Defined.

(* ------------------------------------------------------------------ *)
(** ** Session creator: validation of the response *)

(** C2.  Once the resolver has found nothing to reuse, the payload is built
    and the provider's response has arrived and parsed, the outcome depends on
    the tag alone.  [w1] is the world after the rate guard, the last step
    before the request is sent.  With a valid tag, whatever [res.ok] is, the
    call returns [{ reference, verificationUrl }] and writes exactly the
    [verification_request] entry and the [meta] row; a status that is not a
    success only adds the error "KYC response non-200".  With an invalid tag
    the call throws "Invalid Shufti HTTP signature" and nothing is written
    after [w1]; the errors recorded show the order of the checks: the
    non-200 error (if any) first, the signature error after it. *)
Theorem session_response_validation (cfg : Config) (h : Host) (a : SessionArgs)
    (c : Clean) (w w0 : World) (payload : JsVal) (res : Response) (parsed : JsVal) :
  resolveSession a w = (Returned (c, Completed None), w0) ->
  build_payload cfg c (documentConfig a) (generateReference h) (session_language cfg c)
  = Returned payload ->
  fetch h (provider_request cfg payload) = Returned res ->
  parse_response h (res_text res) = Some parsed ->
  let w1 := snd (registerLocalRateAndMaybeAlert cfg h "createVerificationSession" w0) in
  let reference := JStr (generateReference h) in
  let event := js_or (get parsed "event") (str "unknown") in
  let non200 := if res_ok res then [] else ["KYC response non-200"] in
  (verifyShuftiSignature cfg (JStr (res_text res)) (response_signature res)
   = Returned true ->
   exists w' request meta,
     createVerificationSession cfg h a w =
     (Returned (obj [("reference", reference);
                     ("verificationUrl", js_or (get parsed "verification_url") JNull)]),
      w')
     /\ puts w' = puts w1 ++ [request; meta]
     /\ table w' =
        Map_set (item_key (field meta "pk") (field meta "sk")) (deepClone meta)
          (Map_set (item_key (field request "pk") (field request "sk"))
             (deepClone request) (table w1))
     /\ field request "type" = str "verification_request"
     /\ field request "pk" = template "user_" (clean_userId c)
     /\ field request "reference" = reference
     /\ field request "event" = event
     /\ field meta "type" = str "meta"
     /\ field meta "pk" = template "meta_" reference
     /\ field meta "sk" = str "meta"
     /\ field meta "reference" = reference
     /\ field meta "status" = event
     /\ map err_message (errors w') = map err_message (errors w1) ++ non200)
  /\ (verifyShuftiSignature cfg (JStr (res_text res)) (response_signature res)
      = Returned false ->
      exists w',
        createVerificationSession cfg h a w =
        (Thrown (PlainError "Invalid Shufti HTTP signature"), w')
        /\ puts w' = puts w1
        /\ table w' = table w1
        /\ map err_message (errors w') =
           map err_message (errors w1) ++ non200 ++ ["KYC response signature invalid"]).
Proof.
  intros Hres Hpay Hfetch Hparse w1 reference event non200.
  assert (Hrun : createVerificationSession cfg h a w =
                 createNewSession cfg h c (documentConfig a) w0).
  { unfold createVerificationSession, bind. rewrite Hres. reflexivity. }
  rewrite Hrun. unfold createNewSession, bind.
  rewrite guard_returns. fold w1. unfold lift. rewrite Hpay. step.
  rewrite Hfetch, Hparse. subst non200.
  split; intros Hv; rewrite Hv; destruct (res_ok res); step.
  - eexists. eexists. eexists. split; [reflexivity|].
    split; [rewrite <- app_assoc; reflexivity|]. split; [reflexivity|].
    repeat (split; [reflexivity|]).
    cbn [errors]. rewrite app_nil_r. reflexivity.
  - eexists. eexists. eexists. split; [reflexivity|].
    split; [rewrite <- app_assoc; reflexivity|]. split; [reflexivity|].
    repeat (split; [reflexivity|]).
    cbn [errors]. rewrite map_app. reflexivity.
  - eexists. split; [reflexivity|]. repeat (split; [reflexivity|]).
    cbn [errors]. rewrite map_app. reflexivity.
  - eexists. split; [reflexivity|]. repeat (split; [reflexivity|]).
    cbn [errors]. rewrite !map_app, <- app_assoc. reflexivity.
Qed.

Lemma session_response_validation_witness :
  (exists w',
      createVerificationSession test_config (test_host NON_200) (example_args "u2")
        empty_world =
      (Returned (obj [("reference", str "ref-1735862400000-42");
                      ("verificationUrl", JNull)]), w')
      /\ List.length (puts w') = 2%nat
      /\ map err_message (errors w') = ["KYC response non-200"])
  /\ (exists w',
      createVerificationSession test_config
        (host 1735862400000 "2025-01-03T00:00:00.000Z" 42 rejected_unsigned)
        (example_args "u2") empty_world =
      (Thrown (PlainError "Invalid Shufti HTTP signature"), w')
      /\ puts w' = []
      /\ map err_message (errors w') =
         ["KYC response non-200"; "KYC response signature invalid"]).
Proof.
  split.
  - edestruct (session_response_validation test_config (test_host NON_200)
                 (example_args "u2") (example_clean "u2") empty_world)
      as [Hvalid _].
    + vm_compute. reflexivity.
    + vm_compute. reflexivity.
    + vm_compute. reflexivity.
    + vm_compute. reflexivity.
    + destruct Hvalid as (w' & request & meta & E & P & _ & _ & _ & _ & _ & _ & _ & _ & _ & _ & Herr).
      * vm_compute. reflexivity.
      * exists w'. split; [exact E|]. split.
        -- rewrite P, length_app. reflexivity.
        -- rewrite Herr. reflexivity.
  - edestruct (session_response_validation test_config
                 (host 1735862400000 "2025-01-03T00:00:00.000Z" 42 rejected_unsigned)
                 (example_args "u2") (example_clean "u2") empty_world)
      as [_ Hinvalid].
    + vm_compute. reflexivity.
    + vm_compute. reflexivity.
    + vm_compute. reflexivity.
    + vm_compute. reflexivity.
    + destruct Hinvalid as (w' & E & P & _ & Herr).
      * vm_compute. reflexivity.
      * exists w'. split; [exact E|]. split.
        -- rewrite P. reflexivity.
        -- rewrite Herr. reflexivity.
Defined.

(* ------------------------------------------------------------------ *)
(** ** The Map of the store *)

Lemma Map_get_set_same (k : jsstring) (v : Row) (t : list (jsstring * Row)) :
  Map_get k (Map_set k v t) = Some v.
Proof.
  induction t as [|[k' v'] t IH]; cbn [Map_set Map_get].
  - rewrite jseqb_refl. reflexivity.
  - destruct (jseqb k k') eqn:E; cbn [Map_get]; rewrite E; [reflexivity|exact IH].
Qed.

Lemma Map_get_set_other (k k' : jsstring) (v : Row) (t : list (jsstring * Row)) :
  jseqb k' k = false ->
  Map_get k' (Map_set k v t) = Map_get k' t.
Proof.
  intros Hk. induction t as [|[k0 v0] t IH]; cbn [Map_set Map_get].
  - rewrite Hk. reflexivity.
  - destruct (jseqb k k0) eqn:E; cbn [Map_get].
    + apply jseqb_eq in E. subst k0. rewrite Hk. reflexivity.
    + rewrite IH. reflexivity.
Qed.

(** A meta row and a timeline entry never share a Map key. *)
Lemma meta_key_not_user_key (reference sk user sk' : JsVal) :
  jseqb (item_key (template "meta_" reference) sk)
        (item_key (template "user_" user) sk') = false.
Proof. reflexivity. Qed.

(* ------------------------------------------------------------------ *)
(** ** Manual override *)



(* ------------------------------------------------------------------ *)
(** ** Webhook reconciler: a stored event *)

(** A webhook whose tag verifies and whose body parses is stored: one
    [webhook_event] entry and the [meta] row, both built from the Meta
    Projection [meta_for] resolves (the index query alone), else from the
    payload and the defaults. *)
Lemma webhook_stored (cfg : Config) (h : Host) (body sig payload : JsVal) (w : World) :
  verifyShuftiSignature cfg body sig = Returned true ->
  JSON_parse h (js_String body) = Some payload ->
  let reference := js_or (get payload "reference") (str "unknown") in
  let event := js_or (get payload "event") (str "unknown") in
  let known := meta_for (table w) reference in
  let userId :=
    js_or (js_or (opt_field known "userId") (get payload "user_id")) (str "unknown") in
  exists w' entry meta,
    handleWebhook cfg h body sig w =
    (Returned (obj [("ok", JBool true); ("reference", reference); ("event", event)]), w')
    /\ puts w' = puts w ++ [entry; meta]
    /\ table w' =
       Map_set (item_key (field meta "pk") (field meta "sk")) (deepClone meta)
         (Map_set (item_key (field entry "pk") (field entry "sk")) (deepClone entry)
            (table w))
    /\ Map_get (item_key (template "meta_" reference) (str "meta")) (table w')
       = Some (deepClone meta)
    /\ LOCAL_REQUEST_TIMESTAMPS w' = LOCAL_REQUEST_TIMESTAMPS w
    /\ field entry "type" = str "webhook_event"
    /\ field entry "pk" = template "user_" userId
    /\ field entry "sk" = JStr (Date_toISOString h)
    /\ field entry "userId" = userId
    /\ field entry "reference" = reference
    /\ field entry "event" = event
    /\ field meta "type" = str "meta"
    /\ field meta "pk" = template "meta_" reference
    /\ field meta "sk" = str "meta"
    /\ field meta "userId" = userId
    /\ field meta "reference" = reference
    /\ field meta "status" = event
    /\ field meta "lastEvent" = event
    /\ field meta "lastEventAt" = JStr (Date_toISOString h)
    /\ field meta "verificationUrl" = js_nullish (opt_field known "verificationUrl") JNull
    /\ field meta "language" =
       js_nullish (opt_field known "language") (JStr (DEFAULT_LANGUAGE cfg))
    /\ field meta "created_at" =
       js_nullish (opt_field known "created_at") (JStr (Date_toISOString h)).
Proof.
  intros Hv Hp reference event known userId.
  unfold handleWebhook, bind, lift. step. rewrite Hv. step. rewrite Hp.
  unfold query. step. fold reference event. fold known. fold userId.
  eexists. eexists. eexists. split; [reflexivity|].
  split; [cbn [puts]; rewrite <- app_assoc; reflexivity|].
  split; [reflexivity|].
  split; [cbn [table]; apply Map_get_set_same|].
  repeat (split; [reflexivity|]). reflexivity.
Qed.




(* ------------------------------------------------------------------ *)
(** ** Resolution of the Meta Projection *)

Lemma pickMeta_some (l : list Row) (m : Row) :
  pickMeta l = Some m -> In m l /\ is_str (field m "type") (js "meta") = true.
Proof.
  induction l as [|x l IH]; cbn [pickMeta]; [discriminate|].
  destruct (is_str (field x "type") (js "meta")) eqn:E.
  - intros H. injection H as <-. split; [left; reflexivity|exact E].
  - intros H. destruct (IH H) as [Hin Hm]. split; [right; exact Hin|exact Hm].
Qed.

Lemma pickMeta_none (l : list Row) :
  pickMeta l = None -> forall x, In x l -> is_str (field x "type") (js "meta") = false.
Proof.
  induction l as [|y l IH]; cbn [pickMeta]; intros H x Hx; [destruct Hx|].
  destruct (is_str (field y "type") (js "meta")) eqn:E; [discriminate H|].
  destruct Hx as [<-|Hx]; [exact E|exact (IH H x Hx)].
Qed.

(** C8, as the code has it.  For each [verification_request] entry the
    resolver examines and for each reference the webhook handler receives,
    the Meta Projection is [meta_for]: of the batch the index query returns,
    the row of type [meta] (the last one of the batch, if several), else the
    last row of the batch, else none when the batch is empty.  On these two
    paths nothing is looked up under the [meta_<reference>] key: the resolver
    derives the status, and the webhook handler the user, the URL, the
    language and the creation time, from [meta_for] alone. *)
Theorem meta_resolution_order (cfg : Config) (h : Host) :
  (forall t reference,
      let batch := query_rows KEYS.gsi_pk reference None t in
      (forall m, pickMeta (rev batch) = Some m ->
                 meta_for t reference = Some m /\ In m batch
                 /\ is_str (field m "type") (js "meta") = true)
      /\ (pickMeta (rev batch) = None ->
          (forall x, In x batch -> is_str (field x "type") (js "meta") = false)
          /\ meta_for t reference = hd_error (rev batch))
      /\ (batch = [] -> meta_for t reference = None))
  /\ (forall c item rest cand w,
      is_request item = true ->
      let known := meta_for (table w) (field item "reference") in
      (is_str (derived_status known item) (js KYC_EVENT.VERIFICATION_ACCEPTED) = true ->
       exists w',
         scanTimeline c (item :: rest) cand w =
         (Returned (Return (reuse_result "alreadyValidated" item
                              (derived_status known item) (derived_url known item))), w'))
      /\ (is_str (derived_status known item) (js KYC_EVENT.VERIFICATION_ACCEPTED) = false ->
          scanTimeline c (item :: rest) cand w =
          scanTimeline c rest
            (match cand with
             | Some a => Some a
             | None =>
                 if ACTIVE_EVENTS_has (derived_status known item)
                 then Some (reuse_result "alreadyHasActive" item
                              (derived_status known item) (derived_url known item))
                 else None
             end) w))
  /\ (forall body sig payload w,
      verifyShuftiSignature cfg body sig = Returned true ->
      JSON_parse h (js_String body) = Some payload ->
      let reference := js_or (get payload "reference") (str "unknown") in
      let known := meta_for (table w) reference in
      let userId :=
        js_or (js_or (opt_field known "userId") (get payload "user_id")) (str "unknown") in
      exists w' entry meta,
        handleWebhook cfg h body sig w =
        (Returned (obj [("ok", JBool true); ("reference", reference);
                        ("event", js_or (get payload "event") (str "unknown"))]), w')
        /\ puts w' = puts w ++ [entry; meta]
        /\ field entry "userId" = userId
        /\ field meta "userId" = userId
        /\ field meta "verificationUrl" = js_nullish (opt_field known "verificationUrl") JNull
        /\ field meta "language" =
           js_nullish (opt_field known "language") (JStr (DEFAULT_LANGUAGE cfg))
        /\ field meta "created_at" =
           js_nullish (opt_field known "created_at") (JStr (Date_toISOString h))).
Proof.
  split; [|split].
  - intros t reference batch. unfold meta_for, pickMeta_or_first. fold batch.
    split; [|split].
    + intros m Hm. rewrite Hm. destruct (pickMeta_some (rev batch) m Hm) as [Hin Ht].
      split; [reflexivity|]. split; [apply in_rev; exact Hin|exact Ht].
    + intros Hm. rewrite Hm. split; [|reflexivity].
      intros x Hx. apply (pickMeta_none (rev batch) Hm). apply in_rev in Hx. exact Hx.
    + intros ->. reflexivity.
  - intros c item rest cand w Hreq known. split.
    + intros Hacc.
      destruct (scan_accept c item rest cand w Hreq Hacc) as (w' & E & _).
      exists w'. exact E.
    + intros Hacc. exact (scan_continue c item rest cand w Hreq Hacc).
  - intros body sig payload w Hv Hp reference known userId.
    destruct (webhook_stored cfg h body sig payload w Hv Hp)
      as (w' & entry & meta & E & P & _ & _ & _ & _ & _ & _ & Eu & _ & _
          & _ & _ & _ & Mu & _ & _ & _ & _ & Mv & Ml & Mc).
    exists w', entry, meta.
    split; [exact E|]. split; [exact P|]. split; [exact Eu|]. split; [exact Mu|].
    split; [exact Mv|]. split; [exact Ml|exact Mc].
Qed.

Lemma meta_resolution_order_witness :
  meta_for (table one_pending) (str "ref-b")
  = Some (example_meta "u1" "ref-b" "2025-01-02T00:00:00.000Z" "request.pending")
  /\ meta_for (table one_pending) (str "ref-never-created") = None
  /\ exists w' entry meta,
       handleWebhook test_config (test_host HAPPY) (JStr unindexed_webhook_body)
         (JStr (expected_tag test_config unindexed_webhook_body)) unindexed_meta =
       (Returned (obj [("ok", JBool true); ("reference", str "ref-x");
                       ("event", str "verification.declined")]), w')
       /\ puts w' = puts unindexed_meta ++ [entry; meta]
       /\ field entry "userId" = str "unknown".
Proof.
  destruct (meta_resolution_order test_config (test_host HAPPY)) as (Horder & _ & Hhook).
  split; [|split].
  - destruct (proj1 (Horder (table one_pending) (str "ref-b"))
                (example_meta "u1" "ref-b" "2025-01-02T00:00:00.000Z" "request.pending"))
      as [Hmeta _].
    + vm_compute. reflexivity.
    + exact Hmeta.
  - apply (proj2 (proj2 (Horder (table one_pending) (str "ref-never-created")))).
    vm_compute. reflexivity.
  - edestruct (Hhook (JStr unindexed_webhook_body)
                 (JStr (expected_tag test_config unindexed_webhook_body)))
      as (w' & entry & meta & E & P & Eu & _).
    + vm_compute. reflexivity.
    + vm_compute. reflexivity.
    + exists w', entry, meta. split; [exact E|]. split; [exact P|exact Eu].
Defined.

(** C8 as stated fails where the index query finds nothing but a row is
    stored under [meta_<reference>|meta]: the point lookup would find the
    Meta Projection of user u7 with status [verification.accepted], yet the
    webhook handler resolves none and stores the event for the user
    "unknown", and the resolver takes the entry's own event and goes on to
    create a new session. *)
Lemma meta_point_lookup_not_made :
  meta_for (table unindexed_meta) (str "ref-x") = None
  /\ (exists m,
        get_row (template "meta_" (str "ref-x")) (str "meta") (table unindexed_meta) = Some m
        /\ field m "type" = str "meta"
        /\ field m "userId" = str "u7"
        /\ field m "status" = str "verification.accepted")
  /\ (exists w' entry meta,
        handleWebhook test_config (test_host HAPPY) (JStr unindexed_webhook_body)
          (JStr (expected_tag test_config unindexed_webhook_body)) unindexed_meta =
        (Returned (obj [("ok", JBool true); ("reference", str "ref-x");
                        ("event", str "verification.declined")]), w')
        /\ puts w' = puts unindexed_meta ++ [entry; meta]
        /\ field entry "userId" = str "unknown"
        /\ field meta "userId" = str "unknown")
  /\ (exists item,
        scan_order (table unindexed_meta) (str "u7") = [item]
        /\ field item "reference" = str "ref-x"
        /\ entry_status (table unindexed_meta) item = str "request.invalid"
        /\ fst (createVerificationSession test_config (test_host HAPPY)
                  (example_args "u7") unindexed_meta)
           = Returned (obj [("reference", str "ref-1735862400000-42");
                            ("verificationUrl",
                             str "https://verify.example/ref-1735862400000-42")])).
Proof.
  split; [vm_compute; reflexivity|]. split; [|split].
  - eexists. split; [vm_compute; reflexivity|]. repeat split.
  - eexists. eexists. eexists. split; [vm_compute; reflexivity|].
    split; [vm_compute; reflexivity|]. split; vm_compute; reflexivity.
  - eexists. split; [vm_compute; reflexivity|]. repeat split; vm_compute; reflexivity.
Qed.

(* ------------------------------------------------------------------ *)
(** ** Rate guard *)

Lemma shift_old_length (now : Z) (l : list Z) :
  (List.length (shift_old now l) <= List.length l)%nat.
Proof.
  induction l as [|t l IH]; cbn [shift_old List.length]; [lia|].
  destruct (now - t >? 60000)%Z; cbn [List.length]; lia.
Qed.

(** Nothing is dropped while the oldest entry is within the minute. *)
Lemma shift_old_fresh (now : Z) (l : list Z) :
  (now - hd now l <= 60000)%Z -> shift_old now l = l.
Proof.
  destruct l as [|t l]; cbn [shift_old hd]; [reflexivity|].
  intros H. destruct (now - t >? 60000)%Z eqn:E; [|reflexivity].
  apply Z.gtb_lt in E. lia.
Qed.

(** Under a clock that does not go back the window is ascending, and what
    the loop leaves is what the last minute holds. *)
Lemma shift_old_sorted (now : Z) (l : list Z) :
  StronglySorted Z.le l ->
  shift_old now l = filter (within_minute now) l.
Proof.
  induction l as [|t l IH]; intros Hs; cbn [shift_old filter]; [reflexivity|].
  inversion Hs as [|? ? Hrest Hall]; subst. unfold within_minute at 1.
  destruct (now - t >? 60000)%Z eqn:E.
  - apply Z.gtb_lt in E. destruct (now - t <=? 60000)%Z eqn:E'.
    + apply Z.leb_le in E'. lia.
    + exact (IH Hrest).
  - rewrite Z.gtb_ltb, Z.ltb_ge in E.
    destruct (now - t <=? 60000)%Z eqn:E'; [|apply Z.leb_gt in E'; lia].
    f_equal. symmetry. apply forallb_filter_id. apply forallb_forall.
    intros x Hx. rewrite Forall_forall in Hall. specialize (Hall x Hx).
    unfold within_minute. apply Z.leb_le. lia.
Qed.

Lemma sorted_snoc (l : list Z) (now : Z) :
  StronglySorted Z.le l -> Forall (fun t => (t <= now)%Z) l ->
  StronglySorted Z.le (l ++ [now]).
Proof.
  induction l as [|t l IH]; intros Hs Hle; cbn [app].
  - constructor; constructor.
  - inversion Hs as [|? ? Hrest Hall]; subst. inversion Hle as [|? ? Ht Hl]; subst.
    constructor; [exact (IH Hrest Hl)|].
    apply Forall_app. split; [exact Hall|]. constructor; [exact Ht|constructor].
Qed.

Lemma window_is_last_minute (h : Host) (w : World) :
  StronglySorted Z.le (LOCAL_REQUEST_TIMESTAMPS w) ->
  Forall (fun t => (t <= Date_now h)%Z) (LOCAL_REQUEST_TIMESTAMPS w) ->
  window_after h w
  = filter (within_minute (Date_now h)) (LOCAL_REQUEST_TIMESTAMPS w ++ [Date_now h]).
Proof.
  intros Hs Hle. unfold window_after. apply shift_old_sorted, sorted_snoc; assumption.
Qed.

(** One accounted call. *)
Lemma guard_step (cfg : Config) (h : Host) (label : string) (w : World) :
  exists w',
    registerLocalRateAndMaybeAlert cfg h label w = (Returned tt, w')
    /\ LOCAL_REQUEST_TIMESTAMPS w' = window_after h w
    /\ errors w' = errors w
    /\ ((Z.of_nat (List.length (window_after h w)) > PER_MINUTE_LIMIT cfg)%Z ->
        exists alert entry,
          puts w' = puts w ++ [alert]
          /\ logs w' = logs w ++ [entry]
          /\ field alert "type" = str "rate_limit"
          /\ field alert "pk" = str "system_shufti"
          /\ field alert "context" = str label
          /\ field alert "countInLastMinute"
             = JNum (of_N (N.of_nat (List.length (window_after h w))))
          /\ log_flag entry = LOG_FLAGS.ratelimit
          /\ log_action entry = "breach")
    /\ ((Z.of_nat (List.length (window_after h w)) <= PER_MINUTE_LIMIT cfg)%Z ->
        puts w' = puts w /\ logs w' = logs w /\ table w' = table w).
Proof.
  unfold registerLocalRateAndMaybeAlert. fold (window_after h w).
  destruct (Z.of_nat (List.length (window_after h w)) >? PER_MINUTE_LIMIT cfg)%Z eqn:E.
  - unfold bind. step. eexists. split; [reflexivity|].
    split; [reflexivity|]. split; [reflexivity|]. split.
    + intros _. eexists. eexists. repeat (split; [reflexivity|]). reflexivity.
    + intros H. apply Z.gtb_lt in E. lia.
  - eexists. split; [reflexivity|].
    split; [reflexivity|]. split; [reflexivity|]. split.
    + intros H. rewrite Z.gtb_ltb, Z.ltb_ge in E. lia.
    + intros _. repeat split.
Qed.

Lemma firstn_subset (A : Type) (n : nat) (l : list A) (x : A) :
  In x (firstn n l) -> In x l.
Proof.
  revert l. induction n as [|n IH]; intros [|y l]; cbn [firstn In]; try tauto.
  intros [H|H]; [left; exact H|right; exact (IH l H)].
Qed.

Lemma account_app (cfg : Config) (label : string) (l1 l2 : list Host) (w : World) :
  account cfg label (l1 ++ l2) w = account cfg label l2 (account cfg label l1 w).
Proof.
  revert w. induction l1 as [|h l1 IH]; intros w; cbn [account app]; [reflexivity|].
  apply IH.
Qed.

(** While the window cannot hold more than the threshold, no call emits. *)
Lemma account_quiet (cfg : Config) (label : string) (calls : list Host) :
  forall w,
  (Z.of_nat (List.length (LOCAL_REQUEST_TIMESTAMPS w) + List.length calls)
   <= PER_MINUTE_LIMIT cfg)%Z ->
  puts (account cfg label calls w) = puts w
  /\ logs (account cfg label calls w) = logs w
  /\ table (account cfg label calls w) = table w
  /\ (List.length (LOCAL_REQUEST_TIMESTAMPS (account cfg label calls w))
      <= List.length (LOCAL_REQUEST_TIMESTAMPS w) + List.length calls)%nat.
Proof.
  induction calls as [|h calls IH]; intros w Hle; cbn [account].
  - repeat split. lia.
  - destruct (guard_step cfg h label w) as (w' & E & S & _ & _ & Hq).
    rewrite E. cbn [snd].
    assert (Hlen : (List.length (window_after h w)
                    <= List.length (LOCAL_REQUEST_TIMESTAMPS w) + 1)%nat).
    { unfold window_after.
      pose proof (shift_old_length (Date_now h) (LOCAL_REQUEST_TIMESTAMPS w ++ [Date_now h])) as L.
      rewrite length_app in L. exact L. }
    cbn [List.length] in Hle.
    destruct Hq as (P & L & T); [lia|].
    destruct (IH w') as (P' & L' & T' & N'); [rewrite S; lia|].
    rewrite P', L', T', P, L, T. repeat split.
    rewrite S in N'. cbn [List.length]. lia.
Qed.

(** Calls that all fall within one minute stay in the window. *)
Lemma account_burst (cfg : Config) (label : string) (calls : list Host) :
  forall w,
  (forall h t, In h calls -> In t (LOCAL_REQUEST_TIMESTAMPS w ++ map Date_now calls) ->
               (Date_now h - t <= 60000)%Z) ->
  LOCAL_REQUEST_TIMESTAMPS (account cfg label calls w)
  = LOCAL_REQUEST_TIMESTAMPS w ++ map Date_now calls.
Proof.
  induction calls as [|h calls IH]; intros w Hin; cbn [account map].
  - rewrite app_nil_r. reflexivity.
  - destruct (guard_step cfg h label w) as (w' & E & S & _).
    rewrite E. cbn [snd].
    assert (Hw : window_after h w = LOCAL_REQUEST_TIMESTAMPS w ++ [Date_now h]).
    { unfold window_after. apply shift_old_fresh.
      apply (Hin h); [left; reflexivity|].
      cbn [map]. destruct (LOCAL_REQUEST_TIMESTAMPS w) as [|t0 l]; cbn [hd app];
        left; reflexivity. }
    rewrite IH.
    + rewrite S, Hw, <- app_assoc. reflexivity.
    + intros h' t Hh' Ht. apply (Hin h'); [right; exact Hh'|].
      rewrite S, Hw, <- app_assoc in Ht. exact Ht.
Qed.

(** C7.  Every accounted call returns normally, and it emits one advisory
    row (through [putItem]) and one advisory log event exactly when the
    window, measured after the call is appended and the old entries are
    dropped, holds more entries than [PER_MINUTE_LIMIT]; at or below the
    limit it writes and logs nothing.  Under a clock that does not go back
    that window is exactly the timestamps of the last sixty seconds, the call
    included.  With the limit at 60 and an empty window to start from, none
    of the calls 1 to 60 emits, and call 61 emits one row (count 61) when the
    61 calls fall within one minute. *)
Theorem rate_guard_advisory (cfg : Config) (label : string) :
  (forall h w,
      exists w',
        registerLocalRateAndMaybeAlert cfg h label w = (Returned tt, w')
        /\ LOCAL_REQUEST_TIMESTAMPS w' = window_after h w
        /\ ((Z.of_nat (List.length (window_after h w)) > PER_MINUTE_LIMIT cfg)%Z ->
            exists alert entry,
              puts w' = puts w ++ [alert]
              /\ logs w' = logs w ++ [entry]
              /\ field alert "type" = str "rate_limit"
              /\ field alert "context" = str label
              /\ field alert "countInLastMinute"
                 = JNum (of_N (N.of_nat (List.length (window_after h w))))
              /\ log_flag entry = LOG_FLAGS.ratelimit)
        /\ ((Z.of_nat (List.length (window_after h w)) <= PER_MINUTE_LIMIT cfg)%Z ->
            puts w' = puts w /\ logs w' = logs w /\ table w' = table w))
  /\ (forall h w,
        StronglySorted Z.le (LOCAL_REQUEST_TIMESTAMPS w) ->
        Forall (fun t => (t <= Date_now h)%Z) (LOCAL_REQUEST_TIMESTAMPS w) ->
        window_after h w
        = filter (within_minute (Date_now h))
                 (LOCAL_REQUEST_TIMESTAMPS w ++ [Date_now h]))
  /\ (PER_MINUTE_LIMIT cfg = 60%Z ->
      forall calls w,
        LOCAL_REQUEST_TIMESTAMPS w = [] ->
        List.length calls = 61%nat ->
        (forall k, (k <= 60)%nat ->
                   puts (account cfg label (firstn k calls) w) = puts w
                   /\ logs (account cfg label (firstn k calls) w) = logs w)
        /\ ((forall h1 h2, In h1 calls -> In h2 calls ->
                           (Date_now h2 - Date_now h1 <= 60000)%Z) ->
            exists alert entry,
              puts (account cfg label calls w) = puts w ++ [alert]
              /\ logs (account cfg label calls w) = logs w ++ [entry]
              /\ field alert "type" = str "rate_limit"
              /\ field alert "countInLastMinute" = JNum (js "61")
              /\ log_flag entry = LOG_FLAGS.ratelimit)).
Proof.
  split; [|split].
  - intros h w.
    destruct (guard_step cfg h label w) as (w' & E & S & _ & Hloud & Hquiet).
    exists w'. split; [exact E|]. split; [exact S|]. split; [|exact Hquiet].
    intros Hgt. destruct (Hloud Hgt) as (alert & entry & P & L & T & _ & C & N & F & _).
    exists alert, entry. repeat (split; [assumption|]). exact F.
  - intros h w Hs Hle. exact (window_is_last_minute h w Hs Hle).
  - intros Hlimit calls w Hempty Hlen. split.
    + intros k Hk.
      destruct (account_quiet cfg label (firstn k calls) w) as (P & L & _).
      * rewrite Hempty, Hlimit. cbn [List.length].
        pose proof (firstn_le_length k calls). rewrite length_firstn. lia.
      * split; assumption.
    + intros Hclose.
      set (w60 := account cfg label (firstn 60 calls) w).
      assert (Hacc : account cfg label calls w = account cfg label (skipn 60 calls) w60).
      { unfold w60. rewrite <- account_app, firstn_skipn. reflexivity. }
      rewrite Hacc.
      destruct (account_quiet cfg label (firstn 60 calls) w) as (P & L & _).
      { rewrite Hempty, Hlimit, length_firstn. cbn [List.length]. lia. }
      fold w60 in P, L.
      assert (S60 : LOCAL_REQUEST_TIMESTAMPS w60 = map Date_now (firstn 60 calls)).
      { unfold w60. rewrite account_burst; [rewrite Hempty; reflexivity|].
        rewrite Hempty. cbn [app]. intros h t Hh Ht.
        apply in_map_iff in Ht as (h0 & <- & Hh0).
        apply Hclose; eapply firstn_subset; eassumption. }
      assert (Hlast : exists h61, skipn 60 calls = [h61]).
      { pose proof (length_skipn 60 calls) as Hs. rewrite Hlen in Hs.
        destruct (skipn 60 calls) as [|h61 [|x rest]]; cbn [List.length] in Hs;
          try lia. exists h61. reflexivity. }
      destruct Hlast as (h61 & Hskip). rewrite Hskip. cbn [account].
      destruct (guard_step cfg h61 label w60) as (w' & E & _ & _ & Hloud & _).
      rewrite E. cbn [snd].
      assert (Hwin : window_after h61 w60 = map Date_now (firstn 60 calls) ++ [Date_now h61]).
      { unfold window_after. rewrite S60. apply shift_old_fresh.
        assert (Hin61 : In h61 calls).
        { rewrite <- (firstn_skipn 60 calls), Hskip. apply in_or_app. right. left. reflexivity. }
        destruct (firstn 60 calls) as [|h1 l] eqn:Hf; cbn [map app hd]; [lia|].
        apply Hclose; [|exact Hin61].
        apply (firstn_subset Host 60 calls). rewrite Hf. left. reflexivity. }
      assert (Hcount : List.length (window_after h61 w60) = 61%nat).
      { rewrite Hwin, length_app, length_map, length_firstn, Hlen. reflexivity. }
      destruct Hloud as (alert & entry & Pa & La & T & _ & _ & N & F & _).
      { rewrite Hcount, Hlimit. lia. }
      exists alert, entry. rewrite Pa, La, P, L, N, Hcount.
      repeat (split; [reflexivity || assumption|]). exact F.
Qed.

Lemma rate_guard_advisory_witness :
  puts (account CONFIG "createVerificationSession" (firstn 60 (burst 61)) empty_world) = []
  /\ (exists alert entry,
        puts (account CONFIG "createVerificationSession" (burst 61) empty_world) = [alert]
        /\ logs (account CONFIG "createVerificationSession" (burst 61) empty_world) = [entry]
        /\ field alert "type" = str "rate_limit"
        /\ field alert "countInLastMinute" = JNum (js "61"))
  /\ (exists w',
        registerLocalRateAndMaybeAlert CONFIG (host 0 "1970-01-01T00:00:00.000Z" 0 no_network)
          "createVerificationSession" empty_world = (Returned tt, w')
        /\ puts w' = [])
  /\ window_after (host 0 "1970-01-01T00:00:00.000Z" 0 no_network) empty_world = [0%Z].
Proof.
  destruct (rate_guard_advisory CONFIG "createVerificationSession")
    as (Hcall & Hwindow & Hrun).
  destruct (Hrun eq_refl (burst 61) empty_world eq_refl eq_refl) as [Hquiet Hloud].
  split; [|split; [|split]].
  - exact (proj1 (Hquiet 60%nat (le_n 60))).
  - destruct Hloud as (alert & entry & P & L & T & N & _).
    + intros h1 h2 H1 H2. unfold burst in H1, H2.
      apply in_map_iff in H1 as (i & <- & Hi). apply in_map_iff in H2 as (j & <- & Hj).
      apply in_seq in Hi. apply in_seq in Hj. cbn [Date_now host]. lia.
    + exists alert, entry. repeat (split; [assumption|]). exact N.
  - destruct (Hcall (host 0 "1970-01-01T00:00:00.000Z" 0 no_network) empty_world)
      as (w' & E & _ & _ & Hq).
    exists w'. split; [exact E|]. apply Hq. vm_compute. discriminate.
  - rewrite (Hwindow (host 0 "1970-01-01T00:00:00.000Z" 0 no_network) empty_world);
      [reflexivity|constructor|constructor].
Defined.

(* ------------------------------------------------------------------ *)
(** ** Signature codec: coercion, trimming, shape of the tag *)



Lemma trim_start_spaces (ws s : jsstring) :
  all_space ws -> trim_start (ws ++ s) = trim_start s.
Proof.
  induction ws as [|u ws IH]; intros H; cbn [app trim_start]; [reflexivity|].
  inversion H as [|? ? Hu Hws]; subst. rewrite Hu. exact (IH Hws).
Qed.

Lemma trim_start_keeps (s rest : jsstring) :
  s <> [] -> no_space s -> trim_start (s ++ rest) = s ++ rest.
Proof.
  destruct s as [|u s]; [congruence|]. intros _ H. cbn [app trim_start].
  inversion H as [|? ? Hu _]; subst. rewrite Hu. reflexivity.
Qed.

(** White space around a string without any is what [trim] removes. *)
Lemma trim_padded (l s r : jsstring) :
  s <> [] -> no_space s -> all_space l -> all_space r -> trim (l ++ s ++ r) = s.
Proof.
  intros Hne Hs Hl Hr. unfold trim, trim_end.
  rewrite (trim_start_spaces l (s ++ r) Hl), (trim_start_keeps s r Hne Hs).
  rewrite rev_app_distr, trim_start_spaces by (apply Forall_rev; exact Hr).
  rewrite <- (app_nil_r (rev s)), trim_start_keeps, app_nil_r.
  - apply rev_involutive.
  - intros E. apply Hne. rewrite <- (rev_involutive s), E. reflexivity.
  - apply Forall_rev. exact Hs.
Qed.

(** X2.  The received tag is trimmed before it is compared: the tag of a
    non-empty body still verifies with any white space or line terminators
    before and after it. *)
Theorem verify_ignores_space_around_tag (cfg : Config) (body l r : jsstring) :
  body <> [] -> all_space l -> all_space r ->
  verifyShuftiSignature cfg (JStr body) (JStr (l ++ expected_tag cfg body ++ r))
  = Returned true.
Proof.
  intros Hb Hl Hr. rewrite verify_unfold. cbn [js_String].
  assert (Hne : expected_tag cfg body <> []).
  { intros E. pose proof (hex_digest_length
       (Utf8.encode (body ++ Sha256.hex_digest (Utf8.encode (SECRET_KEY cfg))))) as L.
    unfold expected_tag in E. rewrite E in L. discriminate L. }
  rewrite (trim_padded l (expected_tag cfg body) r Hne (hex_digest_no_space _) Hl Hr).
  rewrite jseqb_refl, (body_truthy body Hb), andb_true_r.
  cbn [truthy andb].
  destruct (l ++ expected_tag cfg body ++ r) eqn:E; [|reflexivity].
  apply app_eq_nil in E as [_ E]. apply app_eq_nil in E as [E _]. contradiction.
Qed.

Lemma verify_ignores_space_around_tag_witness :
  verifyShuftiSignature CONFIG (JStr (js "{}"))
    (JStr ([32%N; 9%N] ++ expected_tag CONFIG (js "{}") ++ [13%N; 10%N]))
  = Returned true.
Proof.
  apply verify_ignores_space_around_tag.
  - discriminate.
  - repeat constructor.
  - repeat constructor.
Defined.




(* ------------------------------------------------------------------ *)
(** ** Configuration *)

Lemma strip_ci_app (prefix s rest t : jsstring) :
  strip_ci prefix s = Some rest -> strip_ci prefix (s ++ t) = Some (rest ++ t).
Proof.
  revert s. induction prefix as [|p prefix IH]; intros s; cbn [strip_ci].
  - intros H. injection H as ->. reflexivity.
  - destruct s as [|u s]; [discriminate|]. cbn [app].
    destruct (N.eqb (fold_case u) p); [apply IH|discriminate].
Qed.

Lemma has_http_scheme_app (url t : jsstring) :
  has_http_scheme url = true -> has_http_scheme (url ++ t) = true.
Proof.
  unfold has_http_scheme.
  destruct (strip_ci (js "http") url) as [rest|] eqn:E1; [|discriminate].
  rewrite (strip_ci_app _ _ _ t E1).
  destruct (strip_ci (js "://") rest) as [r2|] eqn:E2.
  - rewrite (strip_ci_app _ _ _ t E2). reflexivity.
  - destruct (strip_ci (js "s") rest) as [rest'|] eqn:E3; [|discriminate].
    destruct (strip_ci (js "://") rest') as [r4|] eqn:E4; [|discriminate].
    intros _. rewrite (strip_ci_app _ _ _ t E3), (strip_ci_app _ _ _ t E4).
    destruct (strip_ci (js "://") (rest ++ t)); reflexivity.
Qed.

Lemma ends_with_slash_app (url : jsstring) : ends_with_slash (url ++ js "/") = true.
Proof. unfold ends_with_slash. rewrite rev_app_distr. reflexivity. Qed.

Lemma merge_no_options (cfg : Config) : merge_options cfg no_options = cfg.
Proof. destruct cfg. reflexivity. Qed.

Lemma set_API_URL_same (cfg : Config) : set_API_URL cfg (API_URL cfg) = cfg.
Proof. destruct cfg. reflexivity. Qed.

(** X4.  [configure] merges the options over the current configuration and
    repairs the provider URL: afterwards [API_URL] always starts with
    http:// or https:// (in any case) and ends with a slash.  A URL without
    such a scheme is replaced by the default URL; a URL with one is kept, with
    a slash added when it lacks one; no other setting is changed by the
    repair, nothing is written to the store, and configuring again with no
    option changes nothing. *)
Theorem configure_repairs_api_url (cfg : Config) (options : Options) (w : World) :
  let merged := merge_options cfg options in
  exists cfg' w',
    configure cfg options w = (Returned cfg', w')
    /\ same_store w w'
    /\ has_http_scheme (API_URL cfg') = true
    /\ ends_with_slash (API_URL cfg') = true
    /\ cfg' = set_API_URL merged (API_URL cfg')
    /\ (has_http_scheme (API_URL merged) = false ->
        API_URL cfg' = js "https://api.shuftipro.com/")
    /\ (has_http_scheme (API_URL merged) = true ->
        API_URL cfg' = if ends_with_slash (API_URL merged)
                       then API_URL merged else API_URL merged ++ js "/")
    /\ (forall w2, fst (configure cfg' no_options w2) = Returned cfg').
Proof.
  intros merged. unfold configure. fold merged.
  set (schemed := if negb (has_http_scheme (API_URL merged))
                  then set_API_URL merged (js "https://api.shuftipro.com/")
                  else merged).
  set (slashed := if negb (ends_with_slash (API_URL schemed))
                  then set_API_URL schemed (API_URL schemed ++ js "/")
                  else schemed).
  assert (Hs : has_http_scheme (API_URL schemed) = true).
  { unfold schemed. destruct (has_http_scheme (API_URL merged)) eqn:E; cbn [negb];
      [exact E|reflexivity]. }
  assert (Hsl : has_http_scheme (API_URL slashed) = true
                /\ ends_with_slash (API_URL slashed) = true).
  { unfold slashed. destruct (ends_with_slash (API_URL schemed)) eqn:E; cbn [negb].
    - split; assumption.
    - cbn [API_URL set_API_URL]. split;
        [apply has_http_scheme_app; exact Hs|apply ends_with_slash_app]. }
  destruct Hsl as [H1 H2].
  exists slashed. eexists. unfold bind. cbn [writeLog ret].
  split; [reflexivity|]. split; [repeat split|].
  split; [exact H1|]. split; [exact H2|]. split; [|split; [|split]].
  - unfold slashed, schemed.
    destruct (has_http_scheme (API_URL merged)); cbn [negb];
      destruct (ends_with_slash _); cbn [negb API_URL set_API_URL];
      try reflexivity; destruct merged; reflexivity.
  - intros E. unfold slashed, schemed. rewrite E. cbn [negb API_URL set_API_URL].
    reflexivity.
  - intros E. unfold slashed, schemed. rewrite E. cbn [negb].
    destruct (ends_with_slash (API_URL merged)); reflexivity.
  - intros w2. unfold configure. rewrite merge_no_options, H1. cbn [negb].
    rewrite H2. reflexivity.
Qed.

Lemma configure_repairs_api_url_witness :
  exists cfg' w',
    configure CONFIG
      {| opt_TABLE := None; opt_CLIENT_ID := Some (js "client_123");
         opt_SECRET_KEY := Some (js "secret_abc");
         opt_API_URL := Some (js "HTTPS://mock.shufti/api");
         opt_CALLBACK_URL := None; opt_REDIRECT_URL := None;
         opt_HTTP_TIMEOUT_MS := None; opt_DEFAULT_LANGUAGE := None;
         opt_LOCALE_MAP := None; opt_PER_MINUTE_LIMIT := None |} empty_world
    = (Returned cfg', w')
    /\ API_URL cfg' = js "HTTPS://mock.shufti/api/"
    /\ SECRET_KEY cfg' = js "secret_abc".
Proof.
  destruct (configure_repairs_api_url CONFIG
              {| opt_TABLE := None; opt_CLIENT_ID := Some (js "client_123");
                 opt_SECRET_KEY := Some (js "secret_abc");
                 opt_API_URL := Some (js "HTTPS://mock.shufti/api");
                 opt_CALLBACK_URL := None; opt_REDIRECT_URL := None;
                 opt_HTTP_TIMEOUT_MS := None; opt_DEFAULT_LANGUAGE := None;
                 opt_LOCALE_MAP := None; opt_PER_MINUTE_LIMIT := None |} empty_world)
    as (cfg' & w' & E & _ & _ & _ & Hrest & _ & Hkept & _).
  exists cfg', w'. split; [exact E|]. split.
  - rewrite Hkept; reflexivity.
  - rewrite Hrest. reflexivity.
Defined.

(* ------------------------------------------------------------------ *)
(** ** Locale and reference *)





Lemma js_injective (s t : string) : js s = js t -> s = t.
Proof.
  unfold js. intros H.
  rewrite <- (string_of_list_ascii_of_string s), <- (string_of_list_ascii_of_string t).
  f_equal. revert H.
  generalize (list_ascii_of_string s) (list_ascii_of_string t).
  intros l1. induction l1 as [|a l1 IH]; intros [|b l2]; cbn [map]; try discriminate.
  - reflexivity.
  - intros H. injection H as Hab Hl. f_equal; [|exact (IH l2 Hl)].
    rewrite <- (ascii_N_embedding a), <- (ascii_N_embedding b), Hab. reflexivity.
Qed.

Lemma of_N_injective (n m : N) : of_N n = of_N m -> n = m.
Proof.
  unfold of_N. intros H. apply js_injective in H.
  apply DecimalN.Unsigned.to_uint_inj.
  assert (E : Some (N.to_uint n) = Some (N.to_uint m)).
  { rewrite <- (NilEmpty.usu (N.to_uint n)), <- (NilEmpty.usu (N.to_uint m)), H.
    reflexivity. }
  injection E as E. exact E.
Qed.

(** Decimal text holds digits only. *)
Lemma of_N_digits (n : N) : ~ In 45%N (of_N n).
Proof.
  unfold of_N. generalize (N.to_uint n). intros d.
  induction d; cbn; intros H; try (destruct H as [H|H]; [discriminate H|tauto]); tauto.
Qed.

Lemma split_at_dash (a1 b1 a2 b2 : jsstring) :
  ~ In 45%N a1 -> ~ In 45%N a2 ->
  a1 ++ 45%N :: b1 = a2 ++ 45%N :: b2 -> a1 = a2 /\ b1 = b2.
Proof.
  revert a2. induction a1 as [|x a1 IH]; intros [|y a2] H1 H2; cbn [app]; intros E.
  - injection E as E. split; [reflexivity|exact E].
  - injection E as E _. exfalso. apply H2. left. symmetry. exact E.
  - injection E as E _. exfalso. apply H1. left. exact E.
  - injection E as Exy E.
    destruct (IH a2) as [Ea Eb]; [| |exact E|].
    + intros H. apply H1. right. exact H.
    + intros H. apply H2. right. exact H.
    + split; [f_equal; assumption|exact Eb].
Qed.

(** X6.  A reference is ref-<clock>-<draw>: two references are equal only
    when both the clock reading and the random draw are, so references
    collide exactly when two sessions are created in the same millisecond
    with the same draw. *)
Theorem generateReference_injective (h1 h2 : Host) :
  (0 <= Date_now h1)%Z -> (0 <= Date_now h2)%Z ->
  (generateReference h1 = generateReference h2
   <-> Date_now h1 = Date_now h2 /\ Math_random_100000 h1 = Math_random_100000 h2).
Proof.
  intros P1 P2. split.
  - unfold generateReference. intros E. apply app_inv_head in E.
    assert (Hz : forall z, (0 <= z)%Z -> of_Z z = of_N (Z.to_N z)).
    { intros [|p|p] Hp; try reflexivity. lia. }
    rewrite (Hz _ P1), (Hz _ P2) in E.
    change (js "-" ++ ?x) with (45%N :: x) in E.
    apply split_at_dash in E; [|apply of_N_digits|apply of_N_digits].
    destruct E as [Ea Eb]. apply of_N_injective in Ea, Eb.
    split; [|exact Eb]. apply Z2N.inj; assumption.
  - intros [E1 E2]. unfold generateReference. rewrite E1, E2. reflexivity.
Qed.

Lemma generateReference_injective_witness :
  generateReference (host 1000 "2025-01-03T00:00:00.000Z" 42 no_network)
  = generateReference (host 1000 "2025-01-03T00:00:00.000Z" 43 no_network)
  <-> 1000%Z = 1000%Z /\ 42%N = 43%N.
Proof.
  apply (generateReference_injective
           (host 1000 "2025-01-03T00:00:00.000Z" 42 no_network)
           (host 1000 "2025-01-03T00:00:00.000Z" 43 no_network));
    vm_compute; discriminate.
Defined.

(* ------------------------------------------------------------------ *)
(** ** Session creation: failures before anything is stored *)

Lemma sanitize_required (name : string) (v : JsVal) :
  sanitize name v JUndefined true =
  if is_missing v then Thrown (ValidationFailed name) else Returned v.
Proof. destruct v as [| | | |[|u s]| |]; reflexivity. Qed.

Lemma sanitize_optional (name : string) (v d : JsVal) :
  sanitize name v d false = Returned (js_nullish (js_nullish v d) JNull).
Proof. reflexivity. Qed.

(** X7.  Validation comes first and reads nothing: when [userId] is [null],
    [undefined] or empty, [createVerificationSession] throws the validation
    error of [userId] and the world is untouched (no query, no log, no
    write); otherwise the same holds for [userEmail]; and when both are
    present the validation succeeds with the defaults of the optional
    entries filled in. *)
Theorem validation_failure_is_immediate (cfg : Config) (h : Host) (a : SessionArgs)
    (w : World) :
  (is_missing (userId a) = true ->
   createVerificationSession cfg h a w = (Thrown (ValidationFailed "userId"), w))
  /\ (is_missing (userId a) = false -> is_missing (userEmail a) = true ->
      createVerificationSession cfg h a w = (Thrown (ValidationFailed "userEmail"), w))
  /\ (is_missing (userId a) = false -> is_missing (userEmail a) = false ->
      sanitizeValidate a =
      Returned {| clean_userId := userId a;
                  clean_userEmail := userEmail a;
                  clean_appLocale := js_nullish (appLocale a) JNull;
                  clean_userCountry := js_nullish (userCountry a) (JStr []);
                  clean_verificationMode := js_nullish (verificationMode a) (str "any") |}).
Proof.
  split; [|split].
  - intros Hu. unfold createVerificationSession, bind.
    rewrite (resolve_invalid a (ValidationFailed "userId") w); [reflexivity|].
    unfold sanitizeValidate. rewrite sanitize_required, Hu. reflexivity.
  - intros Hu He. unfold createVerificationSession, bind.
    rewrite (resolve_invalid a (ValidationFailed "userEmail") w); [reflexivity|].
    unfold sanitizeValidate. rewrite !sanitize_required, Hu, He. reflexivity.
  - intros Hu He. unfold sanitizeValidate.
    rewrite !sanitize_required, Hu, He, !sanitize_optional. cbn [obind].
    f_equal. f_equal.
    + destruct (appLocale a); reflexivity.
    + destruct (userCountry a); reflexivity.
    + destruct (verificationMode a); reflexivity.
Qed.

Lemma validation_failure_is_immediate_witness :
  createVerificationSession test_config (test_host HAPPY)
    {| userId := JStr []; userEmail := str "user@example.com"; appLocale := JUndefined;
       userCountry := JUndefined; verificationMode := JUndefined;
       documentConfig := JUndefined |} accepted_then_pending
  = (Thrown (ValidationFailed "userId"), accepted_then_pending)
  /\ createVerificationSession test_config (test_host HAPPY)
       {| userId := str "u1"; userEmail := JNull; appLocale := JUndefined;
          userCountry := JUndefined; verificationMode := JUndefined;
          documentConfig := JUndefined |} accepted_then_pending
     = (Thrown (ValidationFailed "userEmail"), accepted_then_pending)
  /\ sanitizeValidate (example_args "u1") = Returned (example_clean "u1").
Proof.
  split; [|split].
  - apply (proj1 (validation_failure_is_immediate test_config (test_host HAPPY) _ _)).
    reflexivity.
  - apply (proj1 (proj2 (validation_failure_is_immediate test_config (test_host HAPPY) _ _)));
      reflexivity.
  - apply (proj2 (proj2 (validation_failure_is_immediate test_config (test_host HAPPY)
                           (example_args "u1") empty_world))); reflexivity.
Defined.

Lemma guard_window (cfg : Config) (h : Host) (label : string) (w : World) :
  LOCAL_REQUEST_TIMESTAMPS (snd (registerLocalRateAndMaybeAlert cfg h label w))
  = window_after h w.
Proof.
  destruct (guard_step cfg h label w) as (w' & E & S & _). rewrite E. exact S.
Qed.

Lemma creation_starts (cfg : Config) (h : Host) (a : SessionArgs) (c : Clean)
    (w w0 : World) :
  resolveSession a w = (Returned (c, Completed None), w0) ->
  createVerificationSession cfg h a w = createNewSession cfg h c (documentConfig a) w0.
Proof.
  intros Hres. unfold createVerificationSession, bind. rewrite Hres. reflexivity.
Qed.

(** X8.  When the request to the provider fails (network error or timeout)
    the error [fetch] threw is thrown on unchanged, after it was reported to
    the error sink and logged as critical; no attempt is stored: past the
    rate guard the table and the log of [putItem] calls do not change. *)
Theorem transport_failure_persists_nothing (cfg : Config) (h : Host) (a : SessionArgs)
    (c : Clean) (w w0 : World) (payload : JsVal) (err : JsError) :
  resolveSession a w = (Returned (c, Completed None), w0) ->
  build_payload cfg c (documentConfig a) (generateReference h) (session_language cfg c)
  = Returned payload ->
  fetch h (provider_request cfg payload) = Thrown err ->
  let w1 := snd (registerLocalRateAndMaybeAlert cfg h "createVerificationSession" w0) in
  exists w' created failed,
    createVerificationSession cfg h a w = (Thrown err, w')
    /\ puts w' = puts w1
    /\ table w' = table w1
    /\ map err_message (errors w') =
       map err_message (errors w1) ++ ["KYC network error (createVerificationSession)"]
    /\ logs w' = logs w1 ++ [created; failed]
    /\ log_action created = "create_new"
    /\ log_action failed = "network_error"
    /\ log_critical failed = true.
Proof.
  intros Hres Hpay Hfetch w1.
  rewrite (creation_starts cfg h a c w w0 Hres).
  unfold createNewSession, bind. rewrite guard_returns. fold w1.
  unfold lift. rewrite Hpay. step. rewrite Hfetch. step.
  eexists. eexists. eexists. split; [reflexivity|]. cbn [puts table errors logs].
  split; [reflexivity|]. split; [reflexivity|].
  split; [rewrite map_app; reflexivity|].
  split; [rewrite <- app_assoc; reflexivity|]. repeat split.
Qed.

Lemma transport_failure_persists_nothing_witness :
  exists w',
    createVerificationSession test_config (test_host NETWORK_ERROR) (example_args "u2")
      empty_world
    = (Thrown (PlainError "Simulated network failure"), w')
    /\ puts w' = []
    /\ map err_message (errors w') = ["KYC network error (createVerificationSession)"].
Proof.
  edestruct (transport_failure_persists_nothing test_config (test_host NETWORK_ERROR)
               (example_args "u2") (example_clean "u2") empty_world)
    as (w' & created & failed & E & P & _ & Herr & _).
  - vm_compute. reflexivity.
  - vm_compute. reflexivity.
  - vm_compute. reflexivity.
  - exists w'. split; [exact E|]. split; [rewrite P; reflexivity|].
    rewrite Herr. reflexivity.
Defined.

(** X9.  When the provider's body is not empty and [JSON.parse] refuses it,
    the [SyntaxError] is thrown on after it was reported and logged as
    critical, before the status and the tag are looked at; no attempt is
    stored. *)
Theorem malformed_response_persists_nothing (cfg : Config) (h : Host) (a : SessionArgs)
    (c : Clean) (w w0 : World) (payload : JsVal) (res : Response) :
  resolveSession a w = (Returned (c, Completed None), w0) ->
  build_payload cfg c (documentConfig a) (generateReference h) (session_language cfg c)
  = Returned payload ->
  fetch h (provider_request cfg payload) = Returned res ->
  res_text res <> [] ->
  JSON_parse h (res_text res) = None ->
  let w1 := snd (registerLocalRateAndMaybeAlert cfg h "createVerificationSession" w0) in
  exists w' created failed,
    createVerificationSession cfg h a w = (Thrown SyntaxError, w')
    /\ puts w' = puts w1
    /\ table w' = table w1
    /\ map err_message (errors w') =
       map err_message (errors w1) ++ ["KYC response invalid JSON"]
    /\ logs w' = logs w1 ++ [created; failed]
    /\ log_action failed = "invalid_json"
    /\ log_critical failed = true.
Proof.
  intros Hres Hpay Hfetch Hne Hparse w1.
  rewrite (creation_starts cfg h a c w w0 Hres).
  unfold createNewSession, bind. rewrite guard_returns. fold w1.
  unfold lift. rewrite Hpay. step. rewrite Hfetch.
  assert (Hp : parse_response h (res_text res) = None).
  { unfold parse_response. destruct (res_text res); [congruence|exact Hparse]. }
  rewrite Hp. step.
  eexists. eexists. eexists. split; [reflexivity|]. cbn [puts table errors logs].
  split; [reflexivity|]. split; [reflexivity|].
  split; [rewrite map_app; reflexivity|].
  split; [rewrite <- app_assoc; reflexivity|]. repeat split.
Qed.

Lemma malformed_response_persists_nothing_witness :
  exists w',
    createVerificationSession test_config (test_host INVALID_JSON) (example_args "u2")
      empty_world
    = (Thrown SyntaxError, w')
    /\ puts w' = []
    /\ map err_message (errors w') = ["KYC response invalid JSON"].
Proof.
  edestruct (malformed_response_persists_nothing test_config (test_host INVALID_JSON)
               (example_args "u2") (example_clean "u2") empty_world)
    as (w' & created & failed & E & P & _ & Herr & _).
  - vm_compute. reflexivity.
  - vm_compute. reflexivity.
  - vm_compute. reflexivity.
  - vm_compute. discriminate.
  - vm_compute. reflexivity.
  - exists w'. split; [exact E|]. split; [rewrite P; reflexivity|].
    rewrite Herr. reflexivity.
Defined.

(** X10.  An empty body is read as the empty object and never fails to
    parse, but it can never be authenticated: whatever the status and the
    tag header of the response, the call throws "Invalid Shufti HTTP
    signature" and stores nothing. *)
Theorem empty_response_is_rejected (cfg : Config) (h : Host) (a : SessionArgs)
    (c : Clean) (w w0 : World) (payload : JsVal) (res : Response) :
  resolveSession a w = (Returned (c, Completed None), w0) ->
  build_payload cfg c (documentConfig a) (generateReference h) (session_language cfg c)
  = Returned payload ->
  fetch h (provider_request cfg payload) = Returned res ->
  res_text res = [] ->
  let w1 := snd (registerLocalRateAndMaybeAlert cfg h "createVerificationSession" w0) in
  exists w',
    createVerificationSession cfg h a w =
    (Thrown (PlainError "Invalid Shufti HTTP signature"), w')
    /\ puts w' = puts w1
    /\ table w' = table w1.
Proof.
  intros Hres Hpay Hfetch Hempty w1.
  rewrite (creation_starts cfg h a c w w0 Hres).
  unfold createNewSession, bind. rewrite guard_returns. fold w1.
  unfold lift. rewrite Hpay. step. rewrite Hfetch, Hempty.
  cbn [parse_response].
  assert (Hv : verifyShuftiSignature cfg (JStr []) (response_signature res) = Returned false)
    by reflexivity.
  rewrite Hv. destruct (res_ok res); step; eexists; repeat split.
Qed.

Lemma empty_response_is_rejected_witness :
  exists w',
    createVerificationSession test_config
      (host 1735862400000 "2025-01-03T00:00:00.000Z" 42 empty_answer)
      (example_args "u2") empty_world
    = (Thrown (PlainError "Invalid Shufti HTTP signature"), w')
    /\ puts w' = []
    /\ table w' = [].
Proof.
  edestruct (empty_response_is_rejected test_config
               (host 1735862400000 "2025-01-03T00:00:00.000Z" 42 empty_answer)
               (example_args "u2") (example_clean "u2") empty_world)
    as (w' & E & P & T).
  - vm_compute. reflexivity.
  - vm_compute. reflexivity.
  - reflexivity.
  - reflexivity.
  - exists w'. split; [exact E|]. split; [rewrite P|rewrite T]; reflexivity.
Defined.

Lemma build_payload_null (cfg : Config) (c : Clean) (reference language : jsstring) :
  build_payload cfg c JNull reference language
  = Thrown (TypeError "Cannot read properties of null").
Proof. reflexivity. Qed.

Lemma build_payload_defined (cfg : Config) (c : Clean) (dc : JsVal)
    (reference language : jsstring) :
  dc <> JNull -> exists payload, build_payload cfg c dc reference language = Returned payload.
Proof.
  intros H. unfold build_payload.
  destruct dc; try congruence; cbn [param_default member obind]; eexists; reflexivity.
Qed.

(** X11.  The default of [documentConfig] replaces [undefined] only.  With
    [documentConfig: null] the call throws a [TypeError] while it builds the
    payload: the rate guard has already accounted the call, but nothing is
    logged or sent after it, whatever the provider would answer.  With any
    other value the payload is built. *)
Theorem null_document_config_throws (cfg : Config) (h : Host) (a : SessionArgs)
    (c : Clean) (w w0 : World) :
  resolveSession a w = (Returned (c, Completed None), w0) ->
  (documentConfig a = JNull ->
   createVerificationSession cfg h a w =
   (Thrown (TypeError "Cannot read properties of null"),
    snd (registerLocalRateAndMaybeAlert cfg h "createVerificationSession" w0)))
  /\ (documentConfig a <> JNull ->
      exists payload,
        build_payload cfg c (documentConfig a) (generateReference h)
          (session_language cfg c) = Returned payload).
Proof.
  intros Hres. split.
  - intros Hnull. rewrite (creation_starts cfg h a c w w0 Hres), Hnull.
    unfold createNewSession, bind. rewrite guard_returns.
    unfold lift. rewrite build_payload_null. reflexivity.
  - intros Hdc. apply build_payload_defined. exact Hdc.
Qed.

Lemma null_document_config_throws_witness :
  createVerificationSession test_config (test_host HAPPY)
    {| userId := str "u2"; userEmail := str "user@example.com";
       appLocale := str "en-AU"; userCountry := str "AU";
       verificationMode := JUndefined; documentConfig := JNull |} empty_world
  = (Thrown (TypeError "Cannot read properties of null"),
     snd (registerLocalRateAndMaybeAlert test_config (test_host HAPPY)
            "createVerificationSession" empty_world)).
Proof.
  apply (proj1 (null_document_config_throws test_config (test_host HAPPY)
                   {| userId := str "u2"; userEmail := str "user@example.com";
                      appLocale := str "en-AU"; userCountry := str "AU";
                      verificationMode := JUndefined; documentConfig := JNull |}
                   (example_clean "u2") empty_world empty_world eq_refl)).
  reflexivity.
Defined.

Lemma resolve_frame (a : SessionArgs) (w w0 : World) (r : outcome (Clean * LoopExit)) :
  resolveSession a w = (r, w0) -> same_store w w0.
Proof.
  destruct (sanitizeValidate a) as [c|e] eqn:Hc.
  - rewrite (resolve_run a c w Hc).
    destruct (scan_frame c (timeline_of c w) None w) as (s & w1 & E & F & _).
    rewrite E. intros H. injection H as _ <-. exact F.
  - rewrite (resolve_invalid a e w Hc). intros H. injection H as _ <-.
    apply same_store_refl.
Qed.

(** X12.  A creation attempt is all or nothing.  Once the resolver has found
    nothing to reuse, the call accounts itself to the rate guard exactly once,
    whatever follows, and then either returns having put exactly two rows,
    the attempt and its projection, or throws having put none: a thrown call
    never leaves one row of an attempt behind. *)
Theorem creation_is_all_or_nothing (cfg : Config) (h : Host) (a : SessionArgs)
    (c : Clean) (w w0 w' : World) (r : outcome JsVal) :
  resolveSession a w = (Returned (c, Completed None), w0) ->
  createVerificationSession cfg h a w = (r, w') ->
  let w1 := snd (registerLocalRateAndMaybeAlert cfg h "createVerificationSession" w0) in
  LOCAL_REQUEST_TIMESTAMPS w' = window_after h w
  /\ ((exists v request meta,
         r = Returned v
         /\ puts w' = puts w1 ++ [request; meta]
         /\ field request "type" = str "verification_request"
         /\ field meta "type" = str "meta"
         /\ field request "reference" = field meta "reference")
      \/ (exists e, r = Thrown e /\ puts w' = puts w1 /\ table w' = table w1)).
Proof.
  intros Hres Hrun w1.
  assert (Hwin : LOCAL_REQUEST_TIMESTAMPS w1 = window_after h w).
  { unfold w1. rewrite guard_window. unfold window_after.
    destruct (resolve_frame a w w0 _ Hres) as (_ & _ & S). rewrite S. reflexivity. }
  rewrite (creation_starts cfg h a c w w0 Hres) in Hrun.
  unfold createNewSession, bind in Hrun. rewrite guard_returns in Hrun. fold w1 in Hrun.
  unfold lift in Hrun.
  destruct (build_payload _ _ _ _ _) as [payload|e].
  2:{ injection Hrun as <- <-. split; [exact Hwin|]. right. eexists. repeat split. }
  step_in Hrun.
  destruct (fetch h _) as [res|err].
  2:{ step_in Hrun. injection Hrun as <- <-. split; [exact Hwin|].
      right. eexists. repeat split. }
  destruct (parse_response h (res_text res)) as [parsed|].
  2:{ step_in Hrun. injection Hrun as <- <-. split; [exact Hwin|].
      right. eexists. repeat split. }
  destruct (res_ok res); step_in Hrun;
    (destruct (verifyShuftiSignature cfg _ _) as [[|]|e]; step_in Hrun;
     injection Hrun as <- <-; (split; [exact Hwin|]);
     [ left; eexists; eexists; eexists; cbn [puts];
       split; [reflexivity|]; split; [rewrite <- app_assoc; reflexivity|];
       repeat split
     | right; eexists; repeat split
     | right; eexists; repeat split ]).
Qed.

Lemma creation_is_all_or_nothing_witness :
  LOCAL_REQUEST_TIMESTAMPS
    (snd (createVerificationSession test_config (test_host BAD_SIGNATURE)
            (example_args "u2") empty_world))
  = window_after (test_host BAD_SIGNATURE) empty_world.
Proof.
  destruct (creation_is_all_or_nothing test_config (test_host BAD_SIGNATURE)
              (example_args "u2") (example_clean "u2") empty_world empty_world
              (snd (createVerificationSession test_config (test_host BAD_SIGNATURE)
                      (example_args "u2") empty_world))
              (fst (createVerificationSession test_config (test_host BAD_SIGNATURE)
                      (example_args "u2") empty_world))
              eq_refl (surjective_pairing _)) as [H _].
  exact H.
Defined.

(* ------------------------------------------------------------------ *)
(** ** When a session is created, and when a user counts as validated *)

Lemma first_true (A : Type) (f : A -> bool) (l : list A) :
  existsb f l = true ->
  exists pre e post,
    l = pre ++ e :: post /\ (forall x, In x pre -> f x = false) /\ f e = true.
Proof.
  induction l as [|a l IH]; cbn [existsb]; intros H.
  - discriminate H.
  - destruct (f a) eqn:Fa.
    + exists [], a, l. split; [reflexivity|]. split; [intros x []|exact Fa].
    + destruct (IH H) as (pre & e & post & E & P & Fe).
      exists (a :: pre), e, post. split; [rewrite E; reflexivity|].
      split; [|exact Fe]. intros x [<-|Hx]; [exact Fa|apply P; exact Hx].
Qed.

Lemma none_true (A : Type) (f : A -> bool) (l : list A) :
  existsb f l = false -> forall x, In x l -> f x = false.
Proof.
  intros H x Hx. destruct (f x) eqn:Fx; [|reflexivity].
  rewrite <- H. symmetry. apply existsb_exists. exists x. split; assumption.
Qed.

Lemma resolved_clean (a : SessionArgs) (c : Clean) (ex : LoopExit) (w w0 : World) :
  resolveSession a w = (Returned (c, ex), w0) -> sanitizeValidate a = Returned c.
Proof.
  destruct (sanitizeValidate a) as [c'|e] eqn:Hc.
  - rewrite (resolve_run a c' w Hc).
    destruct (scanTimeline c' (timeline_of c' w) None w) as [[s|e] w1]; intros H.
    + apply run_Returned in H as [H _]. injection H as -> _. reflexivity.
    + discriminate H.
  - rewrite (resolve_invalid a e w Hc). intros H. discriminate H.
Qed.

Lemma nothing_reusable (a : SessionArgs) (c : Clean) (w w0 : World) :
  resolveSession a w = (Returned (c, Completed None), w0) ->
  forall x, In x (scan_order (table w) (clean_userId c)) ->
            accepted (table w) x = false /\ active (table w) x = false.
Proof.
  intros Hrun. pose proof (resolved_clean a c _ w w0 Hrun) as Hc.
  rewrite (resolve_run a c w Hc) in Hrun.
  destruct (existsb (accepted (table w)) (scan_order (table w) (clean_userId c)))
    eqn:Hacc.
  - destruct (first_true _ _ _ Hacc) as (pre & e & post & E & P & Fe).
    destruct (scan_first_accepted c (timeline_of c w) pre e post None w E P Fe)
      as (w' & R & _).
    rewrite R in Hrun. discriminate Hrun.
  - pose proof (none_true _ _ _ Hacc) as Hno.
    destruct (existsb (active (table w)) (scan_order (table w) (clean_userId c)))
      eqn:Hact.
    + destruct (first_true _ _ _ Hact) as (pre & e & post & E & P & Fe).
      rewrite (scan_first_active c (timeline_of c w) pre e post w E Hno P Fe) in Hrun.
      discriminate Hrun.
    + pose proof (none_true _ _ _ Hact) as Hna.
      intros x Hx. split; [apply Hno|apply Hna]; exact Hx.
Qed.

(** X13.  A new session is attempted exactly when nothing can be reused:
    for valid arguments the resolver ends without a result and without a
    candidate if and only if no [verification_request] entry it examines is
    accepted or active. *)
Theorem creation_iff_nothing_reusable (a : SessionArgs) (c : Clean) (w : World) :
  sanitizeValidate a = Returned c ->
  (resolveSession a w = (Returned (c, Completed None), w)
   <-> forall x, In x (scan_order (table w) (clean_userId c)) ->
                 accepted (table w) x = false /\ active (table w) x = false).
Proof.
  intros Hc. split.
  - apply nothing_reusable.
  - intros Hnone. rewrite (resolve_run a c w Hc).
    rewrite (scan_nothing c (timeline_of c w) w); [reflexivity| |];
      intros x Hx; apply (Hnone x Hx).
Qed.

Lemma creation_iff_nothing_reusable_witness :
  resolveSession (example_args "u1") declined_only
  = (Returned (example_clean "u1", Completed None), declined_only).
Proof.
  apply (proj2 (creation_iff_nothing_reusable (example_args "u1") (example_clean "u1")
                  declined_only eq_refl)).
  intros x Hx. vm_compute in Hx. destruct Hx as [<-|[]]. vm_compute. split; reflexivity.
Defined.

Lemma scanValidated_run (items : list Row) (w : World) :
  scanValidated items w
  = (Returned (existsb (validated (table w)) (filter is_request items)), w).
Proof.
  induction items as [|item rest IH]; [reflexivity|].
  cbn [scanValidated filter]. unfold is_request at 1.
  destruct (is_str (field item "type") (js "verification_request")); cbn [negb].
  - unfold bind, query. cbn [existsb]. unfold validated at 1, meta_for.
    destruct (is_str _ (js KYC_EVENT.VERIFICATION_ACCEPTED)); [reflexivity|exact IH].
  - exact IH.
Qed.

Lemma isUserValidated_run (userId : JsVal) (w : World) :
  isUserValidated userId w
  = (Returned (existsb (validated (table w)) (scan_order (table w) userId)), w).
Proof.
  unfold isUserValidated, bind, query. cbn [fst snd]. apply scanValidated_run.
Qed.






(* ------------------------------------------------------------------ *)
(** ** The ledger store *)

Lemma deepClone_nil : deepClone [] = [].
Proof. reflexivity. Qed.

Lemma deepClone_cons (k : jsstring) (x : JsVal) (rest : Row) :
  deepClone ((k, x) :: rest)
  = match x with
    | JUndefined => deepClone rest
    | _ => (k, json_clone x) :: deepClone rest
    end.
Proof. destruct x; reflexivity. Qed.

Lemma json_clone_defined (v : JsVal) : v <> JUndefined -> json_clone v <> JUndefined.
Proof.
  destruct v; cbn [json_clone]; try congruence.
  intros _. destruct (_ || _); discriminate.
Qed.

(** Induction on a value, with the elements of an array and the properties
    of an object as induction hypotheses. *)
Lemma JsVal_nested_ind (P : JsVal -> Prop) :
  P JUndefined -> P JNull -> (forall b, P (JBool b)) -> (forall t, P (JNum t)) ->
  (forall s, P (JStr s)) ->
  (forall items, Forall P items -> P (JArr items)) ->
  (forall fields, Forall (fun kv => P (snd kv)) fields -> P (JObj fields)) ->
  forall v, P v.
Proof.
  intros P_undefined P_null P_bool P_num P_str P_arr P_obj.
  fix IH 1. intros [| | b | t | s | items | fields].
  - exact P_undefined.
  - exact P_null.
  - apply P_bool.
  - apply P_num.
  - apply P_str.
  - apply P_arr. induction items as [|x rest IHl]; constructor; [apply IH|exact IHl].
  - apply P_obj. induction fields as [|kv rest IHl]; constructor; [apply IH|exact IHl].
Qed.

Lemma json_clone_obj (fields : Row) : json_clone (JObj fields) = JObj (deepClone fields).
Proof. reflexivity. Qed.

Lemma deepClone_cons_defined (k : jsstring) (x : JsVal) (rest : Row) :
  x <> JUndefined -> deepClone ((k, x) :: rest) = (k, json_clone x) :: deepClone rest.
Proof. intros H. destruct x; [congruence| | | | | |]; reflexivity. Qed.

Lemma json_clone_idempotent (v : JsVal) : json_clone (json_clone v) = json_clone v.
Proof.
  induction v using JsVal_nested_ind; try reflexivity.
  - cbn [json_clone]. destruct (_ || _) eqn:E; [reflexivity|].
    cbn [json_clone]. rewrite E. reflexivity.
  - cbn [json_clone]. f_equal. rewrite map_map.
    induction H as [|x l Hx Hl IH]; [reflexivity|].
    cbn [map]. f_equal; [|exact IH].
    destruct x; try reflexivity; try exact Hx.
    cbn [json_clone]. destruct (_ || _) eqn:E; [reflexivity|].
    cbn [json_clone]. rewrite E. reflexivity.
  - rewrite !json_clone_obj. f_equal.
    induction H as [|[k x] l Hx Hl IH]; [reflexivity|].
    cbn [snd] in Hx.
    destruct x as [| | b | t | s | items | fields]; [exact IH| | | | | |];
      match goal with
      | |- deepClone (deepClone ((_, ?v) :: _)) = _ =>
          assert (D : v <> JUndefined) by (intros X; discriminate X);
          rewrite (deepClone_cons_defined k v l D);
          rewrite (deepClone_cons_defined k (json_clone v) (deepClone l)
                     (json_clone_defined v D));
          rewrite Hx, IH; reflexivity
      end.
Qed.

Lemma deepClone_idempotent (r : Row) : deepClone (deepClone r) = deepClone r.
Proof.
  pose proof (json_clone_idempotent (JObj r)) as H.
  rewrite !json_clone_obj in H. injection H as H. exact H.
Qed.



(* ------------------------------------------------------------------ *)
(** ** The record of a reference *)





(* ------------------------------------------------------------------ *)
(** ** From an accepted webhook to a validated user *)

Lemma field_deepClone (r : Row) (k : string) :
  field r k <> JUndefined -> field (deepClone r) k = json_clone (field r k).
Proof.
  unfold field, get. induction r as [|[k0 x] rest IH]; cbn [assoc].
  - intros H. congruence.
  - destruct (jseqb (js k) k0) eqn:E.
    + intros Hx. rewrite (deepClone_cons_defined k0 x rest Hx). cbn [assoc].
      rewrite E. reflexivity.
    + intros H. rewrite deepClone_cons.
      destruct x; [exact (IH H)| | | | | |]; cbn [assoc]; rewrite E; exact (IH H).
Qed.

Lemma field_deepClone_str (r : Row) (k : string) (s : jsstring) :
  field r k = JStr s -> field (deepClone r) k = JStr s.
Proof.
  intros H. rewrite field_deepClone; rewrite H; [reflexivity|discriminate].
Qed.

Lemma Map_set_fresh (k : jsstring) (v : Row) (t : list (jsstring * Row)) :
  Map_get k t = None -> Map_set k v t = t ++ [(k, v)].
Proof.
  induction t as [|[k0 v0] t IH]; cbn [Map_get Map_set app]; [reflexivity|].
  destruct (jseqb k k0); [discriminate|]. intros H. rewrite (IH H). reflexivity.
Qed.

Lemma Map_get_In (k : jsstring) (t : list (jsstring * Row)) (r : Row) :
  Map_get k t = Some r -> In (k, r) t.
Proof.
  induction t as [|[k0 v0] t IH]; cbn [Map_get]; [discriminate|].
  destruct (jseqb k k0) eqn:E.
  - intros H. injection H as <-. apply jseqb_eq in E. subst k0. left. reflexivity.
  - intros H. right. exact (IH H).
Qed.

Lemma Map_set_In (k k' : jsstring) (v r' : Row) (t : list (jsstring * Row)) :
  NoDup (map fst t) ->
  In (k', r') (Map_set k v t) ->
  (k' = k /\ r' = v) \/ (In (k', r') t /\ k' <> k).
Proof.
  induction t as [|[k0 v0] t IH]; cbn [Map_set map fst]; intros Hnd Hin.
  - destruct Hin as [E|[]]. injection E as <- <-. left. split; reflexivity.
  - inversion Hnd as [|? ? Hk0 Hnd']. subst.
    destruct (jseqb k k0) eqn:E.
    + apply jseqb_eq in E. subst k0. destruct Hin as [E|Hin].
      * injection E as <- <-. left. split; reflexivity.
      * right. split; [right; exact Hin|].
        intros ->. apply Hk0. apply (in_map fst) in Hin. exact Hin.
    + destruct Hin as [E'|Hin].
      * injection E' as <- <-. right. split; [left; reflexivity|].
        intros ->. rewrite jseqb_refl in E. discriminate E.
      * destruct (IH Hnd' Hin) as [L|[R1 R2]]; [left; exact L|].
        right. split; [right; exact R1|exact R2].
Qed.

Lemma Map_set_has (k : jsstring) (v : Row) (t : list (jsstring * Row)) :
  In (k, v) (Map_set k v t).
Proof.
  induction t as [|[k0 v0] t IH]; cbn [Map_set]; [left; reflexivity|].
  destruct (jseqb k k0) eqn:E.
  - apply jseqb_eq in E. subst k0. left. reflexivity.
  - right. exact IH.
Qed.

Lemma filter_Map_set_skip (P : Row -> bool) (k : jsstring) (v : Row)
    (t : list (jsstring * Row)) :
  P v = false ->
  (forall old, In (k, old) t -> P old = false) ->
  filter P (map snd (Map_set k v t)) = filter P (map snd t).
Proof.
  intros Pv. induction t as [|[k0 v0] t IH]; cbn [Map_set map snd filter]; intros Hold.
  - rewrite Pv. reflexivity.
  - destruct (jseqb k k0) eqn:E; cbn [map snd filter].
    + apply jseqb_eq in E. subst k0.
      rewrite Pv, (Hold v0 (or_introl eq_refl)). reflexivity.
    + rewrite IH; [reflexivity|]. intros old Ho. apply Hold. right. exact Ho.
Qed.

Lemma filter_none (A : Type) (f : A -> bool) (l : list A) :
  (forall x, In x l -> f x = false) -> filter f l = [].
Proof.
  induction l as [|a l IH]; intros H; [reflexivity|].
  cbn [filter]. rewrite (H a (or_introl eq_refl)). apply IH.
  intros x Hx. apply H. right. exact Hx.
Qed.

(** A row stored under a [meta] key is in no user's partition. *)
Lemma meta_key_pk (reference sk pk sk' user : JsVal) :
  item_key (template "meta_" reference) sk = item_key pk sk' ->
  jseqb (js_String pk) (js_String (template "user_" user)) = false.
Proof.
  unfold item_key, template. cbn [js_String].
  destruct (js_String pk) as [|c s]; intros H.
  - discriminate H.
  - injection H as Hc _. subst c. reflexivity.
Qed.

(** Appending a row that is not a request leaves the scan order alone. *)
Lemma scan_rows_app (l extra : list Row) :
  (forall x, In x extra -> is_request (deepClone x) = false) ->
  filter is_request (rev (map deepClone (firstn 50 (l ++ extra))))
  = filter is_request (rev (map deepClone (firstn 50 l))).
Proof.
  intros H. rewrite firstn_app, map_app, rev_app_distr, filter_app.
  rewrite filter_none; [reflexivity|].
  intros x Hx. apply in_rev in Hx. apply in_map_iff in Hx.
  destruct Hx as (y & <- & Hy). apply H.
  clear - Hy. revert Hy. generalize (50 - List.length l)%nat. intros n.
  revert extra. induction n as [|n IH]; intros [|e extra]; cbn [firstn In]; try tauto.
  intros [Hy|Hy]; [left; exact Hy|right; exact (IH extra Hy)].
Qed.



Section Webhook_write.

Variable t : list (jsstring * Row).
Variables entry meta : Row.
Variables user created_at : JsVal.
Variable R : jsstring.

Hypothesis shape : ledger_shape t.
Hypothesis fresh : Map_get (item_key (template "user_" user) created_at) t = None.
Hypothesis entry_type : field entry "type" = str "webhook_event".
Hypothesis meta_type : field meta "type" = str "meta".
Hypothesis meta_pk : field meta "pk" = template "meta_" (JStr R).
Hypothesis meta_ppk : field meta "ppk" = JStr R.





End Webhook_write.




(* ------------------------------------------------------------------ *)
(** ** The shape of the ledger is an invariant *)

Lemma Map_set_keys (k k' : jsstring) (v : Row) (t : list (jsstring * Row)) :
  In k' (map fst (Map_set k v t)) -> k' = k \/ In k' (map fst t).
Proof.
  induction t as [|[k0 v0] t IH]; cbn [Map_set map fst In].
  - intros [<-|[]]. left. reflexivity.
  - destruct (jseqb k k0); cbn [map fst In].
    + intros H. right. exact H.
    + intros [<-|H]; [right; left; reflexivity|].
      destruct (IH H) as [->|H']; [left; reflexivity|right; right; exact H'].
Qed.

Lemma NoDup_Map_set (k : jsstring) (v : Row) (t : list (jsstring * Row)) :
  NoDup (map fst t) -> NoDup (map fst (Map_set k v t)).
Proof.
  induction t as [|[k0 v0] t IH]; cbn [Map_set map fst]; intros Hnd.
  - repeat constructor. intros [].
  - inversion Hnd as [|? ? Hk0 Hnd']. subst.
    destruct (jseqb k k0) eqn:E; cbn [map fst]; [exact Hnd|].
    constructor; [|exact (IH Hnd')].
    intros Hin. destruct (Map_set_keys _ _ _ _ Hin) as [->|Hin'].
    + rewrite jseqb_refl in E. discriminate E.
    + exact (Hk0 Hin').
Qed.

Lemma shape_put (t : list (jsstring * Row)) (item : Row) :
  ledger_shape t ->
  item_key (field item "pk") (field item "sk")
  = item_key (field (deepClone item) "pk") (field (deepClone item) "sk") ->
  (of_type "meta" (deepClone item) = true ->
   item_key (field item "pk") (field item "sk")
   = item_key (template "meta_" (field (deepClone item) "ppk")) (str "meta")) ->
  ledger_shape (Map_set (item_key (field item "pk") (field item "sk")) (deepClone item) t).
Proof.
  intros [Hnd Hrows] Hkey Hmeta. split; [apply NoDup_Map_set; exact Hnd|].
  intros k r Hin. destruct (Map_set_In _ _ _ _ _ Hnd Hin) as [[-> ->]|[Hold _]].
  - split; [apply deepClone_idempotent|]. split; [exact Hkey|exact Hmeta].
  - exact (Hrows k r Hold).
Qed.

(** A timeline entry, an alert: any row with string keys that is not of
    type [meta]. *)
Lemma shape_put_entry (t : list (jsstring * Row)) (item : Row) (p s ty : jsstring) :
  ledger_shape t ->
  field item "pk" = JStr p -> field item "sk" = JStr s ->
  field item "type" = JStr ty -> ty <> js "meta" ->
  ledger_shape (Map_set (item_key (field item "pk") (field item "sk")) (deepClone item) t).
Proof.
  intros Hs Hp Hsk Hty Hne. apply shape_put; [exact Hs| |].
  - rewrite (field_deepClone_str _ _ _ Hp), (field_deepClone_str _ _ _ Hsk), Hp, Hsk.
    reflexivity.
  - unfold of_type. rewrite (field_deepClone_str _ _ _ Hty). cbn [is_str].
    rewrite (jseqb_neq _ _ Hne). discriminate.
Qed.

Lemma shape_put_meta (t : list (jsstring * Row)) (item : Row) (reference : JsVal) :
  ledger_shape t ->
  indexable reference ->
  field item "pk" = template "meta_" reference -> field item "sk" = str "meta" ->
  field item "ppk" = reference ->
  ledger_shape (Map_set (item_key (field item "pk") (field item "sk")) (deepClone item) t).
Proof.
  intros Hs [Hdef Hstable] Hp Hsk Hppk. apply shape_put; [exact Hs| |].
  - rewrite (field_deepClone_str _ _ _ Hp), (field_deepClone_str _ _ _ Hsk), Hp, Hsk.
    reflexivity.
  - intros _. rewrite field_deepClone; [|rewrite Hppk; exact Hdef].
    rewrite Hp, Hsk, Hppk. unfold template. rewrite Hstable. reflexivity.
Qed.

Lemma guard_keeps_shape (cfg : Config) (h : Host) (label : string) (w : World) :
  ledger_shape (table w) ->
  ledger_shape (table (snd (registerLocalRateAndMaybeAlert cfg h label w))).
Proof.
  intros Hs. unfold registerLocalRateAndMaybeAlert.
  destruct (_ >? _)%Z; [|exact Hs].
  unfold bind. step.
  eapply shape_put_entry with (ty := js "rate_limit");
    [exact Hs|reflexivity|reflexivity|reflexivity|discriminate].
Qed.

Lemma creation_keeps_shape (cfg : Config) (h : Host) (a : SessionArgs) (w : World) :
  ledger_shape (table w) ->
  ledger_shape (table (snd (createVerificationSession cfg h a w))).
Proof.
  intros Hs. unfold createVerificationSession, bind.
  destruct (resolveSession a w) as [[[c ex]|e] w0] eqn:Hres;
    destruct (resolve_frame a w w0 _ Hres) as (T & _ & _);
    [|cbn [snd]; rewrite T; exact Hs].
  rewrite <- T in Hs. clear T Hres. cbn [snd fst].
  destruct ex as [result|[cand|]]; [exact Hs|exact Hs|].
  unfold createNewSession, bind. rewrite guard_returns.
  pose proof (guard_keeps_shape cfg h "createVerificationSession" w0 Hs) as H1.
  revert H1. generalize (snd (registerLocalRateAndMaybeAlert cfg h
                                "createVerificationSession" w0)).
  intros w1 H1. unfold lift.
  destruct (build_payload _ _ _ _ _) as [payload|e]; [|exact H1].
  step. destruct (fetch h _) as [res|err]; [|exact H1].
  destruct (parse_response h (res_text res)) as [parsed|]; [|exact H1].
  destruct (res_ok res); step;
    (destruct (verifyShuftiSignature cfg _ _) as [[|]|e]; step; try exact H1;
     cbn [table];
     eapply shape_put_meta with (reference := (JStr (generateReference h)));
     [ eapply shape_put_entry with (ty := js "verification_request");
       [exact H1|reflexivity|reflexivity|reflexivity|discriminate]
     | split; [discriminate|reflexivity]
     | reflexivity | reflexivity | reflexivity ]).
Qed.

Lemma webhook_keeps_shape (cfg : Config) (h : Host) (body sig : JsVal) (w : World) :
  ledger_shape (table w) ->
  (forall payload, JSON_parse h (js_String body) = Some payload ->
                   indexable (js_or (get payload "reference") (str "unknown"))) ->
  ledger_shape (table (snd (handleWebhook cfg h body sig w))).
Proof.
  intros Hs Hidx. unfold handleWebhook, bind, lift. step.
  destruct (verifyShuftiSignature cfg body sig) as [[|]|e]; step; try exact Hs.
  destruct (JSON_parse h (js_String body)) as [payload|] eqn:Hp; [|exact Hs].
  unfold query. step. cbn [table].
  eapply shape_put_meta with (reference := (js_or (get payload "reference") (str "unknown")));
    [ eapply shape_put_entry with (ty := js "webhook_event");
      [exact Hs|reflexivity|reflexivity|reflexivity|discriminate]
    | exact (Hidx payload eq_refl)
    | reflexivity | reflexivity | reflexivity ].
Qed.

Lemma update_keeps_shape (cfg : Config) (h : Host) (reference newStatus : JsVal)
    (w : World) :
  ledger_shape (table w) ->
  indexable reference ->
  ledger_shape (table (snd (updateRecordStatus cfg h reference newStatus w))).
Proof.
  intros Hs Hidx. unfold updateRecordStatus, bind, query. step.
  destruct (pickMeta_or_first _) as [m|]; step.
  - cbn [table].
    eapply shape_put_entry with (ty := js "status_change");
      [|reflexivity|reflexivity|reflexivity|discriminate].
    eapply shape_put_meta with (reference := reference);
      [exact Hs|exact Hidx|reflexivity|reflexivity|reflexivity].
  - unfold getItem. step.
    destruct (get_row _ _ _) as [m|]; step; [|exact Hs].
    cbn [table].
    eapply shape_put_entry with (ty := js "status_change");
      [|reflexivity|reflexivity|reflexivity|discriminate].
    eapply shape_put_meta with (reference := reference);
      [exact Hs|exact Hidx|reflexivity|reflexivity|reflexivity].
Qed.

(** X19.  The shape of the ledger is an invariant of the service.  If keys
    are unique, every row is the JSON image it was stored as and sits under
    its own [pk|sk], and every [meta] row sits under the [meta] key of the
    reference it is indexed by, then the same holds after
    [createVerificationSession] (whatever its outcome, an alert of the rate
    guard included), after [handleWebhook] and after [updateRecordStatus],
    for references that are strings or otherwise survive the JSON image. *)
Theorem writes_keep_ledger_shape (cfg : Config) (h : Host) (w : World) :
  ledger_shape (table w) ->
  (forall a, ledger_shape (table (snd (createVerificationSession cfg h a w))))
  /\ (forall body sig,
        (forall payload, JSON_parse h (js_String body) = Some payload ->
                         indexable (js_or (get payload "reference") (str "unknown"))) ->
        ledger_shape (table (snd (handleWebhook cfg h body sig w))))
  /\ (forall reference newStatus,
        indexable reference ->
        ledger_shape (table (snd (updateRecordStatus cfg h reference newStatus w)))).
Proof.
  intros Hs. split; [|split].
  - intros a. apply creation_keeps_shape. exact Hs.
  - intros body sig Hidx. apply webhook_keeps_shape; assumption.
  - intros reference newStatus Hidx. apply update_keeps_shape; assumption.
Qed.

Lemma writes_keep_ledger_shape_witness :
  ledger_shape
    (table (snd (createVerificationSession test_config (test_host HAPPY)
                   (example_args "u2") empty_world))).
Proof.
  apply (proj1 (writes_keep_ledger_shape test_config (test_host HAPPY) empty_world
                  (conj (NoDup_nil jsstring) (fun k r (H : In (k, r) []) => match H with end)))).
Defined.

(* ------------------------------------------------------------------ *)
(** ** Reuse is stable, and a created session is reused *)

Lemma scan_same_table (c : Clean) (items : list Row) :
  forall (cand : option JsVal) (w1 w2 : World),
  table w1 = table w2 ->
  fst (scanTimeline c items cand w1) = fst (scanTimeline c items cand w2).
Proof.
  induction items as [|item rest IH]; intros cand w1 w2 T; [reflexivity|].
  destruct (is_request item) eqn:Hreq.
  - destruct (accepted (table w1) item) eqn:Hacc.
    + destruct (scan_accept c item rest cand w1 Hreq Hacc) as (w1' & E1 & _).
      rewrite T in Hacc.
      destruct (scan_accept c item rest cand w2 Hreq Hacc) as (w2' & E2 & _).
      rewrite E1, E2, T. reflexivity.
    + rewrite (scan_continue c item rest cand w1 Hreq Hacc).
      rewrite T in Hacc. rewrite (scan_continue c item rest cand w2 Hreq Hacc).
      rewrite T. apply IH. exact T.
  - rewrite !(scan_skip c item rest cand Hreq). apply IH. exact T.
Qed.

(** X20.  A reuse answer is stable.  When [createVerificationSession] has
    answered with a reused session, the same call made again, at any later
    time and whatever the provider would do, gives the same answer, as long
    as nothing else wrote to the ledger in between. *)
Theorem reuse_is_stable (cfg : Config) (h h' : Host) (a : SessionArgs)
    (w w' : World) (r : JsVal) :
  createVerificationSession cfg h a w = (Returned r, w') ->
  get r "alreadyValidated" = JBool true \/ get r "alreadyHasActive" = JBool true ->
  exists w'', createVerificationSession cfg h' a w' = (Returned r, w'')
              /\ same_store w' w''.
Proof.
  unfold createVerificationSession, bind. intros Hrun Hreuse.
  destruct (sanitizeValidate a) as [c|e] eqn:Hc.
  2:{ rewrite (resolve_invalid a e w Hc) in Hrun. exfalso.
      exact (run_Thrown _ _ _ _ _ Hrun). }
  rewrite (resolve_run a c w Hc) in Hrun. rewrite (resolve_run a c w' Hc).
  destruct (scan_frame c (timeline_of c w) None w) as (s & w1 & E & F & _).
  rewrite E in Hrun. cbn [snd fst] in Hrun.
  assert (T : table w' = table w).
  { destruct s as [result|[cand|]].
    - apply run_Returned in Hrun as [_ <-]. destruct F as [T _]. exact T.
    - step_in Hrun. apply run_Returned in Hrun as [_ <-]. destruct F as [T _]. exact T.
    - destruct (createNew_not_reuse cfg h c (documentConfig a) w1 w' r Hrun) as [V A].
      rewrite V, A in Hreuse. destruct Hreuse as [X|X]; discriminate X. }
  destruct (scan_frame c (timeline_of c w') None w') as (s' & w1' & E' & F' & _).
  pose proof (scan_same_table c (timeline_of c w') None w' w T) as Hsame.
  unfold timeline_of in Hsame at 2. rewrite T in Hsame. fold (timeline_of c w) in Hsame.
  rewrite E', E in Hsame. cbn [fst] in Hsame. apply Returned_inj in Hsame. subst s'.
  rewrite E'. cbn [snd fst].
  destruct s as [result|[cand|]].
  - apply run_Returned in Hrun as [<- _]. exists w1'. split; [reflexivity|exact F'].
  - step_in Hrun. apply run_Returned in Hrun as [<- _]. step.
    eexists. split; [reflexivity|]. destruct F' as (T' & P' & S'). repeat split; assumption.
  - destruct (createNew_not_reuse cfg h c (documentConfig a) w1 w' r Hrun) as [V A].
    rewrite V, A in Hreuse. destruct Hreuse as [X|X]; discriminate X.
Qed.

Lemma reuse_is_stable_witness :
  exists w'',
    createVerificationSession test_config (test_host NETWORK_ERROR) (example_args "u1")
      (snd (createVerificationSession test_config (test_host HAPPY) (example_args "u1")
              one_pending))
    = (Returned (reuse_result "alreadyHasActive"
                   (example_request "u1" "ref-b" "2025-01-02T00:00:00.000Z"
                      "request.pending")
                   (str "request.pending") JNull), w'')
    /\ same_store
         (snd (createVerificationSession test_config (test_host HAPPY) (example_args "u1")
                 one_pending)) w''.
Proof.
  apply (reuse_is_stable test_config (test_host HAPPY) (test_host NETWORK_ERROR)
           (example_args "u1") one_pending).
  - vm_compute. reflexivity.
  - right. reflexivity.
Defined.

Lemma Map_get_app (k : jsstring) (t l : list (jsstring * Row)) :
  Map_get k (t ++ l)
  = match Map_get k t with Some r => Some r | None => Map_get k l end.
Proof.
  induction t as [|[k0 v0] t IH]; cbn [app Map_get]; [reflexivity|].
  destruct (jseqb k k0); [reflexivity|exact IH].
Qed.

Lemma Map_set_two_fresh (k1 k2 : jsstring) (r1 r2 : Row) (t : list (jsstring * Row)) :
  Map_get k1 t = None -> Map_get k2 t = None -> jseqb k2 k1 = false ->
  Map_set k2 r2 (Map_set k1 r1 t) = t ++ [(k1, r1); (k2, r2)].
Proof.
  intros H1 H2 Hne. rewrite (Map_set_fresh k1 r1 t H1).
  rewrite Map_set_fresh.
  - rewrite <- app_assoc. reflexivity.
  - rewrite Map_get_app, H2. cbn [Map_get]. rewrite Hne. reflexivity.
Qed.

Lemma query_rows_app (attr : string) (val : JsVal) (t l : list (jsstring * Row)) :
  query_rows attr val None (t ++ l)
  = query_rows attr val None t ++ query_rows attr val None l.
Proof. unfold query_rows. rewrite map_app, filter_app, map_app. reflexivity. Qed.

Lemma query_rows_room (attr : string) (val : JsVal) (n : nat) (t : list (jsstring * Row)) :
  (List.length (query_rows attr val None t) <= n)%nat ->
  query_rows attr val (Some n) t = query_rows attr val None t.
Proof.
  unfold query_rows. rewrite length_map. intros H.
  destruct n as [|n]; [reflexivity|]. rewrite firstn_all2; [reflexivity|exact H].
Qed.

Lemma active_is_string (v : JsVal) :
  ACTIVE_EVENTS_has v = true ->
  json_clone v = v /\ truthy v = true
  /\ is_str v (js KYC_EVENT.VERIFICATION_ACCEPTED) = false.
Proof.
  unfold ACTIVE_EVENTS_has, ACTIVE_EVENTS. cbn [existsb].
  destruct v; cbn [is_str]; try discriminate.
  intros H. split; [reflexivity|].
  repeat (apply orb_true_iff in H; destruct H as [H|H]);
    try discriminate H; apply jseqb_eq in H; subst s; split; reflexivity.
Qed.

Lemma nullish_twice (v : JsVal) :
  v <> JUndefined -> js_nullish (js_nullish v v) JNull = v.
Proof. destruct v; [congruence| | | | | |]; reflexivity. Qed.

Section Created.

Variable t : list (jsstring * Row).
Variables request meta : Row.
Variable u : JsVal.
Variables created_at ref : jsstring.
Variables event url : JsVal.

Hypothesis request_pk : field request "pk" = template "user_" u.
Hypothesis request_sk : field request "sk" = JStr created_at.
Hypothesis request_ppk : field request "ppk" = JStr ref.
Hypothesis request_type : field request "type" = str "verification_request".
Hypothesis request_ref : field request "reference" = JStr ref.
Hypothesis request_url : field request "verificationUrl" = url.
Hypothesis meta_pk : field meta "pk" = template "meta_" (JStr ref).
Hypothesis meta_sk : field meta "sk" = str "meta".
Hypothesis meta_ppk : field meta "ppk" = JStr ref.
Hypothesis meta_type : field meta "type" = str "meta".
Hypothesis meta_status : field meta "status" = event.
Hypothesis meta_url : field meta "verificationUrl" = url.
Hypothesis event_active : ACTIVE_EVENTS_has event = true.
Hypothesis url_defined : url <> JUndefined.

Hypothesis request_fresh :
  Map_get (item_key (template "user_" u) (JStr created_at)) t = None.
Hypothesis meta_fresh :
  Map_get (item_key (template "meta_" (JStr ref)) (str "meta")) t = None.
Hypothesis room :
  (List.length (query_rows KEYS.pk (template "user_" u) None t) < 50)%nat.

Lemma created_table :
  Map_set (item_key (field meta "pk") (field meta "sk")) (deepClone meta)
    (Map_set (item_key (field request "pk") (field request "sk")) (deepClone request) t)
  = after_creation t u created_at ref request meta.
Proof.
  unfold after_creation. rewrite request_pk, request_sk, meta_pk, meta_sk.
  apply Map_set_two_fresh; [exact request_fresh|exact meta_fresh|reflexivity].
Qed.

Lemma created_scan_order :
  scan_order (after_creation t u created_at ref request meta) u = deepClone request :: scan_order t u.
Proof.
  assert (Hnew : query_rows KEYS.pk (template "user_" u) None
                   [(item_key (template "user_" u) (JStr created_at), deepClone request);
                    (item_key (template "meta_" (JStr ref)) (str "meta"), deepClone meta)]
                 = [deepClone request]).
  { unfold query_rows, KEYS.pk. cbn [map snd filter].
    rewrite (field_deepClone_str _ _ _ request_pk), (field_deepClone_str _ _ _ meta_pk).
    rewrite jseqb_refl. cbn [map]. rewrite deepClone_idempotent. reflexivity. }
  unfold scan_order, after_creation.
  rewrite !query_rows_room.
  - rewrite query_rows_app, Hnew, rev_app_distr. cbn [rev app filter].
    unfold is_request at 1. rewrite (field_deepClone_str _ _ _ request_type).
    reflexivity.
  - apply Nat.lt_le_incl. exact room.
  - rewrite query_rows_app, Hnew, length_app. cbn [List.length]. lia.
Qed.

Lemma created_meta_for (val : JsVal) :
  meta_for (after_creation t u created_at ref request meta) val
  = if jseqb ref (js_String val) then Some (deepClone meta) else meta_for t val.
Proof.
  unfold meta_for, after_creation. rewrite query_rows_app.
  unfold query_rows at 2. unfold KEYS.gsi_pk. cbn [map snd filter].
  rewrite (field_deepClone_str _ _ _ request_ppk), (field_deepClone_str _ _ _ meta_ppk).
  cbn [js_String]. destruct (jseqb ref (js_String val)).
  - cbn [map]. rewrite rev_app_distr. cbn [rev app]. rewrite !deepClone_idempotent.
    unfold pickMeta_or_first. cbn [pickMeta].
    rewrite (field_deepClone_str _ _ _ meta_type). reflexivity.
  - cbn [map]. rewrite app_nil_r. reflexivity.
Qed.

Lemma created_status (item : Row) :
  jseqb ref (js_String (field item "reference")) = true ->
  entry_status (after_creation t u created_at ref request meta) item = event.
Proof.
  intros H. unfold entry_status. rewrite created_meta_for, H.
  unfold derived_status. cbn [opt_field].
  destruct (active_is_string event event_active) as (Hclone & Htruthy & _).
  rewrite field_deepClone; rewrite meta_status.
  - rewrite Hclone. unfold js_or. rewrite Htruthy. cbn. rewrite Htruthy. reflexivity.
  - intros X. rewrite X in Htruthy. discriminate Htruthy.
Qed.

Lemma created_not_accepted (item : Row) :
  accepted t item = false -> accepted (after_creation t u created_at ref request meta) item = false.
Proof.
  intros H. unfold accepted.
  destruct (jseqb ref (js_String (field item "reference"))) eqn:E.
  - rewrite (created_status item E).
    destruct (active_is_string event event_active) as (_ & _ & Hna). exact Hna.
  - unfold entry_status. rewrite created_meta_for, E. exact H.
Qed.

Lemma created_entry_url :
  entry_url (after_creation t u created_at ref request meta) (deepClone request) = json_clone url.
Proof.
  unfold entry_url. rewrite (field_deepClone_str _ _ _ request_ref).
  rewrite created_meta_for. cbn [js_String]. rewrite jseqb_refl.
  unfold derived_url. cbn [opt_field].
  rewrite !field_deepClone; rewrite ?meta_url, ?request_url; try exact url_defined.
  apply nullish_twice. apply json_clone_defined. exact url_defined.
Qed.

End Created.

Lemma creation_rows (cfg : Config) (h : Host) (a : SessionArgs)
    (c : Clean) (w w0 : World) (payload : JsVal) (res : Response) (parsed : JsVal) :
  resolveSession a w = (Returned (c, Completed None), w0) ->
  build_payload cfg c (documentConfig a) (generateReference h) (session_language cfg c)
  = Returned payload ->
  fetch h (provider_request cfg payload) = Returned res ->
  parse_response h (res_text res) = Some parsed ->
  verifyShuftiSignature cfg (JStr (res_text res)) (response_signature res)
  = Returned true ->
  let w1 := snd (registerLocalRateAndMaybeAlert cfg h "createVerificationSession" w0) in
  let reference := JStr (generateReference h) in
  let event := js_or (get parsed "event") (str "unknown") in
  let verificationUrl := js_or (get parsed "verification_url") JNull in
  exists w' request meta,
    createVerificationSession cfg h a w =
    (Returned (obj [("reference", reference); ("verificationUrl", verificationUrl)]), w')
    /\ table w' =
       Map_set (item_key (field meta "pk") (field meta "sk")) (deepClone meta)
         (Map_set (item_key (field request "pk") (field request "sk"))
            (deepClone request) (table w1))
    /\ field request "pk" = template "user_" (clean_userId c)
    /\ field request "sk" = JStr (Date_toISOString h)
    /\ field request "ppk" = reference
    /\ field request "type" = str "verification_request"
    /\ field request "reference" = reference
    /\ field request "verificationUrl" = verificationUrl
    /\ field meta "pk" = template "meta_" reference
    /\ field meta "sk" = str "meta"
    /\ field meta "ppk" = reference
    /\ field meta "type" = str "meta"
    /\ field meta "status" = event
    /\ field meta "verificationUrl" = verificationUrl.
Proof.
  intros Hres Hpay Hfetch Hparse Hv w1 reference event verificationUrl.
  rewrite (creation_starts cfg h a c w w0 Hres).
  unfold createNewSession, bind. rewrite guard_returns. fold w1.
  unfold lift. rewrite Hpay. step. rewrite Hfetch, Hparse, Hv.
  destruct (res_ok res); step;
    (eexists; eexists; eexists; split; [reflexivity|]; split; [reflexivity|];
     repeat split).
Qed.

(** X21.  A created session is reused.  When a call has created a session
    (the resolver found nothing to reuse, the rate guard raised no alert, the
    provider's answer parsed and its tag verified) and the provider reported
    an event of the ACTIVE set, the same call made again returns
    [{ alreadyHasActive: true }] with the reference just created, the event
    as status and the stored URL, and writes nothing: no second session is
    opened.  The keys of the two rows must be new, and the user's partition
    must hold fewer than fifty rows: the timeline query returns the first
    fifty rows only. *)
Theorem created_session_is_reused (cfg : Config) (h : Host) (a : SessionArgs)
    (c : Clean) (w w0 : World) (payload : JsVal) (res : Response) (parsed : JsVal) :
  resolveSession a w = (Returned (c, Completed None), w0) ->
  (Z.of_nat (List.length (window_after h w0)) <= PER_MINUTE_LIMIT cfg)%Z ->
  build_payload cfg c (documentConfig a) (generateReference h) (session_language cfg c)
  = Returned payload ->
  fetch h (provider_request cfg payload) = Returned res ->
  parse_response h (res_text res) = Some parsed ->
  verifyShuftiSignature cfg (JStr (res_text res)) (response_signature res)
  = Returned true ->
  let reference := JStr (generateReference h) in
  let event := js_or (get parsed "event") (str "unknown") in
  let verificationUrl := js_or (get parsed "verification_url") JNull in
  ACTIVE_EVENTS_has event = true ->
  Map_get (item_key (template "user_" (clean_userId c)) (JStr (Date_toISOString h)))
          (table w) = None ->
  Map_get (item_key (template "meta_" reference) (str "meta")) (table w) = None ->
  (List.length (query_rows KEYS.pk (template "user_" (clean_userId c)) None (table w))
   < 50)%nat ->
  exists w',
    createVerificationSession cfg h a w =
    (Returned (obj [("reference", reference); ("verificationUrl", verificationUrl)]), w')
    /\ forall h' : Host,
         exists w'',
           createVerificationSession cfg h' a w' =
           (Returned (obj [("alreadyHasActive", JBool true);
                           ("reference", reference);
                           ("status", event);
                           ("verificationUrl", json_clone verificationUrl)]), w'')
           /\ same_store w' w''.
Proof.
  intros Hres Hlim Hpay Hfetch Hparse Hv reference event verificationUrl
         Hactive HfreshR HfreshM Hroom.
  pose proof (resolved_clean a c _ w w0 Hres) as Hc.
  pose proof (nothing_reusable a c w w0 Hres) as Hnone.
  destruct (resolve_frame a w w0 _ Hres) as (T0 & _ & _).
  assert (Hurl : verificationUrl <> JUndefined).
  { unfold verificationUrl, js_or.
    destruct (truthy (get parsed "verification_url")) eqn:Et; [|discriminate].
    intros X. rewrite X in Et. discriminate Et. }
  assert (T1 : table (snd (registerLocalRateAndMaybeAlert cfg h
                             "createVerificationSession" w0)) = table w).
  { destruct (guard_step cfg h "createVerificationSession" w0)
      as (w1 & E1 & _ & _ & _ & Hquiet).
    destruct (Hquiet Hlim) as (_ & _ & T1). rewrite E1. cbn [snd].
    rewrite T1. exact T0. }
  destruct (creation_rows cfg h a c w w0 payload res parsed Hres Hpay Hfetch Hparse Hv)
    as (w' & request & meta & Erun & Et & Rpk & Rsk & Rppk & Rty & Rref & Rurl
        & Mpk & Msk & Mppk & Mty & Mst & Murl).
  fold reference event verificationUrl in Erun, Rppk, Rref, Rurl, Mpk, Mppk, Mst, Murl.
  rewrite T1 in Et.
  rewrite (created_table (table w) request meta (clean_userId c) (Date_toISOString h)
             (generateReference h) Rpk Rsk Mpk Msk HfreshR HfreshM) in Et.
  exists w'. split; [exact Erun|]. intros h'.
  pose proof (created_scan_order (table w) request meta (clean_userId c)
                (Date_toISOString h) (generateReference h) Rpk Rty Mpk Hroom) as Hscan.
  rewrite <- Et in Hscan.
  assert (Hst : forall item,
             jseqb (generateReference h) (js_String (field item "reference")) = true ->
             entry_status (table w') item = event).
  { intros item Hi. rewrite Et.
    exact (created_status (table w) request meta (clean_userId c) (Date_toISOString h)
             (generateReference h) event Rppk Mppk Mty Mst Hactive item Hi). }
  assert (Hna : forall item, accepted (table w) item = false ->
                             accepted (table w') item = false).
  { intros item Hi. rewrite Et.
    exact (created_not_accepted (table w) request meta (clean_userId c)
             (Date_toISOString h) (generateReference h) event Rppk Mppk Mty Mst Hactive
             item Hi). }
  assert (Hnew : entry_status (table w') (deepClone request) = event).
  { apply Hst. rewrite (field_deepClone_str _ _ _ Rref). cbn [js_String].
    apply jseqb_refl. }
  destruct (active_is_string event Hactive) as (_ & _ & Hnacc).
  pose proof (scan_first_active c (timeline_of c w') [] (deepClone request)
                (scan_order (table w) (clean_userId c)) w' Hscan) as Hfirst.
  assert (Hrun2 : scanTimeline c (timeline_of c w') None w' =
                  (Returned (Completed (Some (reuse_result "alreadyHasActive"
                     (deepClone request) (entry_status (table w') (deepClone request))
                     (entry_url (table w') (deepClone request))))), w')).
  { apply Hfirst.
    - intros x Hx.
      change (In x (scan_order (table w') (clean_userId c))) in Hx.
      rewrite Hscan in Hx. destruct Hx as [<-|Hx].
      + unfold accepted. rewrite Hnew. exact Hnacc.
      + apply Hna. destruct (Hnone x Hx) as [Hx1 _]. exact Hx1.
    - intros x [].
    - unfold active. rewrite Hnew. exact Hactive. }
  unfold createVerificationSession, bind.
  rewrite (resolve_run a c w' Hc), Hrun2. cbn [snd fst]. step.
  assert (Hu : entry_url (table w') (deepClone request) = json_clone verificationUrl).
  { rewrite Et.
    exact (created_entry_url (table w) request meta (clean_userId c)
             (Date_toISOString h) (generateReference h) verificationUrl
             Rppk Rref Rurl Mppk Mty Murl Hurl). }
  unfold reuse_result. rewrite Hnew, Hu, (field_deepClone_str _ _ _ Rref).
  eexists. split; [reflexivity|repeat split].
Qed.

Lemma created_session_is_reused_witness :
  exists w',
    createVerificationSession test_config (test_host HAPPY) (example_args "u2")
      empty_world =
    (Returned (obj [("reference", str "ref-1735862400000-42");
                    ("verificationUrl", str "https://verify.example/ref-1735862400000-42")]),
     w')
    /\ forall h' : Host,
         exists w'',
           createVerificationSession test_config h' (example_args "u2") w' =
           (Returned (obj [("alreadyHasActive", JBool true);
                           ("reference", str "ref-1735862400000-42");
                           ("status", str "request.pending");
                           ("verificationUrl",
                            str "https://verify.example/ref-1735862400000-42")]), w'')
           /\ same_store w' w''.
Proof.
  edestruct (created_session_is_reused test_config (test_host HAPPY) (example_args "u2")
               (example_clean "u2") empty_world empty_world) as (w' & E & F).
  - reflexivity.
  - vm_compute. discriminate.
  - vm_compute. reflexivity.
  - vm_compute. reflexivity.
  - vm_compute. reflexivity.
  - vm_compute. reflexivity.
  - vm_compute. reflexivity.
  - reflexivity.
  - reflexivity.
  - vm_compute. lia.
  - exists w'. split; [exact E|exact F].
Defined.

(* ------------------------------------------------------------------ *)
(** ** The payload of a new session *)

Lemma assoc_set_field (k k0 : jsstring) (v : JsVal) (a : list (jsstring * JsVal)) :
  assoc k (set_field k0 v a) = if jseqb k k0 then Some v else assoc k a.
Proof.
  induction a as [|[k1 v1] a IH]; cbn [set_field assoc]; [reflexivity|].
  destruct (jseqb k0 k1) eqn:E01; cbn [assoc].
  - apply jseqb_eq in E01. subst k1. destruct (jseqb k k0); reflexivity.
  - rewrite IH. destruct (jseqb k k1) eqn:E1; [|reflexivity].
    apply jseqb_eq in E1. subst k1.
    destruct (jseqb k k0) eqn:E0; [|reflexivity].
    apply jseqb_eq in E0. subst k0. rewrite jseqb_refl in E01. discriminate E01.
Qed.

Lemma assoc_app (k : jsstring) (l1 l2 : list (jsstring * JsVal)) :
  assoc k (l1 ++ l2) = match assoc k l1 with Some v => Some v | None => assoc k l2 end.
Proof.
  induction l1 as [|[k1 v1] l1 IH]; cbn [app assoc]; [reflexivity|].
  destruct (jseqb k k1); [reflexivity|exact IH].
Qed.

(** Spread: the last binding of the source wins, the rest is kept. *)
Lemma assoc_spread (k : jsstring) (b : list (jsstring * JsVal)) :
  forall a : list (jsstring * JsVal),
  assoc k (spread a b)
  = match assoc k (rev b) with Some v => Some v | None => assoc k a end.
Proof.
  unfold spread. induction b as [|[k0 v0] b IH]; intros a; [reflexivity|].
  cbn [fold_left rev fst snd]. rewrite IH, assoc_app, assoc_set_field. cbn [assoc].
  destruct (assoc k (rev b)); [reflexivity|]. destruct (jseqb k k0); reflexivity.
Qed.

(** X22.  The payload of a new session, for a [documentConfig] that is an
    object: it carries the reference and the language of the call, it names
    a callback URL exactly when one is configured, and its verification
    instructions are the ten defaults overridden property by property by the
    caller's [verification_instructions] (the last binding wins, a property
    the caller does not name keeps its default, a property of the caller's
    that is no default is passed on). *)
Theorem payload_instructions (cfg : Config) (c : Clean) (fields : list (jsstring * JsVal))
    (reference language : jsstring) :
  exists payload,
    build_payload cfg c (JObj fields) reference language = Returned payload
    /\ get payload "reference" = JStr reference
    /\ get payload "language" = JStr language
    /\ get payload "callback_url"
       = (if truthy (JStr (CALLBACK_URL cfg)) then JStr (CALLBACK_URL cfg) else JUndefined)
    /\ forall k : string,
         get (get (get payload "document") "verification_instructions") k
         = match last_binding k
                   (spread_source
                      (js_or (get (JObj fields) "verification_instructions") (obj [])))
           with
           | Some v => v
           | None => get default_instructions k
           end.
Proof.
  unfold build_payload. cbn [param_default member obind].
  eexists. split; [reflexivity|].
  destruct (truthy (JStr (CALLBACK_URL cfg))), (truthy (JStr (REDIRECT_URL cfg)));
    (split; [reflexivity|]); (split; [reflexivity|]); (split; [reflexivity|]);
    intros k; unfold last_binding;
    match goal with
    | |- get (get (get ?p "document") "verification_instructions") k = _ =>
        change (get (get p "document") "verification_instructions")
          with (JObj (spread (fields_of default_instructions)
                        (spread_source
                           (js_or (get (JObj fields) "verification_instructions")
                                  (obj [])))))
    end;
    cbn [get]; rewrite assoc_spread;
    destruct (assoc (js k) (rev _)); reflexivity.
Qed.

Section Crowded.

Variable t : list (jsstring * Row).
Variables request meta : Row.
Variable u : JsVal.
Variables created_at ref : jsstring.

Hypothesis request_ppk : field request "ppk" = JStr ref.
Hypothesis meta_ppk : field meta "ppk" = JStr ref.
Hypothesis meta_type : field meta "type" = str "meta".
Hypothesis crowd :
  (50 <= List.length (query_rows KEYS.pk (template "user_" u) None t))%nat.

Lemma crowded_scan_order :
  scan_order (after_creation t u created_at ref request meta) u = scan_order t u.
Proof.
  unfold scan_order, after_creation, query_rows in *.
  rewrite length_map in crowd.
  rewrite map_app, filter_app, firstn_app.
  replace (50 - _)%nat with 0%nat by lia.
  cbn [firstn]. rewrite app_nil_r. reflexivity.
Qed.

Lemma crowded_status (item : Row) :
  js_String (field item "reference") <> ref ->
  accepted (after_creation t u created_at ref request meta) item = accepted t item
  /\ active (after_creation t u created_at ref request meta) item = active t item.
Proof.
  intros Hne. unfold accepted, active, entry_status.
  rewrite (created_meta_for t request meta u created_at ref request_ppk meta_ppk meta_type).
  rewrite jseqb_neq; [split; reflexivity|]. intros E. apply Hne. symmetry. exact E.
Qed.

End Crowded.

(** X23.  Beyond fifty rows a new session is not seen.  The timeline query
    is limited to fifty rows and the in-memory store returns the first fifty
    of the partition, in insertion order, so when the user's partition already holds fifty rows or
    more, the rows of a session just created are outside the batch: the same
    call made again scans the same entries as before, finds nothing to
    reuse, and goes on to create another session. *)
Theorem crowded_timeline_hides_new_session (cfg : Config) (h : Host) (a : SessionArgs)
    (c : Clean) (w w0 : World) (payload : JsVal) (res : Response) (parsed : JsVal) :
  resolveSession a w = (Returned (c, Completed None), w0) ->
  (Z.of_nat (List.length (window_after h w0)) <= PER_MINUTE_LIMIT cfg)%Z ->
  build_payload cfg c (documentConfig a) (generateReference h) (session_language cfg c)
  = Returned payload ->
  fetch h (provider_request cfg payload) = Returned res ->
  parse_response h (res_text res) = Some parsed ->
  verifyShuftiSignature cfg (JStr (res_text res)) (response_signature res)
  = Returned true ->
  let reference := JStr (generateReference h) in
  Map_get (item_key (template "user_" (clean_userId c)) (JStr (Date_toISOString h)))
          (table w) = None ->
  Map_get (item_key (template "meta_" reference) (str "meta")) (table w) = None ->
  (forall x, In x (scan_order (table w) (clean_userId c)) ->
             js_String (field x "reference") <> generateReference h) ->
  (50 <= List.length (query_rows KEYS.pk (template "user_" (clean_userId c)) None
                        (table w)))%nat ->
  exists w',
    createVerificationSession cfg h a w =
    (Returned (obj [("reference", reference);
                    ("verificationUrl", js_or (get parsed "verification_url") JNull)]), w')
    /\ scan_order (table w') (clean_userId c) = scan_order (table w) (clean_userId c)
    /\ resolveSession a w' = (Returned (c, Completed None), w').
Proof.
  intros Hres Hlim Hpay Hfetch Hparse Hv reference HfreshR HfreshM Hnew Hcrowd.
  pose proof (resolved_clean a c _ w w0 Hres) as Hc.
  pose proof (nothing_reusable a c w w0 Hres) as Hnone.
  destruct (resolve_frame a w w0 _ Hres) as (T0 & _ & _).
  assert (T1 : table (snd (registerLocalRateAndMaybeAlert cfg h
                             "createVerificationSession" w0)) = table w).
  { destruct (guard_step cfg h "createVerificationSession" w0)
      as (w1 & E1 & _ & _ & _ & Hquiet).
    destruct (Hquiet Hlim) as (_ & _ & T1). rewrite E1. cbn [snd].
    rewrite T1. exact T0. }
  destruct (creation_rows cfg h a c w w0 payload res parsed Hres Hpay Hfetch Hparse Hv)
    as (w' & request & meta & Erun & Et & Rpk & Rsk & Rppk & _ & _ & _
        & Mpk & Msk & Mppk & Mty & _ & _).
  fold reference in Erun, Rppk, Mpk, Mppk.
  rewrite T1 in Et.
  rewrite (created_table (table w) request meta (clean_userId c) (Date_toISOString h)
             (generateReference h) Rpk Rsk Mpk Msk HfreshR HfreshM) in Et.
  assert (Hscan : scan_order (table w') (clean_userId c)
                  = scan_order (table w) (clean_userId c)).
  { rewrite Et. apply crowded_scan_order. exact Hcrowd. }
  exists w'. split; [exact Erun|]. split; [exact Hscan|].
  rewrite (resolve_run a c w' Hc).
  rewrite (scan_nothing c (timeline_of c w') w'); [reflexivity| |];
    intros x Hx; change (In x (scan_order (table w') (clean_userId c))) in Hx;
    rewrite Hscan in Hx; rewrite Et;
    destruct (crowded_status (table w) request meta (clean_userId c) (Date_toISOString h)
                (generateReference h) Rppk Mppk Mty x (Hnew x Hx)) as [Ea Eb];
    destruct (Hnone x Hx) as [Na Nb]; [rewrite Ea; exact Na|rewrite Eb; exact Nb].
Qed.

Lemma crowded_timeline_hides_new_session_witness :
  exists w',
    createVerificationSession test_config (test_host HAPPY) (example_args "u3") crowded =
    (Returned (obj [("reference", str "ref-1735862400000-42");
                    ("verificationUrl", str "https://verify.example/ref-1735862400000-42")]),
     w')
    /\ resolveSession (example_args "u3") w'
       = (Returned (example_clean "u3", Completed None), w').
Proof.
  edestruct (crowded_timeline_hides_new_session test_config (test_host HAPPY)
               (example_args "u3") (example_clean "u3") crowded crowded)
    as (w' & E & _ & F).
  - vm_compute. reflexivity.
  - vm_compute. discriminate.
  - vm_compute. reflexivity.
  - vm_compute. reflexivity.
  - vm_compute. reflexivity.
  - vm_compute. reflexivity.
  - vm_compute. reflexivity.
  - vm_compute. reflexivity.
  - intros x Hx. vm_compute in Hx.
    repeat (destruct Hx as [<-|Hx]; [vm_compute; discriminate|]). destruct Hx.
  - vm_compute. lia.
  - exists w'. split; [exact E|exact F].
Defined.

(* ------------------------------------------------------------------ *)
(** ** A webhook for a known reference *)

Lemma js_or_first (a b c : JsVal) : truthy a = true -> js_or (js_or a b) c = a.
Proof. intros H. unfold js_or. rewrite H, H. reflexivity. Qed.

(** X24.  A webhook does not change whom a reference belongs to.  When the
    index query finds a Meta Projection for the reference and it names a
    user, a webhook whose tag verifies is filed on that user's timeline,
    whatever [user_id] the payload carries, and the new [meta] row keeps the
    user, the URL, the language and the creation time of the old one (the
    URL becomes [null], the language the default and the creation time now
    only where the old row has none); only [status], [lastEvent] and
    [lastEventAt] follow the webhook. *)
Theorem webhook_keeps_identity (cfg : Config) (h : Host)
    (body sig payload : JsVal) (m : Row) (w : World) :
  verifyShuftiSignature cfg body sig = Returned true ->
  JSON_parse h (js_String body) = Some payload ->
  let reference := js_or (get payload "reference") (str "unknown") in
  let event := js_or (get payload "event") (str "unknown") in
  meta_for (table w) reference = Some m ->
  truthy (field m "userId") = true ->
  exists w' entry meta,
    handleWebhook cfg h body sig w =
    (Returned (obj [("ok", JBool true); ("reference", reference); ("event", event)]), w')
    /\ puts w' = puts w ++ [entry; meta]
    /\ field entry "type" = str "webhook_event"
    /\ field entry "pk" = template "user_" (field m "userId")
    /\ field entry "userId" = field m "userId"
    /\ field entry "event" = event
    /\ field meta "type" = str "meta"
    /\ field meta "pk" = template "meta_" reference
    /\ field meta "userId" = field m "userId"
    /\ field meta "status" = event
    /\ field meta "lastEvent" = event
    /\ field meta "lastEventAt" = JStr (Date_toISOString h)
    /\ field meta "verificationUrl" = js_nullish (field m "verificationUrl") JNull
    /\ field meta "language"
       = js_nullish (field m "language") (JStr (DEFAULT_LANGUAGE cfg))
    /\ field meta "created_at"
       = js_nullish (field m "created_at") (JStr (Date_toISOString h)).
Proof.
  intros Hv Hp reference event Hm Hu.
  destruct (webhook_stored cfg h body sig payload w Hv Hp)
    as (w' & entry & meta & E & P & _ & _ & _ & Et & Epk & _ & Eu & _ & Ee
        & Mt & Mpk & _ & Mu & _ & Ms & Ml & Mla & Mv & Mlg & Mc).
  fold reference in E, Epk, Eu, Mpk, Mu, Mv, Mlg, Mc. fold event in E, Ee, Ms, Ml.
  rewrite Hm in Epk, Eu, Mu, Mv, Mlg, Mc. cbn [opt_field] in Epk, Eu, Mu, Mv, Mlg, Mc.
  rewrite (js_or_first _ _ _ Hu) in Epk, Eu, Mu.
  exists w', entry, meta.
  split; [exact E|]. split; [exact P|]. split; [exact Et|]. split; [exact Epk|].
  split; [exact Eu|]. split; [exact Ee|]. split; [exact Mt|]. split; [exact Mpk|].
  split; [exact Mu|]. split; [exact Ms|]. split; [exact Ml|]. split; [exact Mla|].
  split; [exact Mv|]. split; [exact Mlg|]. exact Mc.
Qed.

Lemma webhook_keeps_identity_witness :
  exists w' entry meta,
    handleWebhook test_config (test_host HAPPY) (JStr foreign_webhook_body)
      (JStr (expected_tag test_config foreign_webhook_body)) one_pending =
    (Returned (obj [("ok", JBool true); ("reference", str "ref-b");
                    ("event", str "verification.declined")]), w')
    /\ puts w' = puts one_pending ++ [entry; meta]
    /\ field entry "pk" = str "user_u1"
    /\ field meta "userId" = str "u1"
    /\ field meta "status" = str "verification.declined".
Proof.
  edestruct (webhook_keeps_identity test_config (test_host HAPPY)
               (JStr foreign_webhook_body)
               (JStr (expected_tag test_config foreign_webhook_body)))
    as (w' & entry & meta & E & P & _ & Epk & _ & _ & _ & _ & Mu & Ms & _).
  - vm_compute. reflexivity.
  - vm_compute. reflexivity.
  - instantiate (2 := one_pending). vm_compute. reflexivity.
  - vm_compute. reflexivity.
  - exists w', entry, meta.
    split; [exact E|]. split; [exact P|]. split; [exact Epk|]. split; [exact Mu|exact Ms].
Defined.

(* ------------------------------------------------------------------ *)
(** ** A manual override decides validation *)

Section Override_write.

Variable t : list (jsstring * Row).
Variables meta change : Row.
Variables user created_at : JsVal.
Variable R : jsstring.

Hypothesis shape : ledger_shape t.
Hypothesis fresh : Map_get (item_key (template "user_" user) created_at) t = None.
Hypothesis change_type : field change "type" = str "status_change".
Hypothesis meta_type : field meta "type" = str "meta".
Hypothesis meta_pk : field meta "pk" = template "meta_" (JStr R).
Hypothesis meta_ppk : field meta "ppk" = JStr R.

Lemma override_fresh :
  Map_get (item_key (template "user_" user) created_at)
    (Map_set (item_key (template "meta_" (JStr R)) (str "meta")) (deepClone meta) t)
  = None.
Proof. rewrite Map_get_set_other; [exact fresh|reflexivity]. Qed.

Lemma change_clone_type :
  field (deepClone (deepClone change)) "type" = str "status_change".
Proof.
  rewrite deepClone_idempotent. apply field_deepClone_str. exact change_type.
Qed.

Lemma override_keeps_scan_order (u : JsVal) :
  scan_order (after_override t user created_at R meta change) u = scan_order t u.
Proof.
  unfold scan_order, query_rows, after_override, KEYS.pk.
  rewrite (Map_set_fresh _ _ _ override_fresh), map_app, filter_app.
  rewrite filter_Map_set_skip; cbn beta.
  - apply scan_rows_app. intros x Hx.
    apply filter_In in Hx. destruct Hx as [[<-|[]] _].
    unfold is_request. cbn [map snd]. rewrite change_clone_type. reflexivity.
  - rewrite (field_deepClone_str _ _ _ meta_pk). reflexivity.
  - intros old Hold. destruct shape as [_ Hrows].
    destruct (Hrows _ _ Hold) as (_ & Hk & _).
    exact (meta_key_pk _ _ _ _ u Hk).
Qed.

Lemma override_meta_for :
  meta_for (after_override t user created_at R meta change) (JStr R)
  = Some (deepClone meta).
Proof.
  destruct shape as [Hnd Hrows].
  assert (Hm : of_type "meta" (deepClone meta) = true).
  { unfold of_type. rewrite (field_deepClone_str _ _ _ meta_type). reflexivity. }
  assert (Hin : In (deepClone meta)
                  (rev (query_rows KEYS.gsi_pk (JStr R) None
                          (after_override t user created_at R meta change)))).
  { apply -> in_rev. unfold query_rows, after_override.
    rewrite (Map_set_fresh _ _ _ override_fresh), map_app, filter_app, map_app.
    apply in_or_app. left.
    rewrite <- (deepClone_idempotent meta) at 1. apply in_map. apply filter_In. split.
    - exact (in_map snd _ _
               (Map_set_has (item_key (template "meta_" (JStr R)) (str "meta"))
                  (deepClone meta) t)).
    - unfold KEYS.gsi_pk. rewrite (field_deepClone_str _ _ _ meta_ppk). apply jseqb_refl. }
  unfold meta_for, pickMeta_or_first.
  destruct (pickMeta (rev (query_rows KEYS.gsi_pk (JStr R) None
                             (after_override t user created_at R meta change))))
    as [m|] eqn:Pm.
  2:{ pose proof (pickMeta_none _ Pm _ Hin) as F. unfold of_type in Hm.
      rewrite Hm in F. discriminate F. }
  destruct (pickMeta_some _ _ Pm) as [Hmin Hmt].
  apply in_rev in Hmin. unfold query_rows in Hmin. apply in_map_iff in Hmin.
  destruct Hmin as (r & <- & Hr). apply filter_In in Hr. destruct Hr as [Hr Hq].
  apply in_map_iff in Hr. destruct Hr as ([k r0] & Er & Hkr). cbn [snd] in Er. subst r0.
  unfold after_override in Hkr. rewrite (Map_set_fresh _ _ _ override_fresh) in Hkr.
  apply in_app_or in Hkr. destruct Hkr as [Hkr|[E|[]]].
  - apply Map_set_In in Hkr; [|exact Hnd].
    destruct Hkr as [[_ ->]|[Hkr Hne]].
    + rewrite deepClone_idempotent. reflexivity.
    + exfalso. destruct (Hrows _ _ Hkr) as (Hc & _ & Hmeta). rewrite Hc in Hmt.
      apply Hne. rewrite (Hmeta Hmt). unfold template.
      apply jseqb_eq in Hq. cbn [js_String] in Hq. unfold KEYS.gsi_pk in *.
      rewrite Hq. reflexivity.
  - exfalso. injection E as _ <-. rewrite change_clone_type in Hmt. discriminate Hmt.
Qed.

End Override_write.

Lemma update_rows (cfg : Config) (h : Host) (R : jsstring) (newStatus : JsVal)
    (m : Row) (w : World) :
  meta_or_lookup (table w) (JStr R) = Some m ->
  exists w' meta change,
    updateRecordStatus cfg h (JStr R) newStatus w = (Returned true, w')
    /\ table w' =
       after_override (table w) (field m "userId") (JStr (Date_toISOString h)) R
         meta change
    /\ field change "type" = str "status_change"
    /\ field meta "type" = str "meta"
    /\ field meta "pk" = template "meta_" (JStr R)
    /\ field meta "ppk" = JStr R
    /\ field meta "status" = newStatus.
Proof.
  intros Hm. unfold meta_or_lookup, meta_for in Hm.
  unfold updateRecordStatus, bind, query. step.
  destruct (pickMeta_or_first _) as [m0|].
  - injection Hm as ->. step.
    eexists. eexists. eexists. split; [reflexivity|]. split; [reflexivity|]. repeat split.
  - unfold getItem. step. rewrite Hm. step.
    eexists. eexists. eexists. split; [reflexivity|]. split; [reflexivity|]. repeat split.
Qed.

(** X25.  A manual override decides validation.  On a ledger of the shape
    the service writes, [updateRecordStatus] with a string status, for a
    reference whose Meta Projection can be resolved, returns true, leaves the
    scan order of every user as it was, and makes the status it was given the
    status of the reference: afterwards an entry of that reference counts as
    validated exactly when the new status is [verification.accepted], so an
    override to it validates every user who has such an entry in their
    scanned batch, and an override to anything else withdraws it.  The
    timeline key of the [status_change] entry must be free. *)
Theorem override_decides_validation (cfg : Config) (h : Host) (R s : jsstring)
    (m : Row) (w : World) :
  ledger_shape (table w) ->
  meta_or_lookup (table w) (JStr R) = Some m ->
  Map_get (item_key (template "user_" (field m "userId")) (JStr (Date_toISOString h)))
          (table w) = None ->
  exists w',
    updateRecordStatus cfg h (JStr R) (JStr s) w = (Returned true, w')
    /\ (forall u, scan_order (table w') u = scan_order (table w) u)
    /\ (forall item,
          field item "reference" = JStr R ->
          validated (table w') item = jseqb s (js KYC_EVENT.VERIFICATION_ACCEPTED))
    /\ (forall u item,
          In item (scan_order (table w) u) ->
          field item "reference" = JStr R ->
          s = js KYC_EVENT.VERIFICATION_ACCEPTED ->
          isUserValidated u w' = (Returned true, w')).
Proof.
  intros Hshape Hm Hfresh.
  destruct (update_rows cfg h R (JStr s) m w Hm)
    as (w' & meta & change & Erun & Et & Cty & Mty & Mpk & Mppk & Mst).
  assert (Hscan : forall u, scan_order (table w') u = scan_order (table w) u).
  { intros u. rewrite Et.
    exact (override_keeps_scan_order (table w) meta change _ _ R Hshape Hfresh
             Cty Mpk u). }
  assert (Hval : forall item,
             field item "reference" = JStr R ->
             validated (table w') item = jseqb s (js KYC_EVENT.VERIFICATION_ACCEPTED)).
  { intros item Hi. unfold validated. rewrite Hi, Et.
    rewrite (override_meta_for (table w) meta change _ _ R Hshape Hfresh Cty Mty Mppk).
    cbn [opt_field]. rewrite (field_deepClone_str _ _ _ Mst). reflexivity. }
  exists w'. split; [exact Erun|]. split; [exact Hscan|]. split; [exact Hval|].
  intros u item Hin Hi Hs. rewrite isUserValidated_run.
  replace (existsb (validated (table w')) (scan_order (table w') u)) with true;
    [reflexivity|].
  symmetry. apply existsb_exists. exists item. split.
  - rewrite Hscan. exact Hin.
  - rewrite (Hval item Hi), Hs. reflexivity.
Qed.

Lemma override_decides_validation_witness :
  exists w',
    updateRecordStatus test_config (test_host HAPPY) (str "ref-b")
      (str KYC_EVENT.VERIFICATION_ACCEPTED) one_pending = (Returned true, w')
    /\ isUserValidated (str "u1") w' = (Returned true, w').
Proof.
  edestruct (override_decides_validation test_config (test_host HAPPY) (js "ref-b")
               (js KYC_EVENT.VERIFICATION_ACCEPTED)) as (w' & E & _ & _ & V).
  - instantiate (1 := one_pending). split.
    + vm_compute. repeat constructor; cbn [In]; intuition discriminate.
    + intros k r [E|[E|[]]]; injection E as <- <-; vm_compute;
        (split; [reflexivity|]); (split; [reflexivity|]); intros H;
        [discriminate H|reflexivity].
  - vm_compute. reflexivity.
  - vm_compute. reflexivity.
  - exists w'. split; [exact E|].
    apply (V (str "u1")
             (example_request "u1" "ref-b" "2025-01-02T00:00:00.000Z" "request.pending")).
    + vm_compute. left. reflexivity.
    + reflexivity.
    + reflexivity.
Defined.
